(** * Lyra Hocuspocus Server: access control and resource governance

    A shallow embedding of the admission layer of the server:
    - [Js]            the JavaScript primitives the code relies on (truthiness,
                      [parseInt], [Number.prototype.toString], integers with NaN);
    - [Auth]          src/middleware/auth.ts;
    - [Redis]         src/utils/redis.ts (tiered store: Redis client or the
                      in-process [memoryCache]) and its room operations;
    - [RoomIsolation] src/middleware/room-isolation.ts (membership cache);
    - [RateLimit]     src/middleware/rate-limit.ts;
    - [RoomApi]       src/api/room.ts (register, join, add-member, get-token,
                      room information);
    - [Index]         the server entry point (onConnect, onDisconnect and
                      beforeHandleMessage hooks);
    - [Async]         interleavings of asynchronous calls at their [await] points;
    - [Wire]          a reference implementation of the [jsonwebtoken] and JSON
                      interfaces, on which the results are run on concrete data.

    Time is explicit: every operation receives the value of [Date.now()] (in
    milliseconds) under which it runs. *)

From Stdlib Require Import ZArith String Ascii List Bool Lia.
From Stdlib Require Import DecimalString DecimalZ DecimalPos.
From stdpp Require Import base gmap strings list.

Local Open Scope string_scope.
Local Open Scope Z_scope.

(* ===================================================================== *)
(** ** JavaScript primitives *)
(* ===================================================================== *)

Module Js.

(** The numbers the server computes with are integers (counters, instants in
    milliseconds) or the NaN that [parseInt] produces on a non-numeric text. *)
Inductive number : Type :=
| Int (z : Z)
| NaN.

(** [!s] is true exactly for the empty string (and for a missing value, which
    the embedding represents by the empty string where a field is optional). *)
Definition truthy (s : string) : bool := negb (String.eqb s "").

(** Truthiness of [string | null]. *)
Definition truthy_opt (o : option string) : bool :=
  match o with
  | Some s => truthy s
  | None => false
  end.

(** [n.toString()] on an integer is its decimal text; on NaN it is "NaN". *)
Definition toString (n : number) : string :=
  match n with
  | Int z => NilZero.string_of_int (Z.to_int z)
  | NaN => "NaN"
  end.

(** White space skipped by [parseInt] (the ASCII part of it). *)
Definition isWhiteSpace (c : ascii) : bool :=
  match c with
  | " "%char | "009"%char | "010"%char | "011"%char | "012"%char | "013"%char => true
  | _ => false
  end.

Definition isDigit (c : ascii) : bool :=
  match c with
  | "0"%char | "1"%char | "2"%char | "3"%char | "4"%char
  | "5"%char | "6"%char | "7"%char | "8"%char | "9"%char => true
  | _ => false
  end.

Fixpoint trimStart (s : string) : string :=
  match s with
  | String c s' => if isWhiteSpace c then trimStart s' else s
  | EmptyString => EmptyString
  end.

(** The longest prefix of decimal digits. *)
Fixpoint digitsPrefix (s : string) : string :=
  match s with
  | String c s' => if isDigit c then String c (digitsPrefix s') else EmptyString
  | EmptyString => EmptyString
  end.

(** [parseInt(s, 10)]: leading white space, an optional sign, then the longest
    run of digits; NaN when that run is empty. *)
Definition parseInt (s : string) : number :=
  let s1 := trimStart s in
  let '(negative, s2) :=
    match s1 with
    | String "-"%char r => (true, r)
    | String "+"%char r => (false, r)
    | _ => (false, s1)
    end in
  match NilZero.uint_of_string (digitsPrefix s2) with
  | Some d => Int (if negative then - Z.of_uint d else Z.of_uint d)
  | None => NaN
  end.

(** Arithmetic and comparisons; every comparison with NaN is false. *)
Definition add (n : number) (k : Z) : number :=
  match n with
  | Int z => Int (z + k)
  | NaN => NaN
  end.

Definition leb (n : number) (k : Z) : bool :=
  match n with Int z => z <=? k | NaN => false end.

Definition geb (n : number) (k : Z) : bool :=
  match n with Int z => k <=? z | NaN => false end.

Definition gtb (n : number) (k : Z) : bool :=
  match n with Int z => k <? z | NaN => false end.

(** [Math.max(0, k - n)]; NaN when [n] is. *)
Definition remaining (k : Z) (n : number) : number :=
  match n with
  | Int z => Int (Z.max 0 (k - z))
  | NaN => NaN
  end.

(** [Array.prototype.includes] on an array of strings. *)
Definition includes (l : list string) (x : string) : bool :=
  existsb (String.eqb x) l.

(** What a function call produces: a value, or an exception carrying a
    message. *)
Inductive outcome (A : Type) : Type :=
| Return (a : A)
| Throw (e : string).
Arguments Return {A} a.
Arguments Throw {A} e.

End Js.
Export Js.

(* ===================================================================== *)
(** ** Configuration (src/config.ts) *)
(* ===================================================================== *)

Record Config : Type := {
  jwtSecret : string;
  rateLimitMessagesPerMinute : Z;
  rateLimitConnectionsPerIp : Z;
  rateLimitRoomMessagesPerMinute : Z;
  rateLimitHttpRequestsPerMinute : Z
}.

(** The defaults of [loadConfig]. *)
Definition defaultConfig : Config := {|
  jwtSecret := "dev-secret-please-change-in-production";
  rateLimitMessagesPerMinute := 300;
  rateLimitConnectionsPerIp := 100;
  rateLimitRoomMessagesPerMinute := 1000;
  rateLimitHttpRequestsPerMinute := 60
|}.

(* ===================================================================== *)
(** ** Token authentication (src/middleware/auth.ts) *)
(* ===================================================================== *)

Module Auth.

(** [JwtPayload]. In a payload decoded from an arbitrary token a field may be
    missing; a missing text is represented by [""] and a missing [exp] by [0],
    the values the code's truthiness tests cannot tell from a missing one. *)
Record JwtPayload : Type := {
  jp_userId : string;
  jp_roomId : string;
  jp_role : string;
  jp_exp : Z
}.

Inductive Role : Type := host | guest.

Definition role_name (r : Role) : string :=
  match r with
  | host => "host"
  | guest => "guest"
  end.

(** [AuthResult]. *)
Record AuthResult : Type := {
  success : bool;
  ar_userId : option string;
  ar_roomId : option string;
  ar_role : option string;
  error : option string
}.

Definition failure (msg : string) : AuthResult :=
  {| success := false; ar_userId := None; ar_roomId := None;
     ar_role := None; error := Some msg |}.

(** What [jwt.verify] does: it returns the decoded payload or throws. *)
Inductive JwtVerify : Type :=
| Decoded (p : JwtPayload)
| TokenExpiredError
| JsonWebTokenError
| OtherError.

(** The [jsonwebtoken] library. [jwt_sign payload secret] is
    [jwt.sign(payload, secret)]: the token, or [None] where the call throws,
    which it does exactly for an empty secret ("secretOrPrivateKey must have
    a value"). [jwt_verify token secret now] is [jwt.verify(token, secret)]
    run when [Date.now()] is [now]. The library reads the [exp] claim as a
    number of seconds: verifying a token signed with the same secret throws
    [TokenExpiredError] when [floor(now / 1000) >= exp] and returns the
    payload otherwise. A signed token is a non-empty text. *)
Class Jwt : Type := {
  jwt_sign : JwtPayload -> string -> option string;
  jwt_verify : string -> string -> Z -> JwtVerify;
  jwt_sign_throws : forall p secret, jwt_sign p secret = None <-> secret = "";
  jwt_verify_sign : forall p secret token now,
    jwt_sign p secret = Some token ->
    jwt_verify token secret now =
      if jp_exp p <=? now / 1000 then TokenExpiredError else Decoded p;
  jwt_sign_nonempty : forall p secret token,
    jwt_sign p secret = Some token -> token <> ""
}.

(** Is [c] different from the colon? *)
Definition notColon (c : ascii) : bool := negb (Ascii.eqb c ":"%char).

(** The longest colon-free prefix of [s], and what follows it. *)
Fixpoint spanNotColon (s : string) : string * string :=
  match s with
  | String c s' =>
      if notColon c
      then let '(p, rest) := spanNotColon s' in (String c p, rest)
      else (EmptyString, s)
  | EmptyString => (EmptyString, EmptyString)
  end.

(** [s] without the prefix [p], when it starts with it. *)
Fixpoint stripPrefix (p s : string) : option string :=
  match p, s with
  | EmptyString, _ => Some s
  | String a p', String b s' => if Ascii.eqb a b then stripPrefix p' s' else None
  | String _ _, EmptyString => None
  end.

(** [documentName.match(/^room:([^:]+):/)], returning group 1. The greedy
    [[^:]+] takes the longest colon-free run after "room:"; the match succeeds
    when that run is not empty and a colon follows it (no shorter run can be
    followed by a colon). *)
Definition extractRoomIdFromDocumentName (documentName : string) : option string :=
  match stripPrefix "room:" documentName with
  | Some rest =>
      match spanNotColon rest with
      | (EmptyString, _) => None
      | (r, String _ _) => Some r
      | (_, EmptyString) => None
      end
  | None => None
  end.

Section WithJwt.
Context `{Jwt}.

Definition verifyToken (cfg : Config) (now : Z) (token : string) : AuthResult :=
  match jwt_verify token (jwtSecret cfg) now with
  | Decoded decoded =>
      if negb (truthy (jp_userId decoded)) || negb (truthy (jp_roomId decoded))
         || negb (truthy (jp_role decoded))
      then failure "Invalid token payload"
      else if negb (jp_exp decoded =? 0) && (jp_exp decoded <? now)
      then failure "Token expired"
      else {| success := true;
              ar_userId := Some (jp_userId decoded);
              ar_roomId := Some (jp_roomId decoded);
              ar_role := Some (jp_role decoded);
              error := None |}
  | TokenExpiredError => failure "Token expired"
  | JsonWebTokenError => failure "Invalid token"
  | OtherError => failure "Authentication failed"
  end.

(** The result is the pair (token, expiresAt); the call throws where
    [jwt.sign] does. *)
Definition generateToken (cfg : Config) (now : Z)
    (userId roomId : string) (role : Role) : outcome (string * Z) :=
  let expiresAt := now + 7 * 24 * 60 * 60 * 1000 in
  let payload := {| jp_userId := userId; jp_roomId := roomId;
                    jp_role := role_name role; jp_exp := expiresAt |} in
  match jwt_sign payload (jwtSecret cfg) with
  | Some token => Return (token, expiresAt)
  | None => Throw "secretOrPrivateKey must have a value"
  end.

(** [token] is [string | undefined]. *)
Definition authenticateForDocument (cfg : Config) (now : Z)
    (token : option string) (documentName : string) : AuthResult :=
  if negb (truthy_opt token) then failure "Missing authentication token"
  else
    let authResult := verifyToken cfg now (default "" token) in
    if negb (success authResult) then authResult
    else
      match extractRoomIdFromDocumentName documentName with
      | None => failure "Invalid document name format"
      | Some documentRoomId =>
          if negb (truthy documentRoomId) then failure "Invalid document name format"
          else if negb (bool_decide (ar_roomId authResult = Some documentRoomId))
          then failure "Room ID mismatch"
          else authResult
      end.

(** The identity the hook hands to the transport. *)
Record Identity : Type := {
  id_userId : string;
  id_role : string
}.

Definition onAuthenticate (cfg : Config) (now : Z)
    (token : option string) (documentName : string) : outcome Identity :=
  let result := authenticateForDocument cfg now token documentName in
  if negb (success result)
  then Throw (if truthy_opt (error result)
              then default "" (error result) else "Authentication failed")
  else Return {| id_userId := default "" (ar_userId result);
                 id_role := default "" (ar_role result) |}.

End WithJwt.

End Auth.

(* ===================================================================== *)
(** ** The environment and the state of the process *)
(* ===================================================================== *)

(** What a call observes of its surroundings: the clock, whether
    [getRedisClient()] returns a client whose status is "ready", and whether a
    command sent to that client is rejected (connection lost, retries
    exhausted), which makes the awaiting call throw. A call run as one piece
    sees one environment: one instant (the time its body takes is not
    modelled) and one state of the client, so that a rejection is the
    rejection of the first command the call sends. Calls cut at their
    [await]s (module [Async]) see one environment per piece: there the clock
    moves on between two commands, and a command can be rejected after an
    earlier one went through. *)
Record Env : Type := {
  env_now : Z;
  env_ready : bool;
  env_fault : bool
}.

(** A key of the Redis server: its text and, when it has one, the instant (ms)
    at which it expires. *)
Record RedisEntry : Type := {
  r_value : string;
  r_expireAt : option Z
}.

(** An entry of [memoryCache]; [expiresAt = 0] means no expiry. *)
Record CacheEntry : Type := {
  value : string;
  expiresAt : Z
}.

(** An entry of [roomMetadataCache]. *)
Record CachedMembers : Type := {
  cm_members : list string;
  cm_expiresAt : Z
}.

(** The Redis keyspace and the module-level maps of the process. *)
Record World : Type := {
  redis : gmap string RedisEntry;
  memoryCache : gmap string CacheEntry;
  roomMetadataCache : gmap string CachedMembers;
  ipConnectionCounts : gmap string number
}.

Definition emptyWorld : World := {|
  redis := ∅; memoryCache := ∅; roomMetadataCache := ∅; ipConnectionCounts := ∅
|}.

Definition set_redis (f : gmap string RedisEntry -> gmap string RedisEntry)
    (w : World) : World :=
  {| redis := f (redis w); memoryCache := memoryCache w;
     roomMetadataCache := roomMetadataCache w;
     ipConnectionCounts := ipConnectionCounts w |}.

Definition set_memoryCache (f : gmap string CacheEntry -> gmap string CacheEntry)
    (w : World) : World :=
  {| redis := redis w; memoryCache := f (memoryCache w);
     roomMetadataCache := roomMetadataCache w;
     ipConnectionCounts := ipConnectionCounts w |}.

Definition set_roomMetadataCache
    (f : gmap string CachedMembers -> gmap string CachedMembers)
    (w : World) : World :=
  {| redis := redis w; memoryCache := memoryCache w;
     roomMetadataCache := f (roomMetadataCache w);
     ipConnectionCounts := ipConnectionCounts w |}.

Definition set_ipConnectionCounts (f : gmap string number -> gmap string number)
    (w : World) : World :=
  {| redis := redis w; memoryCache := memoryCache w;
     roomMetadataCache := roomMetadataCache w;
     ipConnectionCounts := f (ipConnectionCounts w) |}.

(** Computations of the server: they read the environment, update the world and
    return or throw. A throw keeps the updates made before it. *)
Definition M (A : Type) : Type := Env -> World -> outcome A * World.

Definition ret {A} (a : A) : M A := fun _ w => (Return a, w).

Definition throw {A} (e : string) : M A := fun _ w => (Throw e, w).

Definition bind {A B} (m : M A) (k : A -> M B) : M B :=
  fun env w =>
    match m env w with
    | (Return a, w') => k a env w'
    | (Throw e, w') => (Throw e, w')
    end.

(** [try { m } catch (error) { h }]. *)
Definition tryCatch {A} (m : M A) (h : string -> M A) : M A :=
  fun env w =>
    match m env w with
    | (Return a, w') => (Return a, w')
    | (Throw e, w') => h e env w'
    end.

Definition dateNow : M Z := fun env w => (Return (env_now env), w).

(** A call of a function that touches neither the clock nor the state. *)
Definition call {A} (o : outcome A) : M A := fun _ w => (o, w).

Declare Scope monad_scope.
Delimit Scope monad_scope with monad.
Notation "x <- m ;; k" := (bind m (fun x => k))
  (at level 100, m at next level, right associativity) : monad_scope.
Notation "m ;;; k" := (bind m (fun _ => k))
  (at level 100, right associativity) : monad_scope.
Local Open Scope monad_scope.

(* ===================================================================== *)
(** ** The Redis server, as the client's commands see it *)
(* ===================================================================== *)

(** The commands the code sends, with the behaviour the Redis command
    reference gives them; the keyspace is a map from keys to entries. *)
Module RedisServer.

(** A key is there until its expiry instant has passed. *)
Definition live (now : Z) (e : RedisEntry) : bool :=
  match r_expireAt e with
  | Some t => now <=? t
  | None => true
  end.

Definition lookup (now : Z) (db : gmap string RedisEntry) (key : string)
    : option RedisEntry :=
  match db !! key with
  | Some e => if live now e then Some e else None
  | None => None
  end.

(** The text of a canonical signed 64-bit integer, as INCR requires. *)
Definition integer (s : string) : option Z :=
  match NilZero.int_of_string s with
  | Some d =>
      let z := Z.of_int d in
      if String.eqb (toString (Int z)) s
         && (- 2 ^ 63 <=? z) && (z <=? 2 ^ 63 - 1)
      then Some z else None
  | None => None
  end.

Definition GET (now : Z) (key : string) (db : gmap string RedisEntry)
    : option string :=
  r_value <$> lookup now db key.

(** SET drops any expiry the key had. *)
Definition SET (key v : string) (db : gmap string RedisEntry)
    : gmap string RedisEntry :=
  <[key := {| r_value := v; r_expireAt := None |}]> db.

Definition SETEX (now : Z) (key : string) (ttlSeconds : Z) (v : string)
    (db : gmap string RedisEntry) : gmap string RedisEntry :=
  <[key := {| r_value := v; r_expireAt := Some (now + ttlSeconds * 1000) |}]> db.

Definition DEL (key : string) (db : gmap string RedisEntry)
    : gmap string RedisEntry :=
  delete key db.

Definition EXISTS (now : Z) (key : string) (db : gmap string RedisEntry) : Z :=
  match lookup now db key with
  | Some _ => 1
  | None => 0
  end.

(** INCR: an absent key counts from 0 and gets no expiry; a present one keeps
    its expiry; a text that is no integer, or an overflow, is an error. *)
Definition INCR (now : Z) (key : string) (db : gmap string RedisEntry)
    : option (Z * gmap string RedisEntry) :=
  match lookup now db key with
  | Some e =>
      match integer (r_value e) with
      | Some z =>
          if z + 1 <=? 2 ^ 63 - 1
          then Some (z + 1,
                 <[key := {| r_value := toString (Int (z + 1));
                             r_expireAt := r_expireAt e |}]> db)
          else None
      | None => None
      end
  | None => Some (1, <[key := {| r_value := "1"; r_expireAt := None |}]> db)
  end.

(** EXPIRE on a present key sets its expiry; on an absent one it does nothing. *)
Definition EXPIRE (now : Z) (key : string) (ttlSeconds : Z)
    (db : gmap string RedisEntry) : gmap string RedisEntry :=
  match lookup now db key with
  | Some e =>
      <[key := {| r_value := r_value e;
                  r_expireAt := Some (now + ttlSeconds * 1000) |}]> db
  | None => db
  end.

End RedisServer.

(* ===================================================================== *)
(** ** The tiered store (src/utils/redis.ts) *)
(* ===================================================================== *)

Module Redis.

(** The message of the error a rejected Redis command throws. *)
Definition commandRejected : string := "Redis command rejected".

(** Runs a Redis command on the keyspace; throws when the client rejects it,
    which is the [env_fault] of the piece of code that sends it. *)
Definition command {A} (f : Z -> gmap string RedisEntry ->
                               option (A * gmap string RedisEntry)) : M A :=
  fun env w =>
    if env_fault env then (Throw commandRejected, w)
    else
      match f (env_now env) (redis w) with
      | Some (a, db) => (Return a, set_redis (fun _ => db) w)
      | None => (Throw commandRejected, w)
      end.

(** [client && client.status === "ready"]. *)
Definition clientReady : M bool := fun env w => (Return (env_ready env), w).

Definition expired (now : Z) (data : CacheEntry) : Prop :=
  0 < expiresAt data /\ expiresAt data < now.

#[global] Instance expired_dec now data : Decision (expired now data).
Proof. unfold expired. apply _. Defined.

(** [cleanupMemoryCache()]: drops every entry whose expiry has passed. *)
Definition cleanupMemoryCache : M unit :=
  fun env w =>
    (Return tt,
     set_memoryCache
       (filter (fun kv : string * CacheEntry => ~ expired (env_now env) kv.2)) w).

(** [ttlSeconds] is optional; [0] is as good as missing. *)
Definition ttlGiven (ttlSeconds : option Z) : option Z :=
  match ttlSeconds with
  | Some t => if t =? 0 then None else Some t
  | None => None
  end.

Definition setValue (key v : string) (ttlSeconds : option Z) : M unit :=
  ready <- clientReady ;;
  if ready then
    match ttlGiven ttlSeconds with
    | Some t =>
        command (fun now db =>
          if 0 <? t then Some (tt, RedisServer.SETEX now key t v db) else None)
    | None => command (fun _ db => Some (tt, RedisServer.SET key v db))
    end
  else
    now <- dateNow ;;
    fun _ w =>
      (Return tt,
       set_memoryCache
         (insert key {| value := v;
                        expiresAt := match ttlGiven ttlSeconds with
                                     | Some t => now + t * 1000
                                     | None => 0
                                     end |}) w).

Definition memoryGet (key : string) : M (option CacheEntry) :=
  fun _ w => (Return (memoryCache w !! key), w).

Definition memoryDelete (key : string) : M unit :=
  fun _ w => (Return tt, set_memoryCache (delete key) w).

Definition memorySet (key : string) (data : CacheEntry) : M unit :=
  fun _ w => (Return tt, set_memoryCache (insert key data) w).

Definition getValue (key : string) : M (option string) :=
  ready <- clientReady ;;
  if ready then
    command (fun now db => Some (RedisServer.GET now key db, db))
  else
    cleanupMemoryCache ;;;
    data <- memoryGet key ;;
    match data with
    | None => ret None
    | Some data =>
        now <- dateNow ;;
        if bool_decide (expired now data)
        then memoryDelete key ;;; ret None
        else ret (Some (value data))
    end.

Definition deleteKey (key : string) : M unit :=
  ready <- clientReady ;;
  if ready then
    command (fun _ db => Some (tt, RedisServer.DEL key db))
  else memoryDelete key.

Definition keyExists (key : string) : M bool :=
  ready <- clientReady ;;
  if ready then
    result <- command (fun now db => Some (RedisServer.EXISTS now key db, db)) ;;
    ret (result =? 1)
  else
    cleanupMemoryCache ;;;
    data <- memoryGet key ;;
    ret (bool_decide (is_Some data)).

Definition incrementCounter (key : string) (ttlSeconds : Z) : M number :=
  ready <- clientReady ;;
  if ready then
    count <- command (fun now db => RedisServer.INCR now key db) ;;
    (if count =? 1
     then command (fun now db => Some (tt, RedisServer.EXPIRE now key ttlSeconds db))
     else ret tt) ;;;
    ret (Int count)
  else
    cleanupMemoryCache ;;;
    data <- memoryGet key ;;
    match data with
    | Some data =>
        let count := Js.add (parseInt (value data)) 1 in
        memorySet key {| value := toString count; expiresAt := expiresAt data |} ;;;
        ret count
    | None =>
        now <- dateNow ;;
        memorySet key {| value := "1"; expiresAt := now + ttlSeconds * 1000 |} ;;;
        ret (Int 1)
    end.

(** *** Room operations *)

Definition ROOM_CODE_PREFIX : string := "roomCode:".
Definition ROOM_METADATA_PREFIX : string := "room:".
Definition ROOM_TTL : Z := 7 * 24 * 60 * 60.

Record RoomMetadata : Type := {
  rm_roomId : string;
  rm_hostUserId : string;
  rm_members : list string;
  rm_createdAt : Z
}.

Record RoomCodeMapping : Type := {
  rc_roomId : string;
  rc_hostUserId : string
}.

(** [JSON.stringify] and [JSON.parse] at a record type: parsing the text of a
    record gives the record back, and that text is never empty. [JSON_parse]
    is [None] where [JSON.parse] throws. *)
Class Json (A : Type) : Type := {
  JSON_stringify : A -> string;
  JSON_parse : string -> option A;
  JSON_parse_stringify : forall a, JSON_parse (JSON_stringify a) = Some a;
  JSON_stringify_nonempty : forall a, JSON_stringify a <> ""
}.

Definition roomCodeKey (code : string) : string := ROOM_CODE_PREFIX +:+ code.

Definition roomMetadataKey (roomId : string) : string :=
  ROOM_METADATA_PREFIX +:+ roomId +:+ ":metadata".

Section WithJson.
Context `{Json RoomMetadata} `{Json RoomCodeMapping}.

Definition saveRoomCode (code : string) (mapping : RoomCodeMapping) : M unit :=
  setValue (roomCodeKey code) (JSON_stringify mapping) (Some ROOM_TTL).

Definition getRoomCodeMapping (code : string) : M (option RoomCodeMapping) :=
  v <- getValue (roomCodeKey code) ;;
  if negb (truthy_opt v) then ret None
  else ret (JSON_parse (default "" v)).

Definition roomCodeExists (code : string) : M bool :=
  keyExists (roomCodeKey code).

Definition saveRoomMetadata (metadata : RoomMetadata) : M unit :=
  setValue (roomMetadataKey (rm_roomId metadata)) (JSON_stringify metadata)
    (Some ROOM_TTL).

Definition getRoomMetadata (roomId : string) : M (option RoomMetadata) :=
  v <- getValue (roomMetadataKey roomId) ;;
  if negb (truthy_opt v) then ret None
  else ret (JSON_parse (default "" v)).

(** [metadata.members.push(userId)]. *)
Definition pushMember (metadata : RoomMetadata) (userId : string) : RoomMetadata :=
  {| rm_roomId := rm_roomId metadata;
     rm_hostUserId := rm_hostUserId metadata;
     rm_members := rm_members metadata ++ [userId];
     rm_createdAt := rm_createdAt metadata |}.

(** [addRoomMember], run as one piece. The source awaits the read and then
    the write, and another call can run between the two:
    [Async.addRoomMemberT] is the call cut there. *)
Definition addRoomMember (roomId userId : string) : M bool :=
  metadata <- getRoomMetadata roomId ;;
  match metadata with
  | None => ret false
  | Some metadata =>
      (if negb (includes (rm_members metadata) userId)
       then saveRoomMetadata (pushMember metadata userId)
       else ret tt) ;;;
      ret true
  end.

Definition isRoomMember (roomId userId : string) : M bool :=
  metadata <- getRoomMetadata roomId ;;
  match metadata with
  | None => ret false
  | Some metadata => ret (includes (rm_members metadata) userId)
  end.

(** [JSON.parse(value)] gives a mapping whose [roomId] is [roomId]; false
    where the parse throws. *)
Definition mapsToRoom (roomId v : string) : bool :=
  match JSON_parse (A := RoomCodeMapping) v with
  | Some mapping => String.eqb (rc_roomId mapping) roomId
  | None => false
  end.

(** The SCAN loop of [deleteRoomData] on Redis: every key the scan of
    [roomCode:*] returns (the keys that are there) is read with GET and, when
    its text is not empty and is a mapping to [roomId], deleted. A full scan
    returns every key that is present throughout; the loop is one pass over
    the keyspace. *)
Definition scanDelete (now : Z) (roomId : string)
    (db : gmap string RedisEntry) : gmap string RedisEntry :=
  filter (fun kv : string * RedisEntry =>
            ~ (String.prefix ROOM_CODE_PREFIX kv.1 = true /\
               RedisServer.live now kv.2 = true /\
               truthy (r_value kv.2) = true /\
               mapsToRoom roomId (r_value kv.2) = true)) db.

(** The loop of [deleteRoomData] over [memoryCache.entries()]. *)
Definition memoryDeleteCodes (roomId : string) : M unit :=
  fun _ w =>
    (Return tt,
     set_memoryCache
       (filter (fun kv : string * CacheEntry =>
                  ~ (String.prefix ROOM_CODE_PREFIX kv.1 = true /\
                     mapsToRoom roomId (value kv.2) = true))) w).

Definition deleteRoomData (roomId : string) : M unit :=
  roomExists <- getRoomMetadata roomId ;;
  match roomExists with
  | None => ret tt
  | Some _ =>
      ready <- clientReady ;;
      if ready then
        command (fun _ db =>
          Some (tt, RedisServer.DEL (roomMetadataKey roomId) db)) ;;;
        command (fun now db => Some (tt, scanDelete now roomId db))
      else
        memoryDelete (roomMetadataKey roomId) ;;;
        memoryDeleteCodes roomId
  end.

End WithJson.

End Redis.

(* ===================================================================== *)
(** ** Room isolation (src/middleware/room-isolation.ts) *)
(* ===================================================================== *)

Module RoomIsolation.
Import Redis.

(** [RoomIsolationResult]. *)
Record RoomIsolationResult : Type := {
  ri_success : bool;
  ri_roomId : option string;
  ri_error : option string
}.

Definition cacheGet (roomId : string) : M (option CachedMembers) :=
  fun _ w => (Return (roomMetadataCache w !! roomId), w).

Definition cacheSet (roomId : string) (entry : CachedMembers) : M unit :=
  fun _ w => (Return tt, set_roomMetadataCache (insert roomId entry) w).

Section WithJson.
Context `{Json RoomMetadata}.

(** The read-through to the store, taken on a miss or an expired entry. *)
Definition readThrough (roomId : string) : M (option (list string)) :=
  metadata <- getRoomMetadata roomId ;;
  match metadata with
  | None => ret None
  | Some metadata =>
      now <- dateNow ;;
      cacheSet roomId {| cm_members := rm_members metadata;
                         cm_expiresAt := now + 60 * 1000 |} ;;;
      ret (Some (rm_members metadata))
  end.

Definition getCachedRoomMembers (roomId : string) : M (option (list string)) :=
  cached <- cacheGet roomId ;;
  now <- dateNow ;;
  match cached with
  | Some cached =>
      if now <? cm_expiresAt cached
      then ret (Some (cm_members cached))
      else readThrough roomId
  | None => readThrough roomId
  end.

(** [cleanupCache()], run every five minutes. *)
Definition cleanupCache : M unit :=
  fun env w =>
    (Return tt,
     set_roomMetadataCache
       (filter (fun kv : string * CachedMembers =>
                  ~ cm_expiresAt kv.2 < env_now env)) w).

Definition validateRoomAccess (userId documentName : string)
    : M RoomIsolationResult :=
  match Auth.extractRoomIdFromDocumentName documentName with
  | None =>
      ret {| ri_success := false; ri_roomId := None;
             ri_error := Some "Invalid document name format" |}
  | Some roomId =>
      if negb (truthy roomId)
      then ret {| ri_success := false; ri_roomId := None;
                  ri_error := Some "Invalid document name format" |}
      else
        members <- getCachedRoomMembers roomId ;;
        match members with
        | None =>
            ret {| ri_success := false; ri_roomId := Some roomId;
                   ri_error := Some "Room not found or expired" |}
        | Some members =>
            if negb (includes members userId)
            then ret {| ri_success := false; ri_roomId := Some roomId;
                        ri_error := Some "User is not a member of this room" |}
            else ret {| ri_success := true; ri_roomId := Some roomId;
                        ri_error := None |}
        end
  end.

Definition invalidateRoomCache (roomId : string) : M unit :=
  fun _ w => (Return tt, set_roomMetadataCache (delete roomId) w).

(** [socketId] only reaches the log. *)
Definition validateRoomMembership (userId documentName socketId : string) : M unit :=
  result <- validateRoomAccess userId documentName ;;
  if negb (ri_success result)
  then throw (if truthy_opt (ri_error result)
              then default "" (ri_error result) else "Access denied")
  else ret tt.

End WithJson.

End RoomIsolation.

(* ===================================================================== *)
(** ** Rate limiting (src/middleware/rate-limit.ts) *)
(* ===================================================================== *)

Module RateLimit.
Import Redis.

(** [RateLimitResult]; [resetIn] is in seconds. *)
Record RateLimitResult : Type := {
  allowed : bool;
  remaining : number;
  resetIn : Z
}.

(** [Math.floor(Date.now() / 60000)]. *)
Definition getCurrentMinute : M Z :=
  now <- dateNow ;; ret (now / 60000).

(** [60 - (Math.floor(Date.now() / 1000) % 60)]. *)
Definition secondsToReset : M Z :=
  now <- dateNow ;; ret (60 - Z.rem (now / 1000) 60).

Definition connKey (socketId : string) (minute : Z) : string :=
  "ratelimit:conn:" +:+ socketId +:+ ":" +:+ toString (Int minute).

Definition roomKey (roomId : string) (minute : Z) : string :=
  "ratelimit:room:" +:+ roomId +:+ ":" +:+ toString (Int minute).

Definition httpKey (keyPrefix clientIp : string) (minute : Z) : string :=
  keyPrefix +:+ ":" +:+ clientIp +:+ ":" +:+ toString (Int minute).

Definition connectionsKey (clientIp : string) : string :=
  "connections:" +:+ clientIp.

Definition checkConnectionRateLimit (cfg : Config) (socketId : string)
    : M RateLimitResult :=
  currentMinute <- getCurrentMinute ;;
  count <- incrementCounter (connKey socketId currentMinute) 60 ;;
  reset <- secondsToReset ;;
  ret {| allowed := Js.leb count (rateLimitMessagesPerMinute cfg);
         remaining := Js.remaining (rateLimitMessagesPerMinute cfg) count;
         resetIn := reset |}.

Definition checkRoomRateLimit (cfg : Config) (roomId : string)
    : M RateLimitResult :=
  currentMinute <- getCurrentMinute ;;
  count <- incrementCounter (roomKey roomId currentMinute) 60 ;;
  reset <- secondsToReset ;;
  ret {| allowed := Js.leb count (rateLimitRoomMessagesPerMinute cfg);
         remaining := Js.remaining (rateLimitRoomMessagesPerMinute cfg) count;
         resetIn := reset |}.

(** [countStr ? parseInt(countStr, 10) : 0]. *)
Definition countOf (countStr : option string) : number :=
  if truthy_opt countStr then parseInt (default "" countStr) else Int 0.

Definition ipCountsSet (clientIp : string) (n : number) : M unit :=
  fun _ w => (Return tt, set_ipConnectionCounts (insert clientIp n) w).

Definition trackIpConnection (cfg : Config) (clientIp : string) : M bool :=
  let key := connectionsKey clientIp in
  countStr <- getValue key ;;
  let currentCount := countOf countStr in
  if Js.geb currentCount (rateLimitConnectionsPerIp cfg) then ret false
  else
    setValue key (toString (Js.add currentCount 1)) (Some 3600) ;;;
    ipCountsSet clientIp (Js.add currentCount 1) ;;;
    ret true.

Definition releaseIpConnection (clientIp : string) : M unit :=
  let key := connectionsKey clientIp in
  countStr <- getValue key ;;
  if truthy_opt countStr then
    let currentCount := parseInt (default "" countStr) in
    if Js.gtb currentCount 0 then
      setValue key (toString (Js.add currentCount (-1))) (Some 3600) ;;;
      ipCountsSet clientIp (Js.add currentCount (-1))
    else ret tt
  else ret tt.

Definition getIpConnectionCount (clientIp : string) : M number :=
  countStr <- getValue (connectionsKey clientIp) ;;
  ret (countOf countStr).

(** What the HTTP middleware does with a request: it calls [next()] or answers
    itself; [headers] are the ones it set on the response. *)
Inductive HttpDecision : Type :=
| Next
| Respond (status : Z) (errorText : string) (retryAfter : Z).

Record HttpOutcome : Type := {
  headers : list (string * string);
  decision : HttpDecision
}.

(** [createHttpRateLimiter(options)] applied to a request whose
    [getClientIp(req)] is [clientIp]. *)
Definition createHttpRateLimiter (requestsPerMinute : option Z)
    (keyPrefix : option string) (clientIp : string) : M HttpOutcome :=
  let requestsPerMinute := default 60 requestsPerMinute in
  let keyPrefix := default "ratelimit:http" keyPrefix in
  currentMinute <- getCurrentMinute ;;
  tryCatch
    (count <- incrementCounter (httpKey keyPrefix clientIp currentMinute) 60 ;;
     reset <- secondsToReset ;;
     let hs := [("X-RateLimit-Limit", toString (Int requestsPerMinute));
                ("X-RateLimit-Remaining",
                 toString (Js.remaining requestsPerMinute count));
                ("X-RateLimit-Reset", toString (Int reset))] in
     if Js.gtb count requestsPerMinute
     then ret {| headers := hs;
                 decision := Respond 429 "Too Many Requests" reset |}
     else ret {| headers := hs; decision := Next |})
    (fun _ => ret {| headers := []; decision := Next |}).

Definition checkMessageRateLimit (cfg : Config) (socketId roomId : string)
    : M (bool * option string) :=
  connResult <- checkConnectionRateLimit cfg socketId ;;
  if negb (allowed connResult)
  then ret (false, Some ("Connection rate limit exceeded. Try again in "
                         +:+ toString (Int (resetIn connResult)) +:+ "s"))
  else
    roomResult <- checkRoomRateLimit cfg roomId ;;
    if negb (allowed roomResult)
    then ret (false, Some ("Room rate limit exceeded. Try again in "
                           +:+ toString (Int (resetIn roomResult)) +:+ "s"))
    else ret (true, None).

End RateLimit.

(* ===================================================================== *)
(** ** Room API (src/api/room.ts) *)
(* ===================================================================== *)

Module RoomApi.
Import Redis.

(** The JSON body a handler answers with. *)
Inductive Body : Type :=
| ErrorBody (msg : string)
| RegisterBody (roomId code : string)
| SuccessBody
| TokenBody (token : string) (expiresAt : Z).

(** [res.status(s).json(b)]; [res.json(b)] answers with status 200. *)
Record Response : Type := {
  status : Z;
  body : Body
}.

Definition respond (s : Z) (b : Body) : M Response :=
  ret {| status := s; body := b |}.

Section WithCodecs.
Context `{Json RoomMetadata} `{Json RoomCodeMapping} `{Auth.Jwt}.

(** POST /api/room/register, on the fields of [req.body], run as one piece;
    [Async.registerT] is the handler cut at its [await]s. *)
Definition register (roomId code hostUserId : string) : M Response :=
  tryCatch
    (if negb (truthy roomId) || negb (truthy code) || negb (truthy hostUserId)
     then respond 400 (ErrorBody "Missing required fields: roomId, code, hostUserId")
     else
       exists_ <- roomCodeExists code ;;
       if (exists_ : bool)
       then respond 409 (ErrorBody "Room code already in use")
       else
         saveRoomCode code {| rc_roomId := roomId; rc_hostUserId := hostUserId |} ;;;
         now <- dateNow ;;
         saveRoomMetadata {| rm_roomId := roomId; rm_hostUserId := hostUserId;
                             rm_members := [hostUserId]; rm_createdAt := now |} ;;;
         respond 200 (RegisterBody roomId code))
    (fun _ => respond 500 (ErrorBody "Internal server error")).

(** POST /api/room/add-member, run as one piece; [displayName] only reaches
    the log. [Async.addMemberT] is the handler cut at its [await]s. *)
Definition addMember (roomId userId : string) : M Response :=
  tryCatch
    (if negb (truthy roomId) || negb (truthy userId)
     then respond 400 (ErrorBody "Missing required fields: roomId, userId")
     else
       metadata <- getRoomMetadata roomId ;;
       match metadata with
       | None => respond 404 (ErrorBody "Room not found or expired")
       | Some _ =>
           ok <- addRoomMember roomId userId ;;
           if negb ok
           then respond 500 (ErrorBody "Failed to add member")
           else
             RoomIsolation.invalidateRoomCache roomId ;;;
             respond 200 SuccessBody
       end)
    (fun _ => respond 500 (ErrorBody "Internal server error")).

(** The text [Invalid role. Must be "host" or "guest"], quotes included. *)
Definition invalidRoleText : string :=
  let q := String "034"%char EmptyString in
  "Invalid role. Must be " +:+ q +:+ "host" +:+ q +:+ " or " +:+ q +:+ "guest" +:+ q.

(** The role a request names, when it is one of the two. *)
Definition roleOf (role : string) : option Auth.Role :=
  if String.eqb role "host" then Some Auth.host
  else if String.eqb role "guest" then Some Auth.guest
  else None.

(** POST /api/room/get-token. *)
Definition getToken (cfg : Config) (userId roomId role : string) : M Response :=
  tryCatch
    (if negb (truthy userId) || negb (truthy roomId) || negb (truthy role)
     then respond 400 (ErrorBody "Missing required fields: userId, roomId, role")
     else
       match roleOf role with
       | None => respond 400 (ErrorBody invalidRoleText)
       | Some r =>
           metadata <- getRoomMetadata roomId ;;
           match metadata with
           | None => respond 404 (ErrorBody "Room not found or expired")
           | Some metadata =>
               if negb (includes (rm_members metadata) userId)
               then respond 403 (ErrorBody "User is not a member of this room")
               else if String.eqb role "host"
                       && negb (String.eqb (rm_hostUserId metadata) userId)
               then respond 403 (ErrorBody "Only the room creator can have host role")
               else
                 now <- dateNow ;;
                 issued <- call (Auth.generateToken cfg now userId roomId r) ;;
                 let '(token, expiresAt) := issued in
                 respond 200 (TokenBody token expiresAt)
           end
       end)
    (fun _ => respond 500 (ErrorBody "Internal server error")).

(** The answers of GET /join and GET /:roomId. *)
Inductive JoinBody : Type :=
| JoinError (msg : string)
| JoinBody_ok (roomId wsUrl : string).

Record JoinResponse : Type := {
  join_status : Z;
  join_body : JoinBody
}.

Inductive RoomBody : Type :=
| RoomError (msg : string)
| RoomInfo (roomId hostUserId : string) (memberCount : Z) (createdAt : Z).

Record RoomResponse : Type := {
  room_status : Z;
  room_body : RoomBody
}.

(** GET /api/room/join?code=...; [nodeEnv] and [wsPort] are the fields of the
    configuration the handler reads. *)
Definition join (nodeEnv : string) (wsPort : Z) (code : string) : M JoinResponse :=
  tryCatch
    (if negb (truthy code)
     then ret {| join_status := 400;
                 join_body := JoinError "Missing required query parameter: code" |}
     else
       mapping <- getRoomCodeMapping code ;;
       match mapping with
       | None => ret {| join_status := 404;
                        join_body := JoinError "Room not found or expired" |}
       | Some mapping =>
           let wsUrl :=
             if String.eqb nodeEnv "production"
             then "wss://your-domain.com/ws"
             else "ws://localhost:" +:+ toString (Int wsPort) in
           ret {| join_status := 200;
                  join_body := JoinBody_ok (rc_roomId mapping) wsUrl |}
       end)
    (fun _ => ret {| join_status := 500;
                     join_body := JoinError "Internal server error" |}).

(** GET /api/room/:roomId. *)
Definition getRoom (roomId : string) : M RoomResponse :=
  tryCatch
    (metadata <- getRoomMetadata roomId ;;
     match metadata with
     | None => ret {| room_status := 404;
                      room_body := RoomError "Room not found or expired" |}
     | Some metadata =>
         ret {| room_status := 200;
                room_body := RoomInfo (rm_roomId metadata) (rm_hostUserId metadata)
                               (Z.of_nat (length (rm_members metadata)))
                               (rm_createdAt metadata) |}
     end)
    (fun _ => ret {| room_status := 500;
                     room_body := RoomError "Internal server error" |}).

End WithCodecs.

End RoomApi.

(* ===================================================================== *)
(** ** The hooks of the server entry point *)
(* ===================================================================== *)

Module Index.
Import Redis.

Section WithCodecs.
Context `{Json RoomMetadata}.

(** [onConnect]: [user] is [context?.user], [clientIp] is
    [getClientIpFromRequest(request)]. Storing the IP in the context and
    reporting the connection count to the health endpoint touch nothing the
    admission decision depends on and are left out. *)
Definition onConnect (cfg : Config) (documentName socketId : string)
    (user : option Auth.Identity) (clientIp : string) : M unit :=
  allowed <- RateLimit.trackIpConnection cfg clientIp ;;
  if negb allowed then throw "Too many connections from this IP"
  else
    match user with
    | Some user =>
        RoomIsolation.validateRoomMembership (Auth.id_userId user)
          documentName socketId
    | None => ret tt
    end.

(** [onDisconnect]: [clientIp] is [context.clientIp], "unknown" when missing. *)
Definition onDisconnect (clientIp : option string) : M unit :=
  RateLimit.releaseIpConnection
    (if truthy_opt clientIp then default "" clientIp else "unknown").

(** [beforeHandleMessage]: the limiter's verdict only reaches the log. *)
Definition beforeHandleMessage (cfg : Config) (documentName socketId : string)
    : M unit :=
  match Auth.extractRoomIdFromDocumentName documentName with
  | Some roomId =>
      if truthy roomId
      then RateLimit.checkMessageRateLimit cfg socketId roomId ;;; ret tt
      else ret tt
  | None => ret tt
  end.

End WithCodecs.

End Index.

(* ===================================================================== *)
(** ** Asynchronous calls and their interleavings *)
(* ===================================================================== *)

Module Async.
Import Redis.

(** An asynchronous call in progress: finished, or about to run one piece of
    code that no other call can interrupt (a Redis command, or the code
    between two [await]s) and then to continue with its result. *)
Inductive task (A : Type) : Type :=
| Done (r : outcome A)
| Await {B : Type} (op : M B) (k : B -> task A).
Arguments Done {A} r.
Arguments Await {A B} op k.

(** One turn of the event loop given to a call. *)
Definition step {A} (t : task A) (env : Env) (w : World) : task A * World :=
  match t with
  | Done r => (Done r, w)
  | Await op k =>
      match op env w with
      | (Return b, w') => (k b, w')
      | (Throw e, w') => (Done (Throw e), w')
      end
  end.

(** A call run to its end with nothing in between. *)
Fixpoint runAlone {A} (t : task A) : M A :=
  match t with
  | Done r => fun _ w => (r, w)
  | Await op k => fun env w =>
      match op env w with
      | (Return b, w') => runAlone (k b) env w'
      | (Throw e, w') => (Throw e, w')
      end
  end.

(** A schedule names, turn by turn, the call that runs and the environment it
    runs in. *)
Fixpoint schedule {A} (turns : list (nat * Env)) (pool : list (task A))
    (w : World) : list (task A) * World :=
  match turns with
  | [] => (pool, w)
  | (i, env) :: rest =>
      match pool !! i with
      | Some t =>
          let '(t', w') := step t env w in
          schedule rest (<[i := t']> pool) w'
      | None => schedule rest pool w
      end
  end.

Definition isDone {A} (t : task A) : bool :=
  match t with
  | Done _ => true
  | Await _ _ => false
  end.

(** The first piece of [incrementCounter]: the readiness test and, with no
    [await] in between, the INCR command or the whole in-process branch. *)
Definition incrementFirst (key : string) (ttlSeconds : Z) : M (Z + number) :=
  ready <- clientReady ;;
  if ready then
    count <- command (fun now db => RedisServer.INCR now key db) ;;
    ret (inl count)
  else
    cleanupMemoryCache ;;;
    data <- memoryGet key ;;
    match data with
    | Some data =>
        let count := Js.add (parseInt (value data)) 1 in
        memorySet key {| value := toString count; expiresAt := expiresAt data |} ;;;
        ret (inr count)
    | None =>
        now <- dateNow ;;
        memorySet key {| value := "1"; expiresAt := now + ttlSeconds * 1000 |} ;;;
        ret (inr (Int 1))
    end.

(** [incrementCounter] cut at its [await]s. *)
Definition incrementCounterT (key : string) (ttlSeconds : Z) : task number :=
  Await (incrementFirst key ttlSeconds) (fun r =>
    match r with
    | inl count =>
        if count =? 1
        then Await (command (fun now db =>
                      Some (tt, RedisServer.EXPIRE now key ttlSeconds db)))
               (fun _ => Done (Return (Int count)))
        else Done (Return (Int count))
    | inr count => Done (Return count)
    end).

(** [trackIpConnection] cut at its [await]s. *)
Definition trackIpConnectionT (cfg : Config) (clientIp : string) : task bool :=
  let key := RateLimit.connectionsKey clientIp in
  Await (getValue key) (fun countStr =>
    let currentCount := RateLimit.countOf countStr in
    if Js.geb currentCount (rateLimitConnectionsPerIp cfg) then Done (Return false)
    else
      Await (setValue key (toString (Js.add currentCount 1)) (Some 3600)) (fun _ =>
      Await (RateLimit.ipCountsSet clientIp (Js.add currentCount 1)) (fun _ =>
      Done (Return true)))).

(** [op] under a [try]: a rejection is handed to the [catch] as a value. *)
Definition attempt {B} (op : M B) : M (string + B) :=
  fun env w =>
    match op env w with
    | (Return b, w') => (Return (inr b), w')
    | (Throw e, w') => (Return (inl e), w')
    end.

(** One piece of code, awaited. *)
Definition callT {A} (op : M A) : task A :=
  Await op (fun a => Done (Return a)).

(** [const a = await t; k a]. *)
Fixpoint bindT {A B} (t : task A) (k : A -> task B) : task B :=
  match t with
  | Done (Return a) => k a
  | Done (Throw e) => Done (Throw e)
  | Await op k' => Await op (fun b => bindT (k' b) k)
  end.

(** [try { t } catch (error) { h }]. *)
Fixpoint catchT {A} (t : task A) (h : string -> task A) : task A :=
  match t with
  | Done (Return a) => Done (Return a)
  | Done (Throw e) => h e
  | Await op k =>
      Await (attempt op) (fun r =>
        match r with
        | inl e => h e
        | inr b => catchT (k b) h
        end)
  end.

(** A call run with no other call in between, each piece in the environment
    of its turn: the clock moves on and the Redis client may come, go or
    reject a command between two pieces. *)
Fixpoint runEach {A} (t : task A) (envs : list Env) (w : World)
    : task A * World :=
  match envs with
  | [] => (t, w)
  | env :: rest => let '(t', w') := step t env w in runEach t' rest w'
  end.

(** [releaseIpConnection] cut at its [await]s. *)
Definition releaseIpConnectionT (clientIp : string) : task unit :=
  let key := RateLimit.connectionsKey clientIp in
  bindT (callT (getValue key)) (fun countStr =>
  if truthy_opt countStr then
    let currentCount := parseInt (default "" countStr) in
    if Js.gtb currentCount 0 then
      bindT (callT (setValue key (toString (Js.add currentCount (-1))) (Some 3600)))
        (fun _ => callT (RateLimit.ipCountsSet clientIp (Js.add currentCount (-1))))
    else Done (Return tt)
  else Done (Return tt)).

Section WithJson.
Context `{Json RoomMetadata} `{Json RoomCodeMapping}.

(** [addRoomMember] cut at its [await]s: the read of the metadata, then the
    write of the metadata with the user pushed onto the members read. *)
Definition addRoomMemberT (roomId userId : string) : task bool :=
  bindT (callT (getRoomMetadata roomId)) (fun metadata =>
  match metadata with
  | None => Done (Return false)
  | Some metadata =>
      if negb (includes (rm_members metadata) userId)
      then bindT (callT (saveRoomMetadata (pushMember metadata userId)))
             (fun _ => Done (Return true))
      else Done (Return true)
  end).

(** [res.status(s).json(b)]. *)
Definition respondT (s : Z) (b : RoomApi.Body) : task RoomApi.Response :=
  Done (Return {| RoomApi.status := s; RoomApi.body := b |}).

(** POST /api/room/register cut at its [await]s. *)
Definition registerT (roomId code hostUserId : string) : task RoomApi.Response :=
  catchT
    (if negb (truthy roomId) || negb (truthy code) || negb (truthy hostUserId)
     then respondT 400
            (RoomApi.ErrorBody "Missing required fields: roomId, code, hostUserId")
     else
       bindT (callT (roomCodeExists code)) (fun exists_ =>
       if (exists_ : bool)
       then respondT 409 (RoomApi.ErrorBody "Room code already in use")
       else
         bindT (callT (saveRoomCode code {| rc_roomId := roomId;
                                            rc_hostUserId := hostUserId |}))
           (fun _ =>
         bindT (callT (now <- dateNow ;;
                       saveRoomMetadata {| rm_roomId := roomId;
                                           rm_hostUserId := hostUserId;
                                           rm_members := [hostUserId];
                                           rm_createdAt := now |}))
           (fun _ => respondT 200 (RoomApi.RegisterBody roomId code)))))
    (fun _ => respondT 500 (RoomApi.ErrorBody "Internal server error")).

(** POST /api/room/add-member cut at its [await]s: the handler's read of the
    metadata, the two pieces of [addRoomMember], and the invalidation of the
    cache entry. *)
Definition addMemberT (roomId userId : string) : task RoomApi.Response :=
  catchT
    (if negb (truthy roomId) || negb (truthy userId)
     then respondT 400 (RoomApi.ErrorBody "Missing required fields: roomId, userId")
     else
       bindT (callT (getRoomMetadata roomId)) (fun metadata =>
       match metadata with
       | None => respondT 404 (RoomApi.ErrorBody "Room not found or expired")
       | Some _ =>
           bindT (addRoomMemberT roomId userId) (fun ok =>
           if negb ok
           then respondT 500 (RoomApi.ErrorBody "Failed to add member")
           else
             bindT (callT (RoomIsolation.invalidateRoomCache roomId)) (fun _ =>
             respondT 200 RoomApi.SuccessBody))
       end))
    (fun _ => respondT 500 (RoomApi.ErrorBody "Internal server error")).

(** The read-through of [getCachedRoomMembers] cut at its [await]: the read
    of the metadata, then the write of the cache entry. *)
Definition readThroughT (roomId : string) : task (option (list string)) :=
  bindT (callT (getRoomMetadata roomId)) (fun metadata =>
  match metadata with
  | None => Done (Return None)
  | Some metadata =>
      bindT (callT (now <- dateNow ;;
                    RoomIsolation.cacheSet roomId
                      {| cm_members := rm_members metadata;
                         cm_expiresAt := now + 60 * 1000 |}))
        (fun _ => Done (Return (Some (rm_members metadata))))
  end).

Definition getCachedRoomMembersT (roomId : string)
    : task (option (list string)) :=
  bindT (callT (cached <- RoomIsolation.cacheGet roomId ;;
                now <- dateNow ;;
                ret (cached, now))) (fun looked =>
  match looked.1 with
  | Some cached =>
      if looked.2 <? cm_expiresAt cached
      then Done (Return (Some (cm_members cached)))
      else readThroughT roomId
  | None => readThroughT roomId
  end).

Definition validateRoomAccessT (userId documentName : string)
    : task RoomIsolation.RoomIsolationResult :=
  match Auth.extractRoomIdFromDocumentName documentName with
  | None =>
      Done (Return {| RoomIsolation.ri_success := false;
                      RoomIsolation.ri_roomId := None;
                      RoomIsolation.ri_error :=
                        Some "Invalid document name format" |})
  | Some roomId =>
      if negb (truthy roomId)
      then Done (Return {| RoomIsolation.ri_success := false;
                           RoomIsolation.ri_roomId := None;
                           RoomIsolation.ri_error :=
                             Some "Invalid document name format" |})
      else
        bindT (getCachedRoomMembersT roomId) (fun members =>
        match members with
        | None =>
            Done (Return {| RoomIsolation.ri_success := false;
                            RoomIsolation.ri_roomId := Some roomId;
                            RoomIsolation.ri_error :=
                              Some "Room not found or expired" |})
        | Some members =>
            if negb (includes members userId)
            then Done (Return {| RoomIsolation.ri_success := false;
                                 RoomIsolation.ri_roomId := Some roomId;
                                 RoomIsolation.ri_error :=
                                   Some "User is not a member of this room" |})
            else Done (Return {| RoomIsolation.ri_success := true;
                                 RoomIsolation.ri_roomId := Some roomId;
                                 RoomIsolation.ri_error := None |})
        end)
  end.

Definition validateRoomMembershipT (userId documentName socketId : string)
    : task unit :=
  bindT (validateRoomAccessT userId documentName) (fun result =>
  if negb (RoomIsolation.ri_success result)
  then Done (Throw (if truthy_opt (RoomIsolation.ri_error result)
                    then default "" (RoomIsolation.ri_error result)
                    else "Access denied"))
  else Done (Return tt)).

(** The [onConnect] hook cut at its [await]s. *)
Definition onConnectT (cfg : Config) (documentName socketId : string)
    (user : option Auth.Identity) (clientIp : string) : task unit :=
  bindT (trackIpConnectionT cfg clientIp) (fun allowed =>
  if negb allowed then Done (Throw "Too many connections from this IP")
  else
    match user with
    | Some user =>
        validateRoomMembershipT (Auth.id_userId user) documentName socketId
    | None => Done (Return tt)
    end).

End WithJson.

(** The [onDisconnect] hook cut at its [await]s. *)
Definition onDisconnectT (clientIp : option string) : task unit :=
  releaseIpConnectionT
    (if truthy_opt clientIp then default "" clientIp else "unknown").

End Async.

(* ===================================================================== *)
(** ** A reference wire format

    A small self-delimiting text format. It gives one implementation of the
    [Json] and [Auth.Jwt] interfaces, on which the results below are run on
    concrete data. *)
(* ===================================================================== *)

Module Wire.
Import Redis.

(** A text: each character after a dot, then a semicolon. *)
Fixpoint encText (s : string) : string :=
  match s with
  | EmptyString => ";"
  | String c s' => String "."%char (String c (encText s'))
  end.

Fixpoint decText (s : string) : option (string * string) :=
  match s with
  | String ";"%char rest => Some (EmptyString, rest)
  | String "."%char (String c rest) =>
      match decText rest with
      | Some (t, r) => Some (String c t, r)
      | None => None
      end
  | _ => None
  end.

(** A list of texts: each after a plus sign, then a closing bracket. *)
Fixpoint encList (l : list string) : string :=
  match l with
  | [] => "]"
  | x :: l' => String "+"%char (encText x +:+ encList l')
  end.

Fixpoint decList (fuel : nat) (s : string) : option (list string * string) :=
  match fuel with
  | O => None
  | S fuel' =>
      match s with
      | String "]"%char rest => Some ([], rest)
      | String "+"%char rest =>
          match decText rest with
          | Some (x, r) =>
              match decList fuel' r with
              | Some (l, r') => Some (x :: l, r')
              | None => None
              end
          | None => None
          end
      | _ => None
      end
  end.

Definition encInt (z : Z) : string := encText (toString (Int z)).

Definition decInt (s : string) : option (Z * string) :=
  match decText s with
  | Some (t, r) =>
      match NilZero.int_of_string t with
      | Some d => Some (Z.of_int d, r)
      | None => None
      end
  | None => None
  end.

Definition stringifyMapping (m : RoomCodeMapping) : string :=
  String "{"%char (encText (rc_roomId m) +:+ encText (rc_hostUserId m)).

Definition parseMapping (s : string) : option RoomCodeMapping :=
  match s with
  | String "{"%char s1 =>
      match decText s1 with
      | Some (roomId, s2) =>
          match decText s2 with
          | Some (hostUserId, EmptyString) =>
              Some {| rc_roomId := roomId; rc_hostUserId := hostUserId |}
          | _ => None
          end
      | None => None
      end
  | _ => None
  end.

Definition stringifyMetadata (m : RoomMetadata) : string :=
  String "{"%char
    (encText (rm_roomId m) +:+ encText (rm_hostUserId m)
     +:+ encInt (rm_createdAt m) +:+ encList (rm_members m)).

Definition parseMetadata (s : string) : option RoomMetadata :=
  match s with
  | String "{"%char s1 =>
      match decText s1 with
      | Some (roomId, s2) =>
          match decText s2 with
          | Some (hostUserId, s3) =>
              match decInt s3 with
              | Some (createdAt, s4) =>
                  match decList (S (String.length s4)) s4 with
                  | Some (members, EmptyString) =>
                      Some {| rm_roomId := roomId; rm_hostUserId := hostUserId;
                              rm_members := members; rm_createdAt := createdAt |}
                  | _ => None
                  end
              | None => None
              end
          | None => None
          end
      | None => None
      end
  | _ => None
  end.

(** A token: the secret it was signed with, then the payload. *)
Definition signed (p : Auth.JwtPayload) (secret : string) : string :=
  String "J"%char
    (encText secret +:+ encText (Auth.jp_userId p) +:+ encText (Auth.jp_roomId p)
     +:+ encText (Auth.jp_role p) +:+ encInt (Auth.jp_exp p)).

(** Signing refuses the empty secret. *)
Definition sign (p : Auth.JwtPayload) (secret : string) : option string :=
  if truthy secret then Some (signed p secret) else None.

Definition decodePayload (s : string) : option Auth.JwtPayload :=
  match decText s with
  | Some (userId, s2) =>
      match decText s2 with
      | Some (roomId, s3) =>
          match decText s3 with
          | Some (role, s4) =>
              match decInt s4 with
              | Some (exp, EmptyString) =>
                  Some {| Auth.jp_userId := userId; Auth.jp_roomId := roomId;
                          Auth.jp_role := role; Auth.jp_exp := exp |}
              | _ => None
              end
          | None => None
          end
      | None => None
      end
  | None => None
  end.

Definition verify (token secret : string) (now : Z) : Auth.JwtVerify :=
  match token with
  | String "J"%char s1 =>
      match decText s1 with
      | Some (signedWith, s2) =>
          if String.eqb signedWith secret
          then
            match decodePayload s2 with
            | Some p =>
                if Auth.jp_exp p <=? now / 1000
                then Auth.TokenExpiredError else Auth.Decoded p
            | None => Auth.JsonWebTokenError
            end
          else Auth.JsonWebTokenError
      | None => Auth.JsonWebTokenError
      end
  | _ => Auth.JsonWebTokenError
  end.

End Wire.

(* ===================================================================== *)
(** * Results *)
(* ===================================================================== *)

(** ** JavaScript primitives *)

Lemma truthy_true (s : string) : truthy s = true <-> s <> "".
Proof.
  unfold truthy. destruct (String.eqb_spec s ""); simpl; split; congruence.
Qed.

Lemma truthy_false (s : string) : truthy s = false <-> s = "".
Proof.
  unfold truthy. destruct (String.eqb_spec s ""); simpl; split; congruence.
Qed.

Lemma includes_In (l : list string) (x : string) :
  includes l x = true <-> In x l.
Proof.
  unfold includes. rewrite existsb_exists. split.
  - intros (y & Hy & Heq). apply String.eqb_eq in Heq. now subst.
  - intros Hx. exists x. split; [assumption | apply String.eqb_refl].
Qed.

Lemma digitsPrefix_uint (d : Decimal.uint) :
  digitsPrefix (NilEmpty.string_of_uint d) = NilEmpty.string_of_uint d.
Proof. induction d; simpl; congruence. Qed.

Lemma trimStart_uint (d : Decimal.uint) :
  trimStart (NilEmpty.string_of_uint d) = NilEmpty.string_of_uint d.
Proof. destruct d; reflexivity. Qed.

Lemma string_of_uint_nonnil (d : Decimal.uint) :
  d <> Decimal.Nil -> NilZero.string_of_uint d = NilEmpty.string_of_uint d.
Proof. destruct d; [congruence | reflexivity ..]. Qed.

Lemma parseInt_uint (d : Decimal.uint) :
  d <> Decimal.Nil ->
  parseInt (NilEmpty.string_of_uint d) = Int (Z.of_uint d).
Proof.
  intros Hd. unfold parseInt. rewrite trimStart_uint.
  assert (Hs : NilZero.uint_of_string (digitsPrefix (NilEmpty.string_of_uint d))
               = Some d).
  { rewrite digitsPrefix_uint, <- string_of_uint_nonnil by assumption.
    now apply NilZero.usu. }
  destruct d; try congruence; simpl in *; rewrite ?Hs; reflexivity.
Qed.

(** Parsing the decimal text of an integer gives the integer back. *)
Lemma parseInt_toString (z : Z) : parseInt (toString (Int z)) = Int z.
Proof.
  destruct z as [|p|p]; [reflexivity| |];
    pose proof (DecimalPos.Unsigned.to_uint_nonnil p) as Hn; simpl.
  - rewrite string_of_uint_nonnil, parseInt_uint by assumption.
    unfold Z.of_uint. now rewrite DecimalPos.Unsigned.of_to.
  - rewrite string_of_uint_nonnil by assumption.
    unfold parseInt. simpl trimStart. cbv iota beta.
    rewrite digitsPrefix_uint, <- string_of_uint_nonnil by assumption.
    rewrite NilZero.usu by assumption.
    unfold Z.of_uint. now rewrite DecimalPos.Unsigned.of_to.
Qed.

(** ** Texts *)

Lemma app_cons (c : ascii) (a b : string) : String c a +:+ b = String c (a +:+ b).
Proof. reflexivity. Qed.

Lemma app_nil_l (b : string) : "" +:+ b = b.
Proof. reflexivity. Qed.

Lemma app_nil_r (a : string) : a +:+ "" = a.
Proof. induction a as [|x a IH]; [reflexivity|]. now rewrite app_cons, IH. Qed.

Lemma app_assoc (a b c : string) : (a +:+ b) +:+ c = a +:+ (b +:+ c).
Proof.
  induction a as [|x a IH]; [reflexivity|]. now rewrite !app_cons, IH.
Qed.

Lemma app_length (a b : string) :
  String.length (a +:+ b) = (String.length a + String.length b)%nat.
Proof.
  induction a as [|x a IH]; [reflexivity|]. rewrite app_cons. simpl. now rewrite IH.
Qed.

(** Unfolds the concatenations whose left operand is a literal or a cons. *)
Ltac app_norm := rewrite ?app_cons, ?app_nil_l.

(** ** The reference wire format implements the library interfaces *)

Lemma decText_encText (s rest : string) :
  Wire.decText (Wire.encText s +:+ rest) = Some (s, rest).
Proof.
  induction s as [|c s IH]; simpl; app_norm; simpl; [reflexivity|].
  now rewrite IH.
Qed.

Lemma decList_encList (l : list string) (rest : string) (fuel : nat) :
  (length l < fuel)%nat ->
  Wire.decList fuel (Wire.encList l +:+ rest) = Some (l, rest).
Proof.
  revert fuel. induction l as [|x l IH]; intros [|fuel] Hf; simpl in *; try lia.
  - reflexivity.
  - app_norm. rewrite app_assoc, decText_encText, IH by lia. reflexivity.
Qed.

Lemma encList_length (l : list string) :
  (length l < String.length (Wire.encList l))%nat.
Proof.
  induction l as [|x l IH]; simpl; [lia|].
  rewrite app_length. lia.
Qed.

Lemma to_int_canonical (z : Z) :
  Z.to_int z <> Decimal.Pos Decimal.Nil /\ Z.to_int z <> Decimal.Neg Decimal.Nil.
Proof.
  destruct z as [|p|p]; simpl; split; try discriminate;
    intros [= Hp]; now apply (DecimalPos.Unsigned.to_uint_nonnil p).
Qed.

Lemma decInt_encInt (z : Z) (rest : string) :
  Wire.decInt (Wire.encInt z +:+ rest) = Some (z, rest).
Proof.
  unfold Wire.decInt, Wire.encInt. rewrite decText_encText. simpl.
  destruct (to_int_canonical z) as [Hp Hn].
  rewrite NilZero.isi by assumption. now rewrite DecimalZ.of_to.
Qed.

Lemma parseMapping_stringify (m : Redis.RoomCodeMapping) :
  Wire.parseMapping (Wire.stringifyMapping m) = Some m.
Proof.
  destruct m as [r h]. unfold Wire.parseMapping, Wire.stringifyMapping. simpl.
  rewrite decText_encText.
  rewrite <- (app_nil_r (Wire.encText h)), decText_encText. reflexivity.
Qed.

Lemma parseMetadata_stringify (m : Redis.RoomMetadata) :
  Wire.parseMetadata (Wire.stringifyMetadata m) = Some m.
Proof.
  destruct m as [r h ms c]. unfold Wire.parseMetadata, Wire.stringifyMetadata.
  simpl. rewrite !decText_encText, decInt_encInt.
  pose proof (encList_length ms) as Hlen.
  pose proof (decList_encList ms "" (S (String.length (Wire.encList ms)))
                ltac:(lia)) as Hd.
  rewrite app_nil_r in Hd. simpl in Hd. rewrite Hd. reflexivity.
Qed.

Lemma decodePayload_encode (p : Auth.JwtPayload) :
  Wire.decodePayload
    (Wire.encText (Auth.jp_userId p) +:+ Wire.encText (Auth.jp_roomId p)
     +:+ Wire.encText (Auth.jp_role p) +:+ Wire.encInt (Auth.jp_exp p)) = Some p.
Proof.
  destruct p as [u r ro e]. unfold Wire.decodePayload. simpl.
  rewrite !decText_encText.
  rewrite <- (app_nil_r (Wire.encInt e)), decInt_encInt. reflexivity.
Qed.

Lemma verify_sign (p : Auth.JwtPayload) (secret token : string) (now : Z) :
  Wire.sign p secret = Some token ->
  Wire.verify token secret now =
    if Auth.jp_exp p <=? now / 1000 then Auth.TokenExpiredError else Auth.Decoded p.
Proof.
  unfold Wire.sign. destruct (truthy secret); [|discriminate]. intros [= <-].
  unfold Wire.verify, Wire.signed.
  rewrite decText_encText, String.eqb_refl, decodePayload_encode. reflexivity.
Qed.

Lemma sign_throws (p : Auth.JwtPayload) (secret : string) :
  Wire.sign p secret = None <-> secret = "".
Proof.
  unfold Wire.sign. destruct (truthy secret) eqn:Hs.
  - apply truthy_true in Hs. split; [discriminate | congruence].
  - apply truthy_false in Hs. now split.
Qed.

Lemma sign_nonempty (p : Auth.JwtPayload) (secret token : string) :
  Wire.sign p secret = Some token -> token <> "".
Proof.
  unfold Wire.sign. destruct (truthy secret); [|discriminate].
  intros [= <-]. discriminate.
Qed.

#[global] Instance wireMappingJson : Redis.Json Redis.RoomCodeMapping := {|
  Redis.JSON_stringify := Wire.stringifyMapping;
  Redis.JSON_parse := Wire.parseMapping;
  Redis.JSON_parse_stringify := parseMapping_stringify;
  Redis.JSON_stringify_nonempty := fun m => ltac:(discriminate)
|}.

#[global] Instance wireMetadataJson : Redis.Json Redis.RoomMetadata := {|
  Redis.JSON_stringify := Wire.stringifyMetadata;
  Redis.JSON_parse := Wire.parseMetadata;
  Redis.JSON_parse_stringify := parseMetadata_stringify;
  Redis.JSON_stringify_nonempty := fun m => ltac:(discriminate)
|}.

#[global] Instance wireJwt : Auth.Jwt := {|
  Auth.jwt_sign := Wire.sign;
  Auth.jwt_verify := Wire.verify;
  Auth.jwt_sign_throws := sign_throws;
  Auth.jwt_verify_sign := verify_sign;
  Auth.jwt_sign_nonempty := sign_nonempty
|}.

(* ===================================================================== *)
(** ** Token authentication *)
(* ===================================================================== *)

(** No character of [s] is a colon. *)
Fixpoint colonFree (s : string) : Prop :=
  match s with
  | EmptyString => True
  | String c s' => c <> ":"%char /\ colonFree s'
  end.

Lemma notColon_true (c : ascii) : Auth.notColon c = true <-> c <> ":"%char.
Proof.
  unfold Auth.notColon. destruct (Ascii.eqb_spec c ":"%char); simpl;
    split; congruence.
Qed.

Lemma stripPrefix_Some (p s rest : string) :
  Auth.stripPrefix p s = Some rest <-> s = p +:+ rest.
Proof.
  revert s. induction p as [|a p IH]; intros s; simpl.
  - rewrite app_nil_l. split; congruence.
  - rewrite app_cons. destruct s as [|b s]; [split; discriminate|].
    destruct (Ascii.eqb_spec a b) as [->|Hab].
    + rewrite IH. split; congruence.
    + split; congruence.
Qed.

(** [spanNotColon] splits a text at its first colon. *)
Lemma spanNotColon_spec (s p rest : string) :
  Auth.spanNotColon s = (p, rest) <->
  s = p +:+ rest /\ colonFree p /\
  (rest = "" \/ exists rest', rest = String ":"%char rest').
Proof.
  revert p rest. induction s as [|c s IH]; intros p rest; simpl.
  - split.
    + intros [= <- <-]. repeat split. now left.
    + intros (Hs & _ & _). destruct p; [|discriminate].
      rewrite app_nil_l in Hs. now subst.
  - destruct (Auth.notColon c) eqn:Hc.
    + apply notColon_true in Hc.
      destruct (Auth.spanNotColon s) as [p0 rest0] eqn:Hspan.
      destruct (proj1 (IH p0 rest0) eq_refl) as (Hs & Hp0 & Hrest0).
      split.
      * intros [= <- <-]. rewrite app_cons. simpl. subst s. tauto.
      * intros (Hs' & Hp & Hrest). destruct p as [|c' p].
        { rewrite app_nil_l in Hs'. subst rest.
          destruct Hrest as [|(r' & [= Hc' _])]; congruence. }
        rewrite app_cons in Hs'. injection Hs' as <- Hs'. simpl in Hp.
        assert ((p0, rest0) = (p, rest)) as Heq by (apply IH; tauto).
        congruence.
    + assert (c = ":"%char) as ->.
      { destruct (Ascii.eqb_spec c ":"%char) as [|Hne]; [assumption|].
        apply notColon_true in Hne. congruence. }
      split.
      * intros [= <- <-]. rewrite app_nil_l. repeat split. right. eauto.
      * intros (Hs' & Hp & _). destruct p as [|c' p].
        { rewrite app_nil_l in Hs'. now subst. }
        rewrite app_cons in Hs'. injection Hs' as <- _. simpl in Hp. tauto.
Qed.

(** The regular expression [/^room:([^:]+):/] as a statement: group 1 is [r]
    exactly when the name is "room:", then the non-empty colon-free [r], then
    a colon, then anything. *)
Lemma extractRoomId_iff (d r : string) :
  Auth.extractRoomIdFromDocumentName d = Some r <->
  r <> "" /\ colonFree r /\ exists suffix, d = "room:" +:+ r +:+ ":" +:+ suffix.
Proof.
  unfold Auth.extractRoomIdFromDocumentName.
  destruct (Auth.stripPrefix "room:" d) as [rest|] eqn:Hstrip.
  - apply stripPrefix_Some in Hstrip. subst d.
    destruct (Auth.spanNotColon rest) as [p tl] eqn:Hspan.
    pose proof (proj1 (spanNotColon_spec rest p tl) Hspan) as (Hrest & Hp & Htl).
    split.
    + intros Hr. destruct p as [|c p]; [discriminate|].
      destruct tl as [|c' tl]; [discriminate|]. injection Hr as <-.
      destruct Htl as [|(tl' & [= -> ->])]; [discriminate|].
      split; [discriminate|]. split; [assumption|].
      exists tl'. now rewrite Hrest.
    + intros (Hne & Hcf & suffix & Hd).
      apply (inj (String.append "room:")) in Hd.
      assert (Auth.spanNotColon rest = (r, String ":"%char suffix)) as Heq.
      { apply spanNotColon_spec. split; [assumption|]. split; [assumption|].
        right. eauto. }
      rewrite Hspan in Heq. injection Heq as -> ->.
      destruct r; [congruence | reflexivity].
  - split; [discriminate|]. intros (_ & _ & suffix & Hd).
    assert (Auth.stripPrefix "room:" d = Some (r +:+ ":" +:+ suffix)) as Heq
      by (now apply stripPrefix_Some).
    congruence.
Qed.

(** A name that stops after the room segment has no room. *)
Lemma extractRoomId_no_suffix (id : string) :
  colonFree id -> Auth.extractRoomIdFromDocumentName ("room:" +:+ id) = None.
Proof.
  intros Hid. destruct (Auth.extractRoomIdFromDocumentName _) as [r|] eqn:He;
    [|reflexivity].
  apply extractRoomId_iff in He as (_ & Hr & suffix & Hd).
  apply (inj (String.append "room:")) in Hd. exfalso.
  revert r Hr Hd. induction id as [|c id IH]; intros r Hr Hd.
  - destruct r; rewrite ?app_cons, ?app_nil_l in Hd; discriminate.
  - destruct r as [|c' r]; rewrite ?app_cons, ?app_nil_l in Hd.
    + injection Hd as -> _. simpl in Hid. tauto.
    + injection Hd as <- Hd. simpl in Hid, Hr. apply (IH (proj2 Hid) r); tauto.
Qed.

(** A name with an empty room segment has no room. *)
Lemma extractRoomId_empty_segment (x : string) :
  Auth.extractRoomIdFromDocumentName ("room::" +:+ x) = None.
Proof. reflexivity. Qed.

(** The error classes of the authenticator, and the class of a result by its
    message. *)
Inductive AuthError : Type :=
| MissingToken
| InvalidToken
| Expired
| MalformedTarget
| RoomMismatch.

Definition authErrorOf (a : Auth.AuthResult) : option AuthError :=
  match Auth.error a with
  | Some e =>
      if String.eqb e "Missing authentication token" then Some MissingToken
      else if String.eqb e "Token expired" then Some Expired
      else if String.eqb e "Invalid token" || String.eqb e "Invalid token payload"
              || String.eqb e "Authentication failed" then Some InvalidToken
      else if String.eqb e "Invalid document name format" then Some MalformedTarget
      else if String.eqb e "Room ID mismatch" then Some RoomMismatch
      else None
  | None => None
  end.

(** The successful result that carries a payload's identity. *)
Definition granted (p : Auth.JwtPayload) : Auth.AuthResult :=
  {| Auth.success := true;
     Auth.ar_userId := Some (Auth.jp_userId p);
     Auth.ar_roomId := Some (Auth.jp_roomId p);
     Auth.ar_role := Some (Auth.jp_role p);
     Auth.error := None |}.

(** The token of an issuance, when there is one. *)
Definition tokenOf (issued : outcome (string * Z)) : option string :=
  match issued with
  | Return issued => Some issued.1
  | Throw _ => None
  end.

Section AuthResults.
Context `{Auth.Jwt}.

(** [verifyToken] either grants the identity of the decoded payload, or fails
    with an invalid-token or an expired error. *)
Lemma verifyToken_cases (cfg : Config) (now : Z) (token : string) :
  (exists p, Auth.jwt_verify token (jwtSecret cfg) now = Auth.Decoded p /\
             Auth.verifyToken cfg now token = granted p /\
             Auth.jp_userId p <> "" /\ Auth.jp_roomId p <> "" /\
             Auth.jp_role p <> "" /\ ~ (Auth.jp_exp p <> 0 /\ Auth.jp_exp p < now))
  \/ (Auth.success (Auth.verifyToken cfg now token) = false /\
      (authErrorOf (Auth.verifyToken cfg now token) = Some InvalidToken \/
       authErrorOf (Auth.verifyToken cfg now token) = Some Expired)).
Proof.
  unfold Auth.verifyToken.
  destruct (Auth.jwt_verify token (jwtSecret cfg) now) as [p| | |];
    [|right; split; [reflexivity|]; auto ..].
  destruct (truthy (Auth.jp_userId p)) eqn:Hu; simpl;
    [|right; split; [reflexivity|]; auto].
  destruct (truthy (Auth.jp_roomId p)) eqn:Hr; simpl;
    [|right; split; [reflexivity|]; auto].
  destruct (truthy (Auth.jp_role p)) eqn:Hro; simpl;
    [|right; split; [reflexivity|]; auto].
  apply truthy_true in Hu, Hr, Hro.
  destruct (Auth.jp_exp p =? 0) eqn:He; simpl.
  - left. exists p. apply Z.eqb_eq in He. repeat split; auto. tauto.
  - destruct (Auth.jp_exp p <? now) eqn:Hlt.
    + right. split; [reflexivity|]; auto.
    + left. exists p. apply Z.ltb_ge in Hlt. repeat split; auto. lia.
Qed.

(** [generateToken] returns, with an expiry instant 7 days ahead, exactly
    when the signing secret is not empty; with an empty secret it throws. *)
Lemma generateToken_returns (cfg : Config) (now : Z)
    (userId roomId : string) (role : Auth.Role) :
  jwtSecret cfg <> "" ->
  exists token,
    Auth.generateToken cfg now userId roomId role =
      Return (token, now + 7 * 24 * 60 * 60 * 1000) /\ token <> "".
Proof.
  intros Hs. unfold Auth.generateToken.
  destruct (Auth.jwt_sign _ (jwtSecret cfg)) as [token|] eqn:Hsign.
  - exists token. split; [reflexivity|].
    now apply Auth.jwt_sign_nonempty in Hsign.
  - apply Auth.jwt_sign_throws in Hsign. contradiction.
Qed.

Lemma generateToken_throws (cfg : Config) (now : Z)
    (userId roomId : string) (role : Auth.Role) :
  jwtSecret cfg = "" ->
  Auth.generateToken cfg now userId roomId role =
    Throw "secretOrPrivateKey must have a value".
Proof.
  intros Hs. unfold Auth.generateToken.
  now rewrite (proj2 (Auth.jwt_sign_throws _ _) Hs).
Qed.

(** A token from [generateToken] for a non-empty user and room verifies to
    the same identity up to the expiry instant and is expired after it. *)
Lemma verifyToken_generateToken (cfg : Config) (now t : Z)
    (userId roomId : string) (role : Auth.Role) (token : string) (e0 : Z) :
  userId <> "" -> roomId <> "" -> 0 <= now ->
  Auth.generateToken cfg now userId roomId role = Return (token, e0) ->
  Auth.verifyToken cfg t token =
    if t <=? now + 7 * 24 * 60 * 60 * 1000
    then {| Auth.success := true; Auth.ar_userId := Some userId;
            Auth.ar_roomId := Some roomId;
            Auth.ar_role := Some (Auth.role_name role); Auth.error := None |}
    else Auth.failure "Token expired".
Proof.
  intros Hu Hr Hnow. unfold Auth.verifyToken, Auth.generateToken.
  destruct (Auth.jwt_sign _ (jwtSecret cfg)) as [tok|] eqn:Hsign; [|discriminate].
  intros [= <- _]. rewrite (Auth.jwt_verify_sign _ _ _ t Hsign).
  cbn [Auth.jp_userId Auth.jp_roomId Auth.jp_role Auth.jp_exp].
  set (e := now + 7 * 24 * 60 * 60 * 1000).
  assert (1 <= e) as He by (unfold e; lia).
  pose proof (Z.div_mod t 1000 ltac:(lia)) as Hdm.
  pose proof (Z.mod_pos_bound t 1000 ltac:(lia)) as Hmod.
  apply truthy_true in Hu, Hr.
  destruct (e <=? t / 1000) eqn:Hlib.
  - apply Z.leb_le in Hlib.
    destruct (t <=? e) eqn:Hte; [apply Z.leb_le in Hte; lia | reflexivity].
  - cbn [Auth.jp_userId Auth.jp_roomId Auth.jp_role Auth.jp_exp].
    rewrite Hu, Hr. replace (truthy (Auth.role_name role)) with true
      by (now destruct role). simpl.
    replace (e =? 0) with false by (symmetry; apply Z.eqb_neq; lia). simpl.
    destruct (t <=? e) eqn:Hte.
    + apply Z.leb_le in Hte.
      replace (e <? t) with false by (symmetry; apply Z.ltb_ge; lia).
      reflexivity.
    + apply Z.leb_gt in Hte.
      replace (e <? t) with true by (symmetry; apply Z.ltb_lt; lia).
      reflexivity.
Qed.

(** A token issued for the empty user does not verify: the payload check of
    [verifyToken] refuses it, whatever the instant. *)
Lemma verifyToken_empty_user (cfg : Config) (now t : Z)
    (roomId : string) (role : Auth.Role) (token : string) (e0 : Z) :
  Auth.generateToken cfg now "" roomId role = Return (token, e0) ->
  Auth.success (Auth.verifyToken cfg t token) = false.
Proof.
  unfold Auth.verifyToken, Auth.generateToken.
  destruct (Auth.jwt_sign _ (jwtSecret cfg)) as [tok|] eqn:Hsign; [|discriminate].
  intros [= <- _]. rewrite (Auth.jwt_verify_sign _ _ _ t Hsign).
  now destruct (_ <=? _).
Qed.

End AuthResults.

(** C4 (as amended): for every non-empty userId and roomId and every role,
    with a non-empty signing secret and a clock at or after the epoch,
    [generateToken] returns an expiry instant exactly 7 days after issuance,
    and [verifyToken] on the returned token yields success with exactly the
    same userId, roomId and role at every instant up to and including the
    expiry instant, and the expired error at every instant strictly after it. *)
Theorem token_roundtrip `{Auth.Jwt} (cfg : Config) (now t : Z)
    (userId roomId : string) (role : Auth.Role) :
  userId <> "" -> roomId <> "" -> jwtSecret cfg <> "" -> 0 <= now ->
  exists token,
    Auth.generateToken cfg now userId roomId role =
      Return (token, now + 7 * 24 * 60 * 60 * 1000) /\
    (t <= now + 7 * 24 * 60 * 60 * 1000 ->
     Auth.verifyToken cfg t token =
       {| Auth.success := true; Auth.ar_userId := Some userId;
          Auth.ar_roomId := Some roomId;
          Auth.ar_role := Some (Auth.role_name role); Auth.error := None |}) /\
    (now + 7 * 24 * 60 * 60 * 1000 < t ->
     Auth.verifyToken cfg t token = Auth.failure "Token expired" /\
     authErrorOf (Auth.verifyToken cfg t token) = Some Expired).
Proof.
  intros Hu Hr Hs Hnow.
  destruct (generateToken_returns cfg now userId roomId role Hs)
    as (token & Hissued & _).
  exists token. split; [exact Hissued|].
  rewrite (verifyToken_generateToken cfg now t userId roomId role token _
             Hu Hr Hnow Hissued).
  split; intros Ht.
  - now replace (t <=? _) with true by (symmetry; apply Z.leb_le; lia).
  - now replace (t <=? _) with false by (symmetry; apply Z.leb_gt; lia).
Qed.

Lemma token_roundtrip_witness :
  exists token,
    Auth.generateToken defaultConfig 1000 "u1" "r1" Auth.guest =
      Return (token, 1000 + 7 * 24 * 60 * 60 * 1000) /\
    (604801000 <= 1000 + 7 * 24 * 60 * 60 * 1000 ->
     Auth.verifyToken defaultConfig 604801000 token =
       {| Auth.success := true; Auth.ar_userId := Some "u1";
          Auth.ar_roomId := Some "r1";
          Auth.ar_role := Some "guest"; Auth.error := None |}) /\
    (1000 + 7 * 24 * 60 * 60 * 1000 < 604801000 ->
     Auth.verifyToken defaultConfig 604801000 token = Auth.failure "Token expired" /\
     authErrorOf (Auth.verifyToken defaultConfig 604801000 token) = Some Expired).
Proof.
  apply (token_roundtrip defaultConfig 1000 604801000 "u1" "r1" Auth.guest);
    [discriminate | discriminate | discriminate | lia].
Defined.

(** C4 (as stated) fails for the empty userId: the token that
    [generateToken] issues for it is refused by the payload check of
    [verifyToken] at the very instant of issuance. *)
Lemma token_roundtrip_empty_user :
  exists token,
    Auth.generateToken defaultConfig 0 "" "r1" Auth.guest =
      Return (token, 604800000) /\
    Auth.verifyToken defaultConfig 0 token =
      Auth.failure "Invalid token payload".
Proof. eexists. split; reflexivity. Qed.

(** Splits a goal made of conjunctions, equivalences and implications over
    decided facts, and closes the pieces. *)
Ltac leaf :=
  repeat match goal with
  | |- _ /\ _ => split
  | |- _ <-> _ => split
  | |- _ -> _ => intro
  | H : _ /\ _ |- _ => destruct H
  | H : _ \/ _ |- _ => destruct H
  | H : exists _, _ |- _ => destruct H
  | H : ~ _ |- _ => (exfalso; apply H; congruence)
  end;
  try discriminate; try congruence; try tauto; eauto 6.

(** C5: [authenticateForDocument] ends in exactly one of these ways, decided
    in this order: the missing-token error when no token is supplied; else the
    invalid-token or expired error of [verifyToken] exactly when verification
    fails; else the malformed-target error when the document name has no room
    id; else the room-mismatch error when that id differs from the token's;
    else success, carrying the userId, roomId and role of the token. *)
Theorem authenticateForDocument_outcome `{Auth.Jwt} (cfg : Config) (now : Z)
    (token : option string) (documentName : string) :
  let result := Auth.authenticateForDocument cfg now token documentName in
  let verified := Auth.verifyToken cfg now (default "" token) in
  let supplied := truthy_opt token = true in
  let target := Auth.extractRoomIdFromDocumentName documentName in
  (authErrorOf result = Some MissingToken <-> ~ supplied) /\
  (authErrorOf result = Some InvalidToken \/ authErrorOf result = Some Expired
     <-> supplied /\ Auth.success verified = false) /\
  (supplied -> Auth.success verified = false -> result = verified) /\
  (authErrorOf result = Some MalformedTarget
     <-> supplied /\ Auth.success verified = true /\ target = None) /\
  (authErrorOf result = Some RoomMismatch
     <-> supplied /\ Auth.success verified = true /\
         exists r, target = Some r /\ Auth.ar_roomId verified <> Some r) /\
  (Auth.success result = true
     <-> supplied /\ Auth.success verified = true /\
         exists r, target = Some r /\ Auth.ar_roomId verified = Some r) /\
  (Auth.success result = true ->
     exists p, Auth.jwt_verify (default "" token) (jwtSecret cfg) now = Auth.Decoded p /\
               result = granted p) /\
  (Auth.success result = false -> exists e, authErrorOf result = Some e).
Proof.
  intros result verified supplied target. subst result supplied.
  unfold Auth.authenticateForDocument. fold verified. fold target.
  destruct (truthy_opt token) eqn:Htok; cbn [negb].
  2:{ change (authErrorOf (Auth.failure "Missing authentication token"))
        with (Some MissingToken).
      cbn [Auth.success Auth.failure]. leaf. }
  destruct (verifyToken_cases cfg now (default "" token))
    as [(p & Hjv & Hv & Hpu & Hpr & Hpro & Hpe) | (Hfail & Hcls)].
  - fold verified in Hv. rewrite Hv. cbn [Auth.success granted negb Auth.ar_roomId].
    destruct target as [r|] eqn:Htarget.
    + pose proof (proj1 (extractRoomId_iff documentName r) Htarget) as (Hr & _).
      apply truthy_true in Hr. rewrite Hr. cbn [negb].
      destruct (bool_decide (Some (Auth.jp_roomId p) = Some r)) eqn:Hsame;
        cbn [negb].
      * apply bool_decide_eq_true in Hsame.
        change (authErrorOf (granted p)) with (@None AuthError).
        cbn [Auth.success granted]. leaf.
      * apply bool_decide_eq_false in Hsame.
        change (authErrorOf (Auth.failure "Room ID mismatch"))
          with (Some RoomMismatch).
        cbn [Auth.success Auth.failure]. leaf.
    + change (authErrorOf (Auth.failure "Invalid document name format"))
        with (Some MalformedTarget).
      cbn [Auth.success Auth.failure]. leaf.
  - fold verified in Hfail, Hcls. rewrite Hfail. cbn [negb].
    destruct Hcls as [Hc|Hc]; rewrite Hc; leaf.
Qed.

(** The theorem at a token issued for room r1, presented for a document of
    room r2: the outcome is the room-mismatch error. *)
Lemma authenticateForDocument_outcome_witness :
  authErrorOf
    (Auth.authenticateForDocument defaultConfig 1000
       (tokenOf (Auth.generateToken defaultConfig 1000 "u1" "r1" Auth.guest))
       "room:r2:main") = Some RoomMismatch.
Proof.
  apply (authenticateForDocument_outcome defaultConfig 1000
           (tokenOf (Auth.generateToken defaultConfig 1000 "u1" "r1" Auth.guest))
           "room:r2:main").
  split; [reflexivity|]. split; [reflexivity|].
  exists "r2". split; [reflexivity | discriminate].
Defined.

(** C10: [extractRoomIdFromDocumentName d] returns a room id [r] exactly when
    [d] is "room:", then the non-empty colon-free [r], then a colon, then
    anything. A name "room:<id>" with nothing after the id, or a name with an
    empty room segment ("room::x"), has no room id, and
    [authenticateForDocument] rejects it as a malformed target for every token
    that verifies, hence also for a token issued for <id>. *)
Theorem extractRoomId_shape `{Auth.Jwt} :
  (forall d r,
     Auth.extractRoomIdFromDocumentName d = Some r <->
     r <> "" /\ colonFree r /\
     exists suffix, d = "room:" +:+ r +:+ ":" +:+ suffix) /\
  (forall cfg now token id,
     truthy_opt token = true ->
     Auth.success (Auth.verifyToken cfg now (default "" token)) = true ->
     colonFree id ->
     Auth.extractRoomIdFromDocumentName ("room:" +:+ id) = None /\
     Auth.authenticateForDocument cfg now token ("room:" +:+ id) =
       Auth.failure "Invalid document name format") /\
  (forall cfg now token x,
     truthy_opt token = true ->
     Auth.success (Auth.verifyToken cfg now (default "" token)) = true ->
     Auth.extractRoomIdFromDocumentName ("room::" +:+ x) = None /\
     Auth.authenticateForDocument cfg now token ("room::" +:+ x) =
       Auth.failure "Invalid document name format").
Proof.
  split; [exact extractRoomId_iff|]. split.
  - intros cfg now token id Htok Hok Hid.
    split; [now apply extractRoomId_no_suffix|].
    unfold Auth.authenticateForDocument.
    now rewrite Htok, Hok, extractRoomId_no_suffix.
  - intros cfg now token x Htok Hok.
    split; [apply extractRoomId_empty_segment|].
    unfold Auth.authenticateForDocument.
    now rewrite Htok, Hok, extractRoomId_empty_segment.
Qed.

(** The theorem at a token issued for room r1 and the document name
    "room:r1". *)
Lemma extractRoomId_shape_witness :
  Auth.extractRoomIdFromDocumentName ("room:" +:+ "r1") = None /\
  Auth.authenticateForDocument defaultConfig 1000
    (tokenOf (Auth.generateToken defaultConfig 1000 "u1" "r1" Auth.guest))
    ("room:" +:+ "r1") = Auth.failure "Invalid document name format".
Proof.
  apply (proj1 (proj2 extractRoomId_shape) defaultConfig 1000
           (tokenOf (Auth.generateToken defaultConfig 1000 "u1" "r1" Auth.guest))
           "r1");
    [reflexivity | reflexivity | cbn; repeat split; discriminate].
Defined.

(* ===================================================================== *)
(** ** The tiered store *)
(* ===================================================================== *)

(** An environment is healthy when the Redis client, if it is the one in use,
    does not reject commands. *)
Definition healthy (env : Env) : Prop :=
  env_ready env = true -> env_fault env = false.


Lemma healthy_dec (env : Env) : healthy env \/ ~ healthy env.
Proof.
  unfold healthy. destruct (env_ready env), (env_fault env);
    try (left; congruence). right. intros Hh. specialize (Hh eq_refl). discriminate.
Qed.

(** The in-process entries that survive a sweep at [now]. *)
Definition sweep (now : Z) (m : gmap string CacheEntry) : gmap string CacheEntry :=
  filter (fun kv : string * CacheEntry => ~ Redis.expired now kv.2) m.

(** The world after the sweep that every in-process read starts with. *)
Definition swept (env : Env) (w : World) : World :=
  if env_ready env then w else set_memoryCache (sweep (env_now env)) w.

(** What a read of [key] finds. *)
Definition peek (env : Env) (w : World) (key : string) : option string :=
  if env_ready env then RedisServer.GET (env_now env) key (redis w)
  else
    match memoryCache w !! key with
    | Some data =>
        if bool_decide (Redis.expired (env_now env) data) then None
        else Some (value data)
    | None => None
    end.

(** The world after [key] was set to [v] with a time to live of [t] seconds. *)
Definition stored (env : Env) (key v : string) (t : Z) (w : World) : World :=
  if env_ready env
  then set_redis (RedisServer.SETEX (env_now env) key t v) w
  else set_memoryCache
         (insert key {| value := v; expiresAt := env_now env + t * 1000 |}) w.

Lemma cleanupMemoryCache_eq (env : Env) (w : World) :
  Redis.cleanupMemoryCache env w =
    (Return tt, set_memoryCache (sweep (env_now env)) w).
Proof. reflexivity. Qed.

Ltac run_m :=
  unfold bind, ret, throw, tryCatch, dateNow, Redis.clientReady, Redis.command,
    Redis.memoryGet, Redis.memoryDelete, Redis.memorySet;
  cbv beta.

Lemma set_redis_same (w : World) : set_redis (fun _ => redis w) w = w.
Proof. now destruct w. Qed.

Lemma sweep_lookup (now : Z) (m : gmap string CacheEntry) (key : string) :
  sweep now m !! key =
    match m !! key with
    | Some data => if bool_decide (Redis.expired now data) then None else Some data
    | None => None
    end.
Proof.
  unfold sweep. destruct (m !! key) as [data|] eqn:Hm.
  - destruct (bool_decide (Redis.expired now data)) eqn:Hexp.
    + apply bool_decide_eq_true in Hexp. apply map_lookup_filter_None.
      right. intros x Hx. simpl. rewrite Hm in Hx. injection Hx as <-. tauto.
    + apply bool_decide_eq_false in Hexp. apply map_lookup_filter_Some.
      split; assumption.
  - apply map_lookup_filter_None. now left.
Qed.

Lemma getValue_ok (key : string) (env : Env) (w : World) :
  healthy env ->
  Redis.getValue key env w = (Return (peek env w key), swept env w).
Proof.
  intros Hh. unfold Redis.getValue, peek, swept, healthy in *. run_m.
  destruct (env_ready env).
  - rewrite Hh by reflexivity. now rewrite set_redis_same.
  - rewrite cleanupMemoryCache_eq. cbn [memoryCache set_memoryCache].
    rewrite sweep_lookup.
    destruct (memoryCache w !! key) as [data|]; [|reflexivity].
    destruct (bool_decide (Redis.expired (env_now env) data)) eqn:Hexp;
      [reflexivity|].
    now rewrite Hexp.
Qed.

Lemma getValue_faulty (key : string) (env : Env) (w : World) :
  env_ready env = true -> env_fault env = true ->
  Redis.getValue key env w = (Throw Redis.commandRejected, w).
Proof.
  intros Hr Hf. unfold Redis.getValue. run_m. now rewrite Hr, Hf.
Qed.

Lemma keyExists_ok (key : string) (env : Env) (w : World) :
  healthy env ->
  Redis.keyExists key env w =
    (Return (bool_decide (is_Some (peek env w key))), swept env w).
Proof.
  intros Hh. unfold Redis.keyExists, peek, swept, healthy in *. run_m.
  destruct (env_ready env).
  - rewrite Hh by reflexivity. rewrite set_redis_same.
    unfold RedisServer.EXISTS, RedisServer.GET.
    destruct (RedisServer.lookup (env_now env) (redis w) key); reflexivity.
  - rewrite cleanupMemoryCache_eq. cbn [memoryCache set_memoryCache].
    rewrite sweep_lookup.
    destruct (memoryCache w !! key) as [data|]; [|reflexivity].
    destruct (bool_decide (Redis.expired (env_now env) data)); reflexivity.
Qed.

Lemma setValue_ok (key v : string) (t : Z) (env : Env) (w : World) :
  healthy env -> 0 < t ->
  Redis.setValue key v (Some t) env w = (Return tt, stored env key v t w).
Proof.
  intros Hh Ht. unfold Redis.setValue, stored, healthy, Redis.ttlGiven in *.
  run_m.
  replace (t =? 0) with false by (symmetry; apply Z.eqb_neq; lia).
  destruct (env_ready env).
  - rewrite Hh by reflexivity.
    replace (0 <? t) with true by (symmetry; apply Z.ltb_lt; lia).
    destruct w; reflexivity.
  - reflexivity.
Qed.

Lemma setValue_faulty (key v : string) (t : option Z) (env : Env) (w : World) :
  env_ready env = true -> env_fault env = true ->
  Redis.setValue key v t env w = (Throw Redis.commandRejected, w).
Proof.
  intros Hr Hf. unfold Redis.setValue. run_m. rewrite Hr.
  destruct (Redis.ttlGiven t); now rewrite Hf.
Qed.

(** A value just stored is read back until its time to live is over. *)
Lemma peek_stored_same (env env' : Env) (key v : string) (t : Z) (w : World) :
  env_ready env' = env_ready env ->
  env_now env' <= env_now env + t * 1000 ->
  peek env' (stored env key v t w) key = Some v.
Proof.
  intros Hr Hnow. unfold peek, stored. rewrite Hr. destruct (env_ready env).
  - cbn [redis set_redis]. unfold RedisServer.GET, RedisServer.SETEX,
      RedisServer.lookup, RedisServer.live.
    rewrite lookup_insert_eq. cbn [r_expireAt r_value].
    now replace (_ <=? _) with true by (symmetry; apply Z.leb_le; lia).
  - cbn [memoryCache set_memoryCache]. rewrite lookup_insert_eq.
    rewrite bool_decide_eq_false_2; [reflexivity|].
    unfold Redis.expired. cbn [expiresAt]. lia.
Qed.

(** Storing under one key leaves every other key as it was. *)
Lemma peek_stored_other (env env' : Env) (key key' v : string) (t : Z) (w : World) :
  key <> key' ->
  peek env' (stored env key v t w) key' = peek env' w key'.
Proof.
  intros Hne. unfold peek, stored.
  destruct (env_ready env), (env_ready env');
    cbn [redis memoryCache set_redis set_memoryCache];
    try reflexivity.
  - unfold RedisServer.GET, RedisServer.SETEX, RedisServer.lookup.
    now rewrite lookup_insert_ne.
  - now rewrite lookup_insert_ne.
Qed.

(** A sweep removes nothing that a read at the same or a later instant could
    still find. *)
Lemma peek_swept (env env' : Env) (key : string) (w : World) :
  env_now env <= env_now env' ->
  peek env' (swept env w) key = peek env' w key.
Proof.
  intros Hnow. unfold peek, swept.
  destruct (env_ready env), (env_ready env');
    cbn [redis memoryCache set_memoryCache]; try reflexivity.
  rewrite sweep_lookup. destruct (memoryCache w !! key) as [data|]; [|reflexivity].
  destruct (bool_decide (Redis.expired (env_now env) data)) eqn:Hexp;
    [|reflexivity].
  apply bool_decide_eq_true in Hexp. rewrite bool_decide_eq_true_2; [reflexivity|].
  unfold Redis.expired in *. lia.
Qed.

Lemma swept_roomMetadataCache (env : Env) (w : World) :
  roomMetadataCache (swept env w) = roomMetadataCache w.
Proof. unfold swept. now destruct (env_ready env). Qed.

Lemma stored_roomMetadataCache (env : Env) (key v : string) (t : Z) (w : World) :
  roomMetadataCache (stored env key v t w) = roomMetadataCache w.
Proof. unfold stored. now destruct (env_ready env). Qed.

Lemma swept_swept (env : Env) (w : World) : swept env (swept env w) = swept env w.
Proof.
  unfold swept. destruct (env_ready env); [reflexivity|].
  unfold set_memoryCache. cbn. f_equal. apply map_eq. intros k.
  rewrite !sweep_lookup. destruct (memoryCache w !! k) as [d|]; [|reflexivity].
  destruct (bool_decide (Redis.expired (env_now env) d)) eqn:Hd; [reflexivity|].
  now rewrite Hd.
Qed.

(* ===================================================================== *)
(** ** Rooms in the store *)
(* ===================================================================== *)

Lemma roomKeys_distinct (code roomId : string) :
  Redis.roomCodeKey code <> Redis.roomMetadataKey roomId.
Proof. discriminate. Qed.

Section RoomFacts.
Context `{Redis.Json Redis.RoomMetadata} `{Redis.Json Redis.RoomCodeMapping}.

(** The room metadata a read finds. *)
Definition metadataAt (env : Env) (w : World) (roomId : string)
    : option Redis.RoomMetadata :=
  match peek env w (Redis.roomMetadataKey roomId) with
  | Some v => if truthy v then Redis.JSON_parse v else None
  | None => None
  end.

(** The room a code maps to, as a read finds it. *)
Definition mappingAt (env : Env) (w : World) (code : string)
    : option Redis.RoomCodeMapping :=
  match peek env w (Redis.roomCodeKey code) with
  | Some v => if truthy v then Redis.JSON_parse v else None
  | None => None
  end.

Lemma getRoomMetadata_ok (roomId : string) (env : Env) (w : World) :
  healthy env ->
  Redis.getRoomMetadata roomId env w =
    (Return (metadataAt env w roomId), swept env w).
Proof.
  intros Hh. unfold Redis.getRoomMetadata, metadataAt, bind.
  rewrite getValue_ok by assumption.
  destruct (peek env w (Redis.roomMetadataKey roomId)) as [v|]; cbn;
    [|reflexivity].
  destruct (truthy v); reflexivity.
Qed.

Lemma getRoomMetadata_faulty (roomId : string) (env : Env) (w : World) :
  ~ healthy env ->
  Redis.getRoomMetadata roomId env w = (Throw Redis.commandRejected, w).
Proof.
  intros Hh. unfold Redis.getRoomMetadata, bind.
  rewrite getValue_faulty; [reflexivity | |];
    unfold healthy in Hh; destruct (env_ready env), (env_fault env);
    try reflexivity; exfalso; apply Hh; congruence.
Qed.

Lemma getRoomCodeMapping_ok (code : string) (env : Env) (w : World) :
  healthy env ->
  Redis.getRoomCodeMapping code env w =
    (Return (mappingAt env w code), swept env w).
Proof.
  intros Hh. unfold Redis.getRoomCodeMapping, mappingAt, bind.
  rewrite getValue_ok by assumption.
  destruct (peek env w (Redis.roomCodeKey code)) as [v|]; cbn; [|reflexivity].
  destruct (truthy v); reflexivity.
Qed.

Lemma ROOM_TTL_pos : 0 < Redis.ROOM_TTL.
Proof. reflexivity. Qed.

Lemma saveRoomMetadata_ok (m : Redis.RoomMetadata) (env : Env) (w : World) :
  healthy env ->
  Redis.saveRoomMetadata m env w =
    (Return tt,
     stored env (Redis.roomMetadataKey (Redis.rm_roomId m))
       (Redis.JSON_stringify m) Redis.ROOM_TTL w).
Proof.
  intros Hh. unfold Redis.saveRoomMetadata.
  now rewrite setValue_ok by (assumption || apply ROOM_TTL_pos).
Qed.

Lemma saveRoomCode_ok (code : string) (m : Redis.RoomCodeMapping)
    (env : Env) (w : World) :
  healthy env ->
  Redis.saveRoomCode code m env w =
    (Return tt,
     stored env (Redis.roomCodeKey code) (Redis.JSON_stringify m)
       Redis.ROOM_TTL w).
Proof.
  intros Hh. unfold Redis.saveRoomCode.
  now rewrite setValue_ok by (assumption || apply ROOM_TTL_pos).
Qed.

Lemma parse_stored {A} `{Redis.Json A} (a : A) :
  (if truthy (Redis.JSON_stringify a)
   then Redis.JSON_parse (Redis.JSON_stringify a) else None) = Some a.
Proof.
  rewrite (proj2 (truthy_true _) (Redis.JSON_stringify_nonempty a)).
  apply Redis.JSON_parse_stringify.
Qed.

(** Metadata just saved is what a read within its time to live finds. *)
Lemma metadataAt_stored (env env' : Env) (m : Redis.RoomMetadata) (w : World) :
  env_ready env' = env_ready env ->
  env_now env' <= env_now env + Redis.ROOM_TTL * 1000 ->
  metadataAt env'
    (stored env (Redis.roomMetadataKey (Redis.rm_roomId m))
       (Redis.JSON_stringify m) Redis.ROOM_TTL w) (Redis.rm_roomId m) = Some m.
Proof.
  intros Hr Hnow. unfold metadataAt.
  rewrite peek_stored_same by assumption. apply parse_stored.
Qed.

Lemma mappingAt_stored (env env' : Env) (code : string)
    (m : Redis.RoomCodeMapping) (w : World) :
  env_ready env' = env_ready env ->
  env_now env' <= env_now env + Redis.ROOM_TTL * 1000 ->
  mappingAt env'
    (stored env (Redis.roomCodeKey code) (Redis.JSON_stringify m)
       Redis.ROOM_TTL w) code = Some m.
Proof.
  intros Hr Hnow. unfold mappingAt.
  rewrite peek_stored_same by assumption. apply parse_stored.
Qed.

End RoomFacts.

(** C7 (as amended): for a request whose roomId, code and hostUserId are all
    non-empty (and a store that answers): if [code] already maps to a room,
    register fails with CodeConflict (409) and performs no writes, so that the
    pre-existing code mapping and every other key read as before; otherwise it
    succeeds and creates both the code mapping {roomId, hostUserId} and the
    room metadata with members = [hostUserId], leaving every other key as it
    was. A request with an empty field fails with BadRequest (400) and leaves
    the world untouched. *)
Theorem register_outcome `{Redis.Json Redis.RoomMetadata}
    `{Redis.Json Redis.RoomCodeMapping}
    (roomId code hostUserId : string) (env : Env) (w : World) :
  healthy env ->
  let taken := is_Some (peek env w (Redis.roomCodeKey code)) in
  let res := (RoomApi.register roomId code hostUserId env w).1 in
  let w' := (RoomApi.register roomId code hostUserId env w).2 in
  (roomId = "" \/ code = "" \/ hostUserId = "" ->
   res = Return {| RoomApi.status := 400;
                   RoomApi.body := RoomApi.ErrorBody
                     "Missing required fields: roomId, code, hostUserId" |} /\
   w' = w) /\
  (roomId <> "" -> code <> "" -> hostUserId <> "" ->
   (taken ->
    res = Return {| RoomApi.status := 409;
                    RoomApi.body := RoomApi.ErrorBody "Room code already in use" |} /\
    w' = swept env w /\
    forall env', env_now env <= env_now env' ->
      mappingAt env' w' code = mappingAt env' w code /\
      forall key, peek env' w' key = peek env' w key) /\
   (~ taken ->
    res = Return {| RoomApi.status := 200;
                    RoomApi.body := RoomApi.RegisterBody roomId code |} /\
    (forall env', env_ready env' = env_ready env ->
       env_now env' <= env_now env + Redis.ROOM_TTL * 1000 ->
       mappingAt env' w' code =
         Some {| Redis.rc_roomId := roomId; Redis.rc_hostUserId := hostUserId |} /\
       metadataAt env' w' roomId =
         Some {| Redis.rm_roomId := roomId; Redis.rm_hostUserId := hostUserId;
                 Redis.rm_members := [hostUserId];
                 Redis.rm_createdAt := env_now env |}) /\
    forall env' key, env_now env <= env_now env' ->
      key <> Redis.roomCodeKey code -> key <> Redis.roomMetadataKey roomId ->
      peek env' w' key = peek env' w key)).
Proof.
  intros Hh taken res w'. subst taken res w'. unfold RoomApi.register.
  split.
  - intros Hempty. unfold tryCatch.
    assert (negb (truthy roomId) || negb (truthy code)
            || negb (truthy hostUserId) = true) as ->; [|now split].
    destruct Hempty as [-> | [-> | ->]]; cbn;
      rewrite ?orb_true_r; reflexivity.
  - intros Hr Hc Hu. apply truthy_true in Hr, Hc, Hu.
    unfold tryCatch, bind, Redis.roomCodeExists. rewrite Hr, Hc, Hu. cbn [negb orb].
    rewrite keyExists_ok by assumption. split.
    + intros Htaken. rewrite bool_decide_eq_true_2 by assumption. cbn.
      split; [reflexivity|]. split; [reflexivity|].
      intros env' Hnow. unfold mappingAt. now setoid_rewrite peek_swept.
    + intros Hfree. rewrite bool_decide_eq_false_2 by assumption.
      rewrite saveRoomCode_ok by assumption. unfold dateNow.
      rewrite saveRoomMetadata_ok by assumption.
      unfold RoomApi.respond, ret. cbn [fst snd Redis.rm_roomId].
      split; [reflexivity|]. split.
      * intros env' Hready Hnow. split.
        -- unfold mappingAt.
           rewrite peek_stored_other
             by (intros Heq; symmetry in Heq; revert Heq; apply roomKeys_distinct).
           rewrite peek_stored_same by assumption. apply parse_stored.
        -- unfold metadataAt. rewrite peek_stored_same by assumption.
           apply parse_stored.
      * intros env' key Hnow Hk1 Hk2.
        rewrite !peek_stored_other by congruence.
        now apply peek_swept.
Qed.

(** Sample environments: the in-process store, and a ready Redis client, at
    instant [t]. *)
Definition inProcessAt (t : Z) : Env :=
  {| env_now := t; env_ready := false; env_fault := false |}.

Definition redisAt (t : Z) : Env :=
  {| env_now := t; env_ready := true; env_fault := false |}.

Lemma healthy_inProcessAt (t : Z) : healthy (inProcessAt t).
Proof. intros [=]. Defined.

Lemma healthy_redisAt (t : Z) : healthy (redisAt t).
Proof. intros _. reflexivity. Defined.

(** The theorem at the registration of room r1 under code ABC123 in an empty
    in-process store. *)
Lemma register_outcome_witness :
  (RoomApi.register "r1" "ABC123" "u1" (inProcessAt 1000) emptyWorld).1 =
    Return {| RoomApi.status := 200;
              RoomApi.body := RoomApi.RegisterBody "r1" "ABC123" |} /\
  mappingAt (inProcessAt 1000)
    (RoomApi.register "r1" "ABC123" "u1" (inProcessAt 1000) emptyWorld).2 "ABC123" =
    Some {| Redis.rc_roomId := "r1"; Redis.rc_hostUserId := "u1" |} /\
  metadataAt (inProcessAt 1000)
    (RoomApi.register "r1" "ABC123" "u1" (inProcessAt 1000) emptyWorld).2 "r1" =
    Some {| Redis.rm_roomId := "r1"; Redis.rm_hostUserId := "u1";
            Redis.rm_members := ["u1"]; Redis.rm_createdAt := 1000 |}.
Proof.
  pose proof (register_outcome "r1" "ABC123" "u1" (inProcessAt 1000) emptyWorld
                (healthy_inProcessAt 1000)) as (_ & Hreg).
  destruct (Hreg ltac:(discriminate) ltac:(discriminate) ltac:(discriminate))
    as (_ & Hfree).
  destruct Hfree as (Hres & Hmaps & _).
  { intros [v Hv]. vm_compute in Hv. discriminate. }
  split; [exact Hres|].
  apply (Hmaps (inProcessAt 1000)); [reflexivity | vm_compute; discriminate].
Defined.

(** C7 (as stated) fails for a request with an empty roomId: with the code
    free, register answers 400 and creates nothing; with the code taken, it
    answers 400 and not 409. *)
Lemma register_empty_roomId :
  (peek (inProcessAt 1000) emptyWorld (Redis.roomCodeKey "ABC123") = None /\
   RoomApi.register "" "ABC123" "u1" (inProcessAt 1000) emptyWorld =
     (Return {| RoomApi.status := 400;
                RoomApi.body := RoomApi.ErrorBody
                  "Missing required fields: roomId, code, hostUserId" |},
      emptyWorld)) /\
  (let w1 := (RoomApi.register "r1" "ABC123" "u1" (inProcessAt 1000) emptyWorld).2 in
   is_Some (peek (inProcessAt 1000) w1 (Redis.roomCodeKey "ABC123")) /\
   RoomApi.register "" "ABC123" "u2" (inProcessAt 1000) w1 =
     (Return {| RoomApi.status := 400;
                RoomApi.body := RoomApi.ErrorBody
                  "Missing required fields: roomId, code, hostUserId" |},
      w1)).
Proof.
  split; [split; reflexivity|].
  split; [vm_compute; eauto | reflexivity].
Qed.

Lemma roleOf_role_name (role : Auth.Role) :
  RoomApi.roleOf (Auth.role_name role) = Some role.
Proof. now destruct role. Qed.

(** The answers of get-token. *)
Definition tokenAnswer (issued : string * Z) : RoomApi.Response :=
  {| RoomApi.status := 200; RoomApi.body := RoomApi.TokenBody issued.1 issued.2 |}.

Definition badRequest : RoomApi.Response :=
  {| RoomApi.status := 400;
     RoomApi.body := RoomApi.ErrorBody "Missing required fields: userId, roomId, role" |}.

Definition roomNotFound : RoomApi.Response :=
  {| RoomApi.status := 404;
     RoomApi.body := RoomApi.ErrorBody "Room not found or expired" |}.

Definition notAMember : RoomApi.Response :=
  {| RoomApi.status := 403;
     RoomApi.body := RoomApi.ErrorBody "User is not a member of this room" |}.

Definition notHost : RoomApi.Response :=
  {| RoomApi.status := 403;
     RoomApi.body := RoomApi.ErrorBody "Only the room creator can have host role" |}.

(** The body of a 500 answer. *)
Definition internalError : RoomApi.Response :=
  {| RoomApi.status := 500;
     RoomApi.body := RoomApi.ErrorBody "Internal server error" |}.

(** What get-token answers once its checks have passed: the token, or 500
    where [generateToken] threw. *)
Definition signedAnswer (issued : outcome (string * Z)) : RoomApi.Response :=
  match issued with
  | Return issued => tokenAnswer issued
  | Throw _ => internalError
  end.

(** A response that carries a token. *)
Definition issuesToken (r : outcome RoomApi.Response) : Prop :=
  exists s token expiresAt,
    r = Return {| RoomApi.status := s;
                  RoomApi.body := RoomApi.TokenBody token expiresAt |}.

Section GetToken.
Context `{Redis.Json Redis.RoomMetadata} `{Auth.Jwt}.

(** What get-token answers to a request with its fields, with a store that
    answers. *)
Lemma getToken_ok (cfg : Config) (userId roomId : string) (role : Auth.Role)
    (env : Env) (w : World) :
  healthy env -> userId <> "" -> roomId <> "" ->
  RoomApi.getToken cfg userId roomId (Auth.role_name role) env w =
    (Return
       match metadataAt env w roomId with
       | None => roomNotFound
       | Some m =>
           if negb (includes (Redis.rm_members m) userId) then notAMember
           else if String.eqb (Auth.role_name role) "host"
                   && negb (String.eqb (Redis.rm_hostUserId m) userId)
           then notHost
           else signedAnswer
                  (Auth.generateToken cfg (env_now env) userId roomId role)
       end,
     swept env w).
Proof.
  intros Hh Hu Hr. apply truthy_true in Hu, Hr.
  assert (truthy (Auth.role_name role) = true) as Hrole by now destruct role.
  unfold RoomApi.getToken, tryCatch. rewrite Hu, Hr, Hrole. cbn [negb orb].
  rewrite roleOf_role_name. unfold bind. rewrite getRoomMetadata_ok by assumption.
  destruct (metadataAt env w roomId) as [m|]; [|reflexivity].
  destruct (includes (Redis.rm_members m) userId); cbn [negb];
    [|reflexivity].
  destruct (String.eqb (Auth.role_name role) "host"
            && negb (String.eqb (Redis.rm_hostUserId m) userId)); [reflexivity|].
  unfold dateNow, call.
  destruct (Auth.generateToken cfg (env_now env) userId roomId role)
    as [[token expiresAt]|e]; reflexivity.
Qed.

(** The host role is refused to a member exactly when the member is not the
    room's creator. *)
Lemma hostRefused_iff (role : Auth.Role) (hostUserId userId : string) :
  String.eqb (Auth.role_name role) "host" && negb (String.eqb hostUserId userId)
    = true <-> role = Auth.host /\ userId <> hostUserId.
Proof.
  destruct role; cbn [Auth.role_name];
    [change (String.eqb "host" "host") with true
    |change (String.eqb "guest" "host") with false]; cbn [andb].
  - destruct (String.eqb_spec hostUserId userId) as [->|Hne]; cbn [negb].
    + split; [discriminate|]. intros [_ Hc]. now contradiction Hc.
    + split; [|reflexivity]. intros _. split; [reflexivity | congruence].
  - split; [discriminate|]. intros [Hc _]. discriminate.
Qed.

End GetToken.

(** C2 (as amended): for every request get-token(userId, roomId, role) with
    non-empty userId and roomId and role in {host, guest}, a store that
    answers and a non-empty signing secret: the operation returns a signed
    token iff the room's metadata exists, userId is in the room's members, and
    (role = guest, or userId equals the room's hostUserId); otherwise it
    fails with RoomNotFound when the room is absent, NotAMember when userId
    is not in members, and NotHost when role = host is requested by a member
    other than the host, and on every failure no token is issued. With an
    empty signing secret the failures are the same, and a request that passes
    every check is answered 500 "Internal server error" with no token,
    because signing throws. A request with an empty userId or roomId fails
    with BadRequest, and no token is issued. *)
Theorem getToken_outcome `{Redis.Json Redis.RoomMetadata} `{Auth.Jwt}
    (cfg : Config) (userId roomId : string) (role : Auth.Role)
    (env : Env) (w : World) :
  healthy env ->
  let res := (RoomApi.getToken cfg userId roomId (Auth.role_name role) env w).1 in
  let room := metadataAt env w roomId in
  let entitled (m : Redis.RoomMetadata) :=
    In userId (Redis.rm_members m) /\
    (role = Auth.guest \/ userId = Redis.rm_hostUserId m) in
  (userId = "" \/ roomId = "" -> res = Return badRequest) /\
  (userId <> "" -> roomId <> "" ->
   (jwtSecret cfg <> "" ->
    (issuesToken res <-> exists m, room = Some m /\ entitled m) /\
    (forall m, room = Some m -> entitled m ->
       exists token,
         Auth.generateToken cfg (env_now env) userId roomId role =
           Return (token, env_now env + 7 * 24 * 60 * 60 * 1000) /\
         res = Return (tokenAnswer
                         (token, env_now env + 7 * 24 * 60 * 60 * 1000)))) /\
   (jwtSecret cfg = "" ->
    ~ issuesToken res /\
    (forall m, room = Some m -> entitled m -> res = Return internalError)) /\
   (room = None -> res = Return roomNotFound) /\
   (forall m, room = Some m -> ~ In userId (Redis.rm_members m) ->
      res = Return notAMember) /\
   (forall m, room = Some m -> In userId (Redis.rm_members m) ->
      role = Auth.host -> userId <> Redis.rm_hostUserId m ->
      res = Return notHost)) /\
  (res = Return badRequest \/ res = Return roomNotFound \/
   res = Return notAMember \/ res = Return notHost \/
   res = Return internalError -> ~ issuesToken res).
Proof.
  intros Hh res room entitled. subst res room entitled.
  split; [|split].
  - intros Hempty. unfold RoomApi.getToken, tryCatch.
    assert (truthy (Auth.role_name role) = true) as Hrole by now destruct role.
    assert (negb (truthy userId) || negb (truthy roomId)
            || negb (truthy (Auth.role_name role)) = true) as ->;
      [|reflexivity].
    destruct Hempty as [-> | ->]; cbn; rewrite ?orb_true_r; reflexivity.
  - intros Hu Hr. rewrite getToken_ok by assumption. cbn [fst].
    destruct (metadataAt env w roomId) as [m|] eqn:Hroom.
    2:{ split; [|split; [|split; [|split]]].
        - intros _. split; [|intros m [=]]. unfold issuesToken. split.
          + intros (s & t & e & [=]).
          + intros (m & [=] & _).
        - intros _. split; [|intros m [=]].
          intros (s & t & e & [=]).
        - reflexivity.
        - intros m [=].
        - intros m [=]. }
    destruct (includes (Redis.rm_members m) userId) eqn:Hin; cbn [negb].
    2:{ assert (~ In userId (Redis.rm_members m)) as Hnot
          by (rewrite <- includes_In; congruence).
        split; [|split; [|split; [|split]]].
        - intros _. split.
          + split; [intros (s & t & e & [=])|].
            intros (m' & [= <-] & Hm' & _). contradiction.
          + intros m' [= <-] [Hm' _]. contradiction.
        - intros _. split; [intros (s & t & e & [=])|].
          intros m' [= <-] [Hm' _]. contradiction.
        - discriminate.
        - reflexivity.
        - intros m' [= <-] Hm'. contradiction. }
    apply includes_In in Hin.
    destruct (String.eqb (Auth.role_name role) "host"
              && negb (String.eqb (Redis.rm_hostUserId m) userId)) eqn:Hhost.
    { apply hostRefused_iff in Hhost as [-> Hne].
      split; [|split; [|split; [|split]]].
      - intros _. split.
        + split; [intros (s & t & e & [=])|].
          intros (m' & [= <-] & _ & [Hc|Hc]); [discriminate | contradiction].
        + intros m' [= <-] [_ [Hc|Hc]]; [discriminate | contradiction].
      - intros _. split; [intros (s & t & e & [=])|].
        intros m' [= <-] [_ [Hc|Hc]]; [discriminate | contradiction].
      - discriminate.
      - intros m' [= <-] Hm'. contradiction.
      - reflexivity. }
    assert (role = Auth.guest \/ userId = Redis.rm_hostUserId m) as Hent.
    { destruct role; [|now left]. right.
      destruct (String.eqb_spec userId (Redis.rm_hostUserId m)) as [Heq|Hne];
        [exact Heq|].
      assert (String.eqb (Auth.role_name Auth.host) "host"
              && negb (String.eqb (Redis.rm_hostUserId m) userId) = true) as Hc
        by (apply hostRefused_iff; now split).
      congruence. }
    split; [|split; [|split; [|split]]].
    + intros Hs.
      destruct (generateToken_returns cfg (env_now env) userId roomId role Hs)
        as (token & Hissued & _).
      rewrite Hissued. cbn [signedAnswer]. split.
      * split; [|intros _; unfold tokenAnswer; do 3 eexists; reflexivity].
        intros _. exists m. now split.
      * intros m' _ _. exists token. now split.
    + intros Hs. rewrite generateToken_throws by assumption. cbn [signedAnswer].
      split; [intros (s & t & e & [=])|]. reflexivity.
    + discriminate.
    + intros m' [= <-] Hm'. contradiction.
    + intros m' [= <-] _ -> Hne.
      assert (String.eqb (Auth.role_name Auth.host) "host"
              && negb (String.eqb (Redis.rm_hostUserId m) userId) = true) as Hc
        by (apply hostRefused_iff; now split).
      congruence.
  - unfold issuesToken. intros Hres (s & token & expiresAt & Htok).
    rewrite Htok in Hres.
    unfold badRequest, roomNotFound, notAMember, notHost, internalError in Hres.
    destruct Hres as [Hb | [Hb | [Hb | [Hb | Hb]]]]; discriminate.
Qed.

(** The theorem on the end-to-end example: u2, added to room r1 of host u1,
    gets a guest token and is refused a host token. *)
Lemma getToken_outcome_witness :
  let env := inProcessAt 1000 in
  let w2 := (RoomApi.addMember "r1" "u2" env
               (RoomApi.register "r1" "ABC123" "u1" env emptyWorld).2).2 in
  (exists token,
     Auth.generateToken defaultConfig 1000 "u2" "r1" Auth.guest =
       Return (token, 1000 + 7 * 24 * 60 * 60 * 1000) /\
     (RoomApi.getToken defaultConfig "u2" "r1" "guest" env w2).1 =
       Return (tokenAnswer (token, 1000 + 7 * 24 * 60 * 60 * 1000))) /\
  (RoomApi.getToken defaultConfig "u2" "r1" "host" env w2).1 = Return notHost.
Proof.
  intros env w2.
  set (m := {| Redis.rm_roomId := "r1"; Redis.rm_hostUserId := "u1";
               Redis.rm_members := ["u1"; "u2"]; Redis.rm_createdAt := 1000 |}).
  assert (metadataAt env w2 "r1" = Some m) as Hroom by (vm_compute; reflexivity).
  split.
  - apply (proj2 (proj1 (proj1 (proj2
             (getToken_outcome defaultConfig "u2" "r1" Auth.guest env w2
                (healthy_inProcessAt 1000)))
             ltac:(discriminate) ltac:(discriminate)) ltac:(discriminate))
             m Hroom).
    split; [right; left; reflexivity | left; reflexivity].
  - apply (proj2 (proj2 (proj2 (proj2 (proj1 (proj2
             (getToken_outcome defaultConfig "u2" "r1" Auth.host env w2
                (healthy_inProcessAt 1000)))
             ltac:(discriminate) ltac:(discriminate))))) m Hroom);
      [right; left; reflexivity | reflexivity | discriminate].
Defined.

(** C2 (as stated) fails for a request with an empty userId: the room is
    absent, and the answer is BadRequest (400), not RoomNotFound (404). *)
Lemma getToken_empty_userId :
  metadataAt (inProcessAt 1000) emptyWorld "r1" = None /\
  (RoomApi.getToken defaultConfig "" "r1" "guest" (inProcessAt 1000) emptyWorld).1 =
    Return badRequest /\
  badRequest <> roomNotFound.
Proof. repeat split; try reflexivity. discriminate. Qed.

(* ===================================================================== *)
(** ** Calls cut at their awaits *)
(* ===================================================================== *)

Lemma runAlone_callT {A} (op : M A) (env : Env) (w : World) :
  Async.runAlone (Async.callT op) env w = op env w.
Proof.
  unfold Async.callT. cbn [Async.runAlone].
  destruct (op env w) as [[a|e] w1]; reflexivity.
Qed.

Lemma runAlone_bindT {A B} (t : Async.task A) (k : A -> Async.task B)
    (env : Env) (w : World) :
  Async.runAlone (Async.bindT t k) env w =
    bind (Async.runAlone t) (fun a => Async.runAlone (k a)) env w.
Proof.
  revert w. induction t as [[a|e]|C op k' IH]; intros w;
    cbn [Async.bindT Async.runAlone]; unfold bind; try reflexivity.
  destruct (op env w) as [[b|e] w1]; [|reflexivity].
  rewrite IH. reflexivity.
Qed.

Lemma runAlone_catchT {A} (t : Async.task A) (h : string -> Async.task A)
    (env : Env) (w : World) :
  Async.runAlone (Async.catchT t h) env w =
    tryCatch (Async.runAlone t) (fun e => Async.runAlone (h e)) env w.
Proof.
  revert w. induction t as [[a|e]|C op k' IH]; intros w;
    cbn [Async.catchT Async.runAlone]; unfold tryCatch, Async.attempt;
    try reflexivity.
  destruct (op env w) as [[b|e] w1]; [|reflexivity].
  rewrite IH. reflexivity.
Qed.

Lemma runEach_done {A} (r : outcome A) (envs : list Env) (w : World) :
  Async.runEach (Async.Done r) envs w = (Async.Done r, w).
Proof. induction envs as [|env envs IH]; [reflexivity | exact IH]. Qed.

(** [runEach] is the schedule that gives every turn to the one call. *)
Lemma schedule_runEach {A} (t : Async.task A) (envs : list Env) (w : World) :
  Async.schedule (map (pair 0%nat) envs) [t] w =
    ([(Async.runEach t envs w).1], (Async.runEach t envs w).2).
Proof.
  revert t w. induction envs as [|env envs IH]; intros t w; [reflexivity|].
  cbn [map Async.schedule Async.runEach lookup list_lookup].
  destruct (Async.step t env w) as [t' w']. apply IH.
Qed.

(** A call given all its turns in one environment is the call run alone. *)
Lemma runEach_runAlone {A} (t : Async.task A) (env : Env) (w : World) :
  exists n, forall m, (n <= m)%nat ->
    Async.runEach t (replicate m env) w =
      (Async.Done (Async.runAlone t env w).1, (Async.runAlone t env w).2).
Proof.
  revert w. induction t as [r|C op k IH]; intros w.
  - exists 0%nat. intros m _. now rewrite runEach_done.
  - cbn [Async.runAlone]. destruct (op env w) as [[b|e] w1] eqn:Hop.
    + destruct (IH b w1) as (n & Hn). exists (S n). intros [|m] Hm; [lia|].
      cbn [replicate Async.runEach Async.step]. rewrite Hop.
      apply Hn. lia.
    + exists 1%nat. intros [|m] Hm; [lia|].
      cbn [replicate Async.runEach Async.step]. rewrite Hop.
      now rewrite runEach_done.
Qed.

Section TaskFacts.
Context `{Redis.Json Redis.RoomMetadata} `{Redis.Json Redis.RoomCodeMapping}.

(** The handlers cut at their [await]s are the handlers of the source: run
    with nothing in between, they do what the uncut functions do. *)
Lemma addRoomMemberT_alone (roomId userId : string) (env : Env) (w : World) :
  Async.runAlone (Async.addRoomMemberT roomId userId) env w =
    Redis.addRoomMember roomId userId env w.
Proof.
  unfold Async.addRoomMemberT, Redis.addRoomMember.
  rewrite runAlone_bindT. unfold bind. rewrite runAlone_callT.
  destruct (Redis.getRoomMetadata roomId env w) as [[[m|]|e] w1];
    try reflexivity.
  destruct (negb (includes (Redis.rm_members m) userId)); [|reflexivity].
  cbn [Async.runAlone Async.bindT Async.callT].
  destruct (Redis.saveRoomMetadata _ env w1) as [[[]|e] w2]; reflexivity.
Qed.

Lemma addMemberT_alone (roomId userId : string) (env : Env) (w : World) :
  Async.runAlone (Async.addMemberT roomId userId) env w =
    RoomApi.addMember roomId userId env w.
Proof.
  unfold Async.addMemberT, RoomApi.addMember. rewrite runAlone_catchT.
  unfold tryCatch.
  destruct (negb (truthy roomId) || negb (truthy userId)); [reflexivity|].
  rewrite runAlone_bindT. unfold bind. rewrite runAlone_callT.
  destruct (Redis.getRoomMetadata roomId env w) as [[[m|]|e] w1];
    try reflexivity.
  rewrite runAlone_bindT. unfold bind. rewrite addRoomMemberT_alone.
  destruct (Redis.addRoomMember roomId userId env w1) as [[[|]|e] w2];
    reflexivity.
Qed.

Lemma registerT_alone (roomId code hostUserId : string) (env : Env) (w : World) :
  Async.runAlone (Async.registerT roomId code hostUserId) env w =
    RoomApi.register roomId code hostUserId env w.
Proof.
  unfold Async.registerT, RoomApi.register. rewrite runAlone_catchT.
  unfold tryCatch.
  destruct (negb (truthy roomId) || negb (truthy code) || negb (truthy hostUserId));
    [reflexivity|].
  rewrite runAlone_bindT. unfold bind. rewrite runAlone_callT.
  destruct (Redis.roomCodeExists code env w) as [[[|]|e] w1]; reflexivity.
Qed.

Lemma readThroughT_alone (roomId : string) (env : Env) (w : World) :
  Async.runAlone (Async.readThroughT roomId) env w =
    RoomIsolation.readThrough roomId env w.
Proof.
  unfold Async.readThroughT, RoomIsolation.readThrough.
  rewrite runAlone_bindT. unfold bind. rewrite runAlone_callT.
  destruct (Redis.getRoomMetadata roomId env w) as [[[m|]|e] w1];
    reflexivity.
Qed.

Lemma getCachedRoomMembersT_alone (roomId : string) (env : Env) (w : World) :
  Async.runAlone (Async.getCachedRoomMembersT roomId) env w =
    RoomIsolation.getCachedRoomMembers roomId env w.
Proof.
  unfold Async.getCachedRoomMembersT, RoomIsolation.getCachedRoomMembers.
  rewrite runAlone_bindT. unfold bind. rewrite runAlone_callT.
  unfold RoomIsolation.cacheGet, dateNow, ret. cbn [fst snd].
  destruct (roomMetadataCache w !! roomId) as [cached|];
    [|apply readThroughT_alone].
  destruct (env_now env <? cm_expiresAt cached);
    [reflexivity | apply readThroughT_alone].
Qed.

Lemma validateRoomAccessT_alone (userId documentName : string) (env : Env)
    (w : World) :
  Async.runAlone (Async.validateRoomAccessT userId documentName) env w =
    RoomIsolation.validateRoomAccess userId documentName env w.
Proof.
  unfold Async.validateRoomAccessT, RoomIsolation.validateRoomAccess.
  destruct (Auth.extractRoomIdFromDocumentName documentName) as [roomId|];
    [|reflexivity].
  destruct (negb (truthy roomId)); [reflexivity|].
  rewrite runAlone_bindT. unfold bind. rewrite getCachedRoomMembersT_alone.
  destruct (RoomIsolation.getCachedRoomMembers roomId env w)
    as [[[members|]|e] w1]; try reflexivity.
  destruct (negb (includes members userId)); reflexivity.
Qed.

Lemma validateRoomMembershipT_alone (userId documentName socketId : string)
    (env : Env) (w : World) :
  Async.runAlone (Async.validateRoomMembershipT userId documentName socketId)
    env w =
    RoomIsolation.validateRoomMembership userId documentName socketId env w.
Proof.
  unfold Async.validateRoomMembershipT, RoomIsolation.validateRoomMembership.
  rewrite runAlone_bindT. unfold bind. rewrite validateRoomAccessT_alone.
  destruct (RoomIsolation.validateRoomAccess userId documentName env w)
    as [[result|e] w1]; [|reflexivity].
  destruct (negb (RoomIsolation.ri_success result)); reflexivity.
Qed.

Lemma trackIpConnectionT_alone (cfg : Config) (clientIp : string) (env : Env)
    (w : World) :
  Async.runAlone (Async.trackIpConnectionT cfg clientIp) env w =
    RateLimit.trackIpConnection cfg clientIp env w.
Proof.
  unfold Async.trackIpConnectionT, RateLimit.trackIpConnection.
  cbn [Async.runAlone]. unfold bind.
  destruct (Redis.getValue _ env w) as [[countStr|e] w1]; [|reflexivity].
  destruct (Js.geb _ _); cbn [Async.runAlone]; [reflexivity|].
  destruct (Redis.setValue _ _ _ env w1) as [[[]|e] w2]; reflexivity.
Qed.

Lemma onConnectT_alone (cfg : Config) (documentName socketId : string)
    (user : option Auth.Identity) (clientIp : string) (env : Env) (w : World) :
  Async.runAlone (Async.onConnectT cfg documentName socketId user clientIp)
    env w =
    Index.onConnect cfg documentName socketId user clientIp env w.
Proof.
  unfold Async.onConnectT, Index.onConnect.
  rewrite runAlone_bindT. unfold bind. rewrite trackIpConnectionT_alone.
  destruct (RateLimit.trackIpConnection cfg clientIp env w)
    as [[[|]|e] w1]; try reflexivity.
  cbn [negb]. destruct user as [user|]; [|reflexivity].
  apply validateRoomMembershipT_alone.
Qed.

End TaskFacts.

Lemma releaseIpConnectionT_alone (clientIp : string) (env : Env) (w : World) :
  Async.runAlone (Async.releaseIpConnectionT clientIp) env w =
    RateLimit.releaseIpConnection clientIp env w.
Proof.
  unfold Async.releaseIpConnectionT, RateLimit.releaseIpConnection.
  cbv zeta. rewrite runAlone_bindT. unfold bind. rewrite runAlone_callT.
  destruct (Redis.getValue _ env w) as [[countStr|e] w1]; [|reflexivity].
  destruct (truthy_opt countStr); [|reflexivity].
  destruct (Js.gtb _ _); [|reflexivity].
  cbn [Async.runAlone Async.bindT Async.callT].
  destruct (Redis.setValue _ _ _ env w1) as [[[]|e] w2]; reflexivity.
Qed.

Lemma onDisconnectT_alone (clientIp : option string) (env : Env) (w : World) :
  Async.runAlone (Async.onDisconnectT clientIp) env w =
    Index.onDisconnect clientIp env w.
Proof. apply releaseIpConnectionT_alone. Qed.

(* ===================================================================== *)
(** ** The membership cache *)
(* ===================================================================== *)

Lemma peek_set_roomMetadataCache (env : Env) (w : World) (key : string)
    (f : gmap string CachedMembers -> gmap string CachedMembers) :
  peek env (set_roomMetadataCache f w) key = peek env w key.
Proof. reflexivity. Qed.


(** Time only takes keys away: a later read finds what the earlier one found,
    or nothing. *)
Lemma peek_later (env env' : Env) (w : World) (key : string) :
  env_ready env' = env_ready env -> env_now env <= env_now env' ->
  peek env' w key = None \/ peek env' w key = peek env w key.
Proof.
  intros Hr Hn. unfold peek. rewrite Hr. destruct (env_ready env).
  - unfold RedisServer.GET, RedisServer.lookup, RedisServer.live.
    destruct (redis w !! key) as [e|]; [|now left].
    destruct (r_expireAt e) as [t|]; [|now right].
    destruct (env_now env' <=? t) eqn:H1; [|now left].
    apply Z.leb_le in H1.
    replace (env_now env <=? t) with true by (symmetry; apply Z.leb_le; lia).
    now right.
  - destruct (memoryCache w !! key) as [d|]; [|now left].
    destruct (bool_decide (Redis.expired (env_now env') d)) eqn:H1; [now left|].
    apply bool_decide_eq_false in H1.
    rewrite bool_decide_eq_false_2; [now right|].
    unfold Redis.expired in *. lia.
Qed.


Section CacheFacts.
Context `{Redis.Json Redis.RoomMetadata}.

Lemma addRoomMember_ok (roomId userId : string) (env : Env) (w : World) :
  healthy env ->
  Redis.addRoomMember roomId userId env w =
    match metadataAt env w roomId with
    | None => (Return false, swept env w)
    | Some m =>
        if includes (Redis.rm_members m) userId
        then (Return true, swept env w)
        else (Return true,
              stored env (Redis.roomMetadataKey (Redis.rm_roomId m))
                (Redis.JSON_stringify (Redis.pushMember m userId))
                Redis.ROOM_TTL (swept env w))
    end.
Proof.
  intros Hh. unfold Redis.addRoomMember, bind.
  rewrite getRoomMetadata_ok by assumption.
  destruct (metadataAt env w roomId) as [m|]; [|reflexivity].
  destruct (includes (Redis.rm_members m) userId); cbn [negb]; [reflexivity|].
  now rewrite saveRoomMetadata_ok by assumption.
Qed.

(** A read through to the store returns the members the store holds and
    caches them for 60 seconds from the instant of the read. *)
Lemma readThrough_ok (roomId : string) (env : Env) (w : World) :
  healthy env ->
  RoomIsolation.readThrough roomId env w =
    match metadataAt env w roomId with
    | None => (Return None, swept env w)
    | Some m =>
        (Return (Some (Redis.rm_members m)),
         set_roomMetadataCache
           (insert roomId {| cm_members := Redis.rm_members m;
                             cm_expiresAt := env_now env + 60 * 1000 |})
           (swept env w))
    end.
Proof.
  intros Hh. unfold RoomIsolation.readThrough, bind.
  rewrite getRoomMetadata_ok by assumption.
  destruct (metadataAt env w roomId) as [m|]; reflexivity.
Qed.

(** An entry is served strictly before its expiry instant, and only then. *)
Lemma getCachedRoomMembers_hit (roomId : string) (env : Env) (w : World)
    (cached : CachedMembers) :
  roomMetadataCache w !! roomId = Some cached ->
  env_now env < cm_expiresAt cached ->
  RoomIsolation.getCachedRoomMembers roomId env w =
    (Return (Some (cm_members cached)), w).
Proof.
  intros Hc Hlive. unfold RoomIsolation.getCachedRoomMembers, bind,
    RoomIsolation.cacheGet, dateNow. rewrite Hc.
  now replace (_ <? _) with true by (symmetry; apply Z.ltb_lt; lia).
Qed.

Lemma getCachedRoomMembers_miss (roomId : string) (env : Env) (w : World) :
  (forall cached, roomMetadataCache w !! roomId = Some cached ->
                  cm_expiresAt cached <= env_now env) ->
  RoomIsolation.getCachedRoomMembers roomId env w =
    RoomIsolation.readThrough roomId env w.
Proof.
  intros Hc. unfold RoomIsolation.getCachedRoomMembers, bind,
    RoomIsolation.cacheGet, dateNow.
  destruct (roomMetadataCache w !! roomId) as [cached|]; [|reflexivity].
  specialize (Hc cached eq_refl).
  now replace (_ <? _) with false by (symmetry; apply Z.ltb_ge; lia).
Qed.

End CacheFacts.

Section CacheResults.
Context `{Redis.Json Redis.RoomMetadata}.

Lemma metadataAt_swept (env env' : Env) (w : World) (roomId : string) :
  env_now env <= env_now env' ->
  metadataAt env' (swept env w) roomId = metadataAt env' w roomId.
Proof. intros Hn. unfold metadataAt. now rewrite peek_swept. Qed.



(** The answer of a successful add-member. *)
Definition memberAdded : RoomApi.Response :=
  {| RoomApi.status := 200; RoomApi.body := RoomApi.SuccessBody |}.



End CacheResults.




(** The invalidation does not help against a membership read that is under
    way: a read that fetched the members before the add-member, and writes
    its cache entry after it, leaves the old member list in the cache, and
    the membership reads of the next 60 seconds are served from it, without
    the new member, although the store has it. *)
Lemma addMember_then_stale_cache :
  let stale := fun at_ : Z -> Env =>
    let w1 := (RoomApi.register "r1" "ABC123" "u1" (at_ 1000) emptyWorld).2 in
    let reader :=
      Async.bindT (Async.getCachedRoomMembersT "r1")
        (fun r => Async.Done (Return (inl r))) in
    let writer :=
      Async.bindT (Async.addMemberT "r1" "u2")
        (fun r => Async.Done (Return (inr r))) in
    let turns := [(0%nat, at_ 2000); (0%nat, at_ 2000);
                  (1%nat, at_ 2001); (1%nat, at_ 2002); (1%nat, at_ 2003);
                  (1%nat, at_ 2004); (0%nat, at_ 2005)] in
    let r := Async.schedule turns [reader; writer] w1 in
    r.1 = [Async.Done (Return (inl (Some ["u1"])));
           Async.Done (Return (inr memberAdded))] /\
    Redis.rm_members <$> metadataAt (at_ 2006) r.2 "r1" = Some ["u1"; "u2"] /\
    (RoomIsolation.getCachedRoomMembers "r1" (at_ 2006) r.2).1 =
      Return (Some ["u1"]) /\
    (RoomIsolation.getCachedRoomMembers "r1" (at_ 62004) r.2).1 =
      Return (Some ["u1"]) /\
    (RoomIsolation.getCachedRoomMembers "r1" (at_ 62005) r.2).1 =
      Return (Some ["u1"; "u2"]) in
  stale inProcessAt /\ stale redisAt.
Proof. repeat split; vm_compute; reflexivity. Qed.

(* ===================================================================== *)
(** ** The HTTP rate limiter *)
(* ===================================================================== *)

(** The increment throws when the Redis client in use rejects the command. *)
Lemma incrementCounter_faulty (key : string) (ttl : Z) (env : Env) (w : World) :
  env_ready env = true -> env_fault env = true ->
  Redis.incrementCounter key ttl env w = (Throw Redis.commandRejected, w).
Proof.
  intros Hr Hf. unfold Redis.incrementCounter. run_m. now rewrite Hr, Hf.
Qed.

(** The middleware changes the world as the increment does, and no more. *)
Lemma httpRateLimiter_fail_open_world (requestsPerMinute : option Z)
    (keyPrefix : option string) (clientIp : string) (env : Env) (w : World) :
  (RateLimit.createHttpRateLimiter requestsPerMinute keyPrefix clientIp env w).2 =
    (Redis.incrementCounter
       (RateLimit.httpKey (default "ratelimit:http" keyPrefix) clientIp
          (env_now env / 60000)) 60 env w).2.
Proof.
  unfold RateLimit.createHttpRateLimiter, RateLimit.getCurrentMinute,
    RateLimit.secondsToReset, bind, tryCatch, dateNow, ret.
  destruct (Redis.incrementCounter _ 60 env w) as [[count|e] w1];
    cbn [fst snd]; [|reflexivity].
  now destruct (Js.gtb _ _).
Qed.

(** C9: if the store increment of the HTTP rate-limit check throws, the
    middleware lets the request proceed (it calls next and sets no header)
    instead of returning an error; the 429 rejection is produced exactly when
    the increment succeeds and the resulting count exceeds the per-minute
    limit; the middleware itself never throws. *)
Theorem httpRateLimiter_fail_open (requestsPerMinute : option Z)
    (keyPrefix : option string) (clientIp : string) (env : Env) (w : World) :
  let limit := default 60 requestsPerMinute in
  let key := RateLimit.httpKey (default "ratelimit:http" keyPrefix) clientIp
               (env_now env / 60000) in
  let incr := Redis.incrementCounter key 60 env w in
  let out := RateLimit.createHttpRateLimiter requestsPerMinute keyPrefix
               clientIp env w in
  (forall e, incr.1 = Throw e ->
     out.1 = Return {| RateLimit.headers := []; RateLimit.decision := RateLimit.Next |}) /\
  (forall o, out.1 = Return o ->
     (exists s msg retry, RateLimit.decision o = RateLimit.Respond s msg retry) <->
     (exists count, incr.1 = Return count /\ Js.gtb count limit = true)) /\
  (forall o s msg retry,
     out.1 = Return o -> RateLimit.decision o = RateLimit.Respond s msg retry ->
     s = 429) /\
  (exists o, out.1 = Return o) /\
  out.2 = incr.2.
Proof.
  intros limit key incr out. subst out incr.
  unfold RateLimit.createHttpRateLimiter, RateLimit.getCurrentMinute,
    RateLimit.secondsToReset, bind, tryCatch, dateNow, ret.
  fold limit. fold key.
  destruct (Redis.incrementCounter key 60 env w) as [[count|e] w1];
    cbn [fst snd].
  - destruct (Js.gtb count limit) eqn:Hgt; cbn [fst snd];
      (split; [discriminate|]); (split; [|split; [|split; [eauto|reflexivity]]]).
    + intros o [= <-]. cbn. split; eauto.
    + intros o s msg retry [= <-]. cbn. now intros [= <- _ _].
    + intros o [= <-]. cbn. split.
      * intros (s & msg & retry & [=]).
      * intros (c & [= <-] & Hc). congruence.
    + intros o s msg retry [= <-]. cbn. discriminate.
  - split; [reflexivity|]. split; [|split; [|split; [eauto|reflexivity]]].
    + intros o [= <-]. cbn. split.
      * intros (s & msg & retry & [=]).
      * intros (c & [=] & _).
    + intros o s msg retry [= <-]. cbn. discriminate.
Qed.

(** The theorem when the Redis client rejects the INCR command: the increment
    throws and the request goes through. *)
Lemma httpRateLimiter_fail_open_witness :
  let faulty := {| env_now := 1000; env_ready := true; env_fault := true |} in
  (Redis.incrementCounter
     (RateLimit.httpKey "ratelimit:api" "10.0.0.1" (1000 / 60000)) 60
     faulty emptyWorld).1 = Throw Redis.commandRejected /\
  (RateLimit.createHttpRateLimiter (Some 60) (Some "ratelimit:api") "10.0.0.1"
     faulty emptyWorld).1 =
    Return {| RateLimit.headers := []; RateLimit.decision := RateLimit.Next |}.
Proof.
  intros faulty. split; [reflexivity|].
  apply (proj1 (httpRateLimiter_fail_open (Some 60) (Some "ratelimit:api")
                  "10.0.0.1" faulty emptyWorld) Redis.commandRejected).
  reflexivity.
Defined.

(* ===================================================================== *)
(** ** Admission of a connection *)
(* ===================================================================== *)

Section Admission.
Context `{Redis.Json Redis.RoomMetadata}.

(** The membership check passes: the document name has a room id, the
    membership read for it returns a member list, and the user is in it. *)
Definition memberPasses (userId documentName : string) (env : Env) (w : World)
    : Prop :=
  exists roomId members,
    Auth.extractRoomIdFromDocumentName documentName = Some roomId /\
    (RoomIsolation.getCachedRoomMembers roomId env w).1 = Return (Some members) /\
    In userId members.

Lemma validateRoomMembership_iff (userId documentName socketId : string)
    (env : Env) (w : World) :
  (RoomIsolation.validateRoomMembership userId documentName socketId env w).1
    = Return tt
  <-> memberPasses userId documentName env w.
Proof.
  unfold memberPasses, RoomIsolation.validateRoomMembership,
    RoomIsolation.validateRoomAccess.
  destruct (Auth.extractRoomIdFromDocumentName documentName) as [roomId|] eqn:Hd.
  2:{ cbn. split; [discriminate|]. intros (r & ms & [=] & _). }
  pose proof (proj1 (extractRoomId_iff _ _) Hd) as (Hne & _).
  apply truthy_true in Hne. rewrite Hne. cbn [negb].
  remember (RoomIsolation.getCachedRoomMembers roomId) as g eqn:Hg.
  assert (forall r ms', Some roomId = Some r ->
            (RoomIsolation.getCachedRoomMembers r env w).1 = Return (Some ms') ->
            (g env w).1 = Return (Some ms'))
    as Hsame by (intros r ms' [= <-]; now subst g).
  assert (forall ms', (g env w).1 = Return (Some ms') ->
            (RoomIsolation.getCachedRoomMembers roomId env w).1 = Return (Some ms'))
    as Hback by (now subst g).
  clear Hg. unfold bind.
  destruct (g env w) as [[[ms|]|e] w1]; cbn [fst] in Hsame, Hback |- *.
  - destruct (includes ms userId) eqn:Hin; cbn.
    + split; [|reflexivity]. intros _. exists roomId, ms.
      split; [reflexivity|]. split; [now apply Hback | now apply includes_In].
    + split; [discriminate|]. intros (r & ms' & Hr & Hread & Hi).
      specialize (Hsame r ms' Hr Hread). injection Hsame as <-.
      apply includes_In in Hi. congruence.
  - cbn. split; [discriminate|]. intros (r & ms' & Hr & Hread & _).
    specialize (Hsame r ms' Hr Hread). discriminate.
  - split; [discriminate|]. intros (r & ms' & Hr & Hread & _).
    specialize (Hsame r ms' Hr Hread). discriminate.
Qed.

End Admission.

(** C1 (as amended): [onConnect] completes without throwing exactly when the
    IP admission accepted the connection and, if the context carries an
    authenticated user, that user passed the membership check for the room
    derived from the document name (the membership read returned a member
    list that contains the user); a connection whose context carries no user
    is admitted after the IP admission alone, without a membership check. *)
Theorem onConnect_admission `{Redis.Json Redis.RoomMetadata} (cfg : Config)
    (documentName socketId : string) (user : option Auth.Identity)
    (clientIp : string) (env : Env) (w : World) :
  let admission := RateLimit.trackIpConnection cfg clientIp env w in
  (Index.onConnect cfg documentName socketId user clientIp env w).1 = Return tt
  <->
  admission.1 = Return true /\
  match user with
  | Some u => memberPasses (Auth.id_userId u) documentName env admission.2
  | None => True
  end.
Proof.
  intros admission. subst admission. unfold Index.onConnect, bind.
  destruct (RateLimit.trackIpConnection cfg clientIp env w) as [[[|]|e] w1];
    cbn [fst snd negb].
  - destruct user as [u|].
    + rewrite validateRoomMembership_iff. tauto.
    + cbn. tauto.
  - cbn. split; [discriminate | intros [[=] _]].
  - split; [discriminate | intros [[=] _]].
Qed.

(** The theorem on the host of a registered room: the IP admission accepts,
    the membership read returns [u1], and the connection is admitted. *)
Lemma onConnect_admission_witness :
  let w1 := (RoomApi.register "r1" "ABC123" "u1" (inProcessAt 1000) emptyWorld).2 in
  (Index.onConnect defaultConfig "room:r1:main" "socket-1"
     (Some {| Auth.id_userId := "u1"; Auth.id_role := "host" |}) "10.0.0.1"
     (inProcessAt 2000) w1).1 = Return tt.
Proof.
  intros w1.
  apply (proj2 (onConnect_admission defaultConfig "room:r1:main" "socket-1"
                  (Some {| Auth.id_userId := "u1"; Auth.id_role := "host" |})
                  "10.0.0.1" (inProcessAt 2000) w1)).
  split; [reflexivity|].
  exists "r1", ["u1"]. split; [reflexivity|].
  split; [vm_compute; reflexivity | now left].
Defined.

(** C1 (as stated) fails: a connection whose context carries no user, to a
    document of a room that does not exist, is accepted. *)
Lemma onConnect_without_user :
  metadataAt (inProcessAt 1000) emptyWorld "r1" = None /\
  (Index.onConnect defaultConfig "room:r1:main" "socket-1" None "10.0.0.1"
     (inProcessAt 1000) emptyWorld).1 = Return tt.
Proof. split; reflexivity. Qed.

(* ===================================================================== *)
(** ** The per-IP connection gauge *)
(* ===================================================================== *)

Lemma toString_nonempty (z : Z) : toString (Int z) <> "".
Proof.
  intros Heq. pose proof (parseInt_toString z) as Hp.
  rewrite Heq in Hp. discriminate.
Qed.

Lemma countOf_toString (z : Z) :
  RateLimit.countOf (Some (toString (Int z))) = Int z.
Proof.
  unfold RateLimit.countOf. cbn [truthy_opt default].
  rewrite (proj2 (truthy_true _) (toString_nonempty z)).
  apply parseInt_toString.
Qed.

Lemma trackIpConnection_ok (cfg : Config) (clientIp : string) (env : Env) (w : World) :
  healthy env ->
  RateLimit.trackIpConnection cfg clientIp env w =
    let key := RateLimit.connectionsKey clientIp in
    let c := RateLimit.countOf (peek env w key) in
    if Js.geb c (rateLimitConnectionsPerIp cfg)
    then (Return false, swept env w)
    else (Return true,
          set_ipConnectionCounts (insert clientIp (Js.add c 1))
            (stored env key (toString (Js.add c 1)) 3600 (swept env w))).
Proof.
  intros Hh. unfold RateLimit.trackIpConnection, bind.
  rewrite getValue_ok by assumption. cbv zeta.
  destruct (Js.geb _ _); [reflexivity|].
  now rewrite setValue_ok by (assumption || lia).
Qed.


Lemma releaseIpConnection_ok (clientIp : string) (env : Env) (w : World) :
  healthy env ->
  RateLimit.releaseIpConnection clientIp env w =
    let key := RateLimit.connectionsKey clientIp in
    let c := parseInt (default "" (peek env w key)) in
    if truthy_opt (peek env w key) && Js.gtb c 0
    then (Return tt,
          set_ipConnectionCounts (insert clientIp (Js.add c (-1)))
            (stored env key (toString (Js.add c (-1))) 3600 (swept env w)))
    else (Return tt, swept env w).
Proof.
  intros Hh. unfold RateLimit.releaseIpConnection, bind.
  rewrite getValue_ok by assumption. cbv zeta.
  destruct (truthy_opt _); [|reflexivity]. cbn [andb].
  destruct (Js.gtb _ _); [|reflexivity].
  now rewrite setValue_ok by (assumption || lia).
Qed.


Lemma getIpConnectionCount_ok (clientIp : string) (env : Env) (w : World) :
  healthy env ->
  RateLimit.getIpConnectionCount clientIp env w =
    (Return (RateLimit.countOf (peek env w (RateLimit.connectionsKey clientIp))),
     swept env w).
Proof.
  intros Hh. unfold RateLimit.getIpConnectionCount, bind.
  now rewrite getValue_ok by assumption.
Qed.












(** A call runs on backend [b], which rejects no command. *)
Definition onBackend (b : bool) (env : Env) : Prop :=
  env_ready env = b /\ env_fault env = false.


(** The calls of a scenario happen on one backend, with no rejected command,
    within one hour (the safety TTL of the gauge) from [t0]. *)
Definition inWindow (b : bool) (t0 : Z) (env : Env) : Prop :=
  env_ready env = b /\ env_fault env = false /\
  t0 <= env_now env <= t0 + 3600 * 1000.

(** Backend [b] holds the count [z] for the IP, with an expiry beyond the
    window; an absent key stands for 0. *)
Definition gaugeHolds (b : bool) (t0 : Z) (clientIp : string) (z : Z) (w : World)
    : Prop :=
  if b then
    match redis w !! RateLimit.connectionsKey clientIp with
    | None => z = 0
    | Some e => r_value e = toString (Int z) /\
                exists t, r_expireAt e = Some t /\ t0 + 3600 * 1000 <= t
    end
  else
    match memoryCache w !! RateLimit.connectionsKey clientIp with
    | None => z = 0
    | Some d => value d = toString (Int z) /\ t0 + 3600 * 1000 <= expiresAt d
    end.

Lemma inWindow_healthy (b : bool) (t0 : Z) (env : Env) :
  inWindow b t0 env -> healthy env.
Proof. intros (_ & Hf & _) _. exact Hf. Qed.


Lemma gaugeHolds_peek (b : bool) (t0 z : Z) (clientIp : string) (env : Env)
    (w : World) :
  inWindow b t0 env -> gaugeHolds b t0 clientIp z w ->
  (peek env w (RateLimit.connectionsKey clientIp) = None /\ z = 0) \/
  peek env w (RateLimit.connectionsKey clientIp) = Some (toString (Int z)).
Proof.
  intros (Hr & _ & Hn) Hg. unfold gaugeHolds, peek in *. rewrite Hr.
  destruct b.
  - unfold RedisServer.GET, RedisServer.lookup, RedisServer.live.
    destruct (redis w !! _) as [e|]; [|now left].
    destruct Hg as (Hv & t & Ht & Hle). rewrite Ht.
    replace (_ <=? _) with true by (symmetry; apply Z.leb_le; lia).
    right. cbn. now rewrite Hv.
  - destruct (memoryCache w !! _) as [d|]; [|now left].
    destruct Hg as (Hv & Hle).
    rewrite bool_decide_eq_false_2 by (unfold Redis.expired; lia).
    right. now rewrite Hv.
Qed.

Lemma gaugeHolds_count (b : bool) (t0 z : Z) (clientIp : string) (env : Env)
    (w : World) :
  inWindow b t0 env -> gaugeHolds b t0 clientIp z w ->
  RateLimit.countOf (peek env w (RateLimit.connectionsKey clientIp)) = Int z.
Proof.
  intros Hw Hg. destruct (gaugeHolds_peek b t0 z clientIp env w Hw Hg)
    as [(Hp & ->) | Hp]; rewrite Hp; [reflexivity | apply countOf_toString].
Qed.

Lemma gaugeHolds_swept (b : bool) (t0 z : Z) (clientIp : string) (env : Env)
    (w : World) :
  inWindow b t0 env -> gaugeHolds b t0 clientIp z w ->
  gaugeHolds b t0 clientIp z (swept env w).
Proof.
  intros (Hr & _ & Hn) Hg. unfold gaugeHolds, swept in *. rewrite Hr.
  destruct b; [exact Hg|]. cbn [memoryCache set_memoryCache].
  rewrite sweep_lookup. destruct (memoryCache w !! _) as [d|]; [|exact Hg].
  destruct Hg as (Hv & Hle).
  rewrite bool_decide_eq_false_2 by (unfold Redis.expired; lia). now split.
Qed.

Lemma gaugeHolds_stored (b : bool) (t0 z : Z) (clientIp : string) (env : Env)
    (w : World) (f : gmap string number -> gmap string number) :
  inWindow b t0 env ->
  gaugeHolds b t0 clientIp z
    (set_ipConnectionCounts f
       (stored env (RateLimit.connectionsKey clientIp) (toString (Int z)) 3600 w)).
Proof.
  intros (Hr & _ & Hn). unfold gaugeHolds, stored. rewrite Hr.
  destruct b; cbn [redis memoryCache set_redis set_memoryCache
                   set_ipConnectionCounts].
  - unfold RedisServer.SETEX. rewrite lookup_insert_eq. cbn.
    split; [reflexivity|]. eexists. split; [reflexivity | lia].
  - rewrite lookup_insert_eq. cbn. split; [reflexivity | lia].
Qed.

(** A connect inside the window: accepted below the cap, and then the count
    goes up by one; refused at the cap, and then the count stays. *)
Lemma track_in_window (cfg : Config) (b : bool) (t0 z : Z) (clientIp : string)
    (env : Env) (w : World) :
  inWindow b t0 env -> gaugeHolds b t0 clientIp z w ->
  let r := RateLimit.trackIpConnection cfg clientIp env w in
  let full := rateLimitConnectionsPerIp cfg <=? z in
  r.1 = Return (negb full) /\
  gaugeHolds b t0 clientIp (if full then z else z + 1) r.2.
Proof.
  intros Hw Hg r full. subst r full.
  rewrite trackIpConnection_ok by (eapply inWindow_healthy; eassumption).
  cbv zeta. rewrite (gaugeHolds_count b t0 z clientIp env w Hw Hg).
  cbn [Js.geb Js.add]. destruct (rateLimitConnectionsPerIp cfg <=? z); cbn [fst snd negb].
  - split; [reflexivity|]. now apply gaugeHolds_swept.
  - split; [reflexivity|]. now apply gaugeHolds_stored.
Qed.

(** A disconnect inside the window takes one off a positive count and leaves
    a zero count at zero. *)
Lemma release_in_window (b : bool) (t0 z : Z) (clientIp : string)
    (env : Env) (w : World) :
  inWindow b t0 env -> gaugeHolds b t0 clientIp z w ->
  let r := RateLimit.releaseIpConnection clientIp env w in
  r.1 = Return tt /\
  gaugeHolds b t0 clientIp (if 0 <? z then z - 1 else z) r.2.
Proof.
  intros Hw Hg r. subst r.
  rewrite releaseIpConnection_ok by (eapply inWindow_healthy; eassumption).
  cbv zeta.
  destruct (gaugeHolds_peek b t0 z clientIp env w Hw Hg) as [(Hp & ->) | Hp];
    rewrite Hp; cbn [truthy_opt andb from_option id fst snd].
  - split; [reflexivity|]. now apply gaugeHolds_swept.
  - rewrite (proj2 (truthy_true _) (toString_nonempty z)), parseInt_toString.
    cbn [andb Js.gtb Js.add]. destruct (0 <? z); cbn [fst snd].
    + split; [reflexivity|]. replace (z + -1) with (z - 1) by lia.
      now apply gaugeHolds_stored.
    + split; [reflexivity|]. now apply gaugeHolds_swept.
Qed.

Lemma count_in_window (b : bool) (t0 z : Z) (clientIp : string)
    (env : Env) (w : World) :
  inWindow b t0 env -> gaugeHolds b t0 clientIp z w ->
  (RateLimit.getIpConnectionCount clientIp env w).1 = Return (Int z).
Proof.
  intros Hw Hg.
  rewrite getIpConnectionCount_ok by (eapply inWindow_healthy; eassumption).
  cbn [fst]. f_equal. eapply gaugeHolds_count; eassumption.
Qed.

















(** The configuration with a cap of [k] connections per IP. *)
Definition capConfig (k : Z) : Config :=
  {| jwtSecret := jwtSecret defaultConfig;
     rateLimitMessagesPerMinute := rateLimitMessagesPerMinute defaultConfig;
     rateLimitConnectionsPerIp := k;
     rateLimitRoomMessagesPerMinute := rateLimitRoomMessagesPerMinute defaultConfig;
     rateLimitHttpRequestsPerMinute := rateLimitHttpRequestsPerMinute defaultConfig |}.



(* ===================================================================== *)
(** ** Counters under concurrent calls *)
(* ===================================================================== *)

(** The calls cut at their [await]s are the calls of the source: run with
    nothing in between, they do what the uncut functions do. *)
Lemma incrementCounterT_alone (key : string) (ttl : Z) (env : Env) (w : World) :
  Async.runAlone (Async.incrementCounterT key ttl) env w =
    Redis.incrementCounter key ttl env w.
Proof.
  unfold Async.incrementCounterT, Async.incrementFirst, Redis.incrementCounter.
  cbn [Async.runAlone]. run_m. destruct (env_ready env).
  - destruct (env_fault env); [reflexivity|].
    destruct (RedisServer.INCR _ _ _) as [[count db]|]; [|reflexivity].
    destruct (count =? 1); cbn [Async.runAlone]; [|reflexivity].
    destruct (env_fault env); reflexivity.
  - rewrite cleanupMemoryCache_eq.
    destruct (memoryCache _ !! key); reflexivity.
Qed.

(** The three windowed checks update their counter through
    [incrementCounter], on the key of the current minute, and do nothing else
    to the world. *)
Lemma windowed_checks_increment (cfg : Config) (env : Env) (w : World) :
  (forall socketId,
     (RateLimit.checkConnectionRateLimit cfg socketId env w).2 =
       (Redis.incrementCounter
          (RateLimit.connKey socketId (env_now env / 60000)) 60 env w).2) /\
  (forall roomId,
     (RateLimit.checkRoomRateLimit cfg roomId env w).2 =
       (Redis.incrementCounter
          (RateLimit.roomKey roomId (env_now env / 60000)) 60 env w).2) /\
  (forall requestsPerMinute keyPrefix clientIp,
     (RateLimit.createHttpRateLimiter requestsPerMinute keyPrefix clientIp env w).2 =
       (Redis.incrementCounter
          (RateLimit.httpKey (default "ratelimit:http" keyPrefix) clientIp
             (env_now env / 60000)) 60 env w).2).
Proof.
  split; [|split].
  - intros socketId. unfold RateLimit.checkConnectionRateLimit,
      RateLimit.getCurrentMinute, RateLimit.secondsToReset, bind, dateNow, ret.
    now destruct (Redis.incrementCounter _ _ env w) as [[count|e] w1].
  - intros roomId. unfold RateLimit.checkRoomRateLimit,
      RateLimit.getCurrentMinute, RateLimit.secondsToReset, bind, dateNow, ret.
    now destruct (Redis.incrementCounter _ _ env w) as [[count|e] w1].
  - intros requestsPerMinute keyPrefix clientIp.
    apply (httpRateLimiter_fail_open_world requestsPerMinute keyPrefix clientIp env w).
Qed.

(** The integers JavaScript numbers count exactly. *)
Definition MAX_SAFE_INTEGER : Z := 2 ^ 53 - 1.

Lemma integer_toString (z : Z) :
  - 2 ^ 63 <= z <= 2 ^ 63 - 1 ->
  RedisServer.integer (toString (Int z)) = Some z.
Proof.
  intros Hz. unfold RedisServer.integer. cbn [toString].
  destruct (to_int_canonical z) as [Hp Hn].
  rewrite NilZero.isi by assumption. cbv zeta. rewrite DecimalZ.of_to.
  cbn [toString]. rewrite String.eqb_refl.
  replace (- 2 ^ 63 <=? z) with true by (symmetry; apply Z.leb_le; lia).
  replace (z <=? 2 ^ 63 - 1) with true by (symmetry; apply Z.leb_le; lia).
  reflexivity.
Qed.

(** The turns of a run happen on one backend, with no rejected command,
    within the counter's time to live from [t0]. *)
Definition steady (b : bool) (t0 ttl : Z) (env : Env) : Prop :=
  env_ready env = b /\ env_fault env = false /\
  t0 <= env_now env <= t0 + ttl * 1000.

(** Backend [b] holds the count [d] under [key], with no expiry before the
    end of the window; an absent key stands for 0. *)
Definition counterHolds (b : bool) (t0 ttl : Z) (key : string) (d : Z) (w : World)
    : Prop :=
  if b then
    match redis w !! key with
    | None => d = 0
    | Some e => 1 <= d /\ r_value e = toString (Int d) /\
                forall t, r_expireAt e = Some t -> t0 + ttl * 1000 <= t
    end
  else
    match memoryCache w !! key with
    | None => d = 0
    | Some x => 1 <= d /\ value x = toString (Int d) /\
                t0 + ttl * 1000 <= expiresAt x
    end.

(** Where a call of [incrementCounter] stands: not started, waiting for the
    answer to EXPIRE (Redis only), or finished. *)
Inductive Phase : Type := Fresh | Expiring | Finished.

Definition expireStep (key : string) (ttl : Z) : M unit :=
  Redis.command (fun now db => Some (tt, RedisServer.EXPIRE now key ttl db)).

Definition inPhase (key : string) (ttl : Z) (p : Phase) (t : Async.task number)
    : Prop :=
  match p with
  | Fresh => t = Async.incrementCounterT key ttl
  | Expiring => exists c, t = Async.Await (expireStep key ttl)
                                (fun _ => Async.Done (Return (Int c)))
  | Finished => exists r, t = Async.Done r
  end.

(** The number of calls that have performed their increment. *)
Fixpoint startedCount (ps : list Phase) : Z :=
  match ps with
  | [] => 0
  | Fresh :: ps' => startedCount ps'
  | _ :: ps' => 1 + startedCount ps'
  end.

Definition started (p : Phase) : Z :=
  match p with Fresh => 0 | _ => 1 end.

Lemma startedCount_bounds (ps : list Phase) :
  0 <= startedCount ps <= Z.of_nat (length ps).
Proof.
  induction ps as [|[| |] ps IH]; cbn [startedCount length];
    rewrite ?Nat2Z.inj_succ; lia.
Qed.

Lemma startedCount_insert (ps : list Phase) (i : nat) (p q : Phase) :
  ps !! i = Some p ->
  startedCount (<[i := q]> ps) = startedCount ps - started p + started q.
Proof.
  revert i. induction ps as [|x ps IH]; intros [|i] Hi; try discriminate.
  - injection Hi as ->. cbn [insert list_insert].
    destruct p, q; cbn [startedCount started]; lia.
  - cbn [lookup list_lookup] in Hi. specialize (IH i Hi).
    change (<[S i := q]> (x :: ps)) with (x :: <[i := q]> ps).
    destruct x; cbn [startedCount]; lia.
Qed.

Lemma startedCount_replicate_Fresh (n : nat) : startedCount (replicate n Fresh) = 0.
Proof. induction n as [|n IH]; [reflexivity | exact IH]. Qed.

(** When every call is done, every call has performed its increment. *)
Lemma startedCount_all_done (key : string) (ttl : Z) (ps : list Phase)
    (pool : list (Async.task number)) :
  Forall2 (inPhase key ttl) ps pool ->
  Forall (fun t => Async.isDone t = true) pool ->
  startedCount ps = Z.of_nat (length pool).
Proof.
  induction 1 as [|p t ps pool Hp _ IH]; intros Hdone; [reflexivity|].
  apply Forall_cons in Hdone as (Hd & Hdone). specialize (IH Hdone).
  cbn [length]. rewrite Nat2Z.inj_succ.
  destruct p; cbn [inPhase startedCount] in *.
  - subst t. discriminate.
  - destruct Hp as (c & ->). discriminate.
  - lia.
Qed.

(** The first turn of a call performs the increment, atomically: the count in
    the store goes up by one. On Redis the call that created the key still
    has to set its expiry; every other call is finished. *)
Lemma step_fresh (b : bool) (t0 ttl : Z) (key : string) (d : Z) (env : Env)
    (w : World) :
  steady b t0 ttl env -> counterHolds b t0 ttl key d w ->
  0 <= d -> d + 1 <= MAX_SAFE_INTEGER ->
  exists q,
    inPhase key ttl q (Async.step (Async.incrementCounterT key ttl) env w).1 /\
    q <> Fresh /\ (b = false -> q = Finished) /\
    counterHolds b t0 ttl key (d + 1)
      (Async.step (Async.incrementCounterT key ttl) env w).2.
Proof.
  intros (Hr & Hf & Hn) Hc Hd0 Hmax. unfold MAX_SAFE_INTEGER in Hmax.
  unfold Async.step, Async.incrementCounterT, Async.incrementFirst,
    counterHolds in *. run_m. rewrite Hr. destruct b.
  - rewrite Hf. unfold RedisServer.INCR, RedisServer.lookup, RedisServer.live.
    destruct (redis w !! key) as [e|] eqn:He.
    + destruct Hc as (Hd1 & Hv & Hexp).
      assert ((match r_expireAt e with
               | Some t => env_now env <=? t
               | None => true
               end) = true) as ->.
      { destruct (r_expireAt e) as [t|]; [|reflexivity].
        specialize (Hexp t eq_refl). apply Z.leb_le. lia. }
      rewrite Hv, integer_toString by lia.
      replace (d + 1 <=? 2 ^ 63 - 1) with true by (symmetry; apply Z.leb_le; lia).
      replace (d + 1 =? 1) with false by (symmetry; apply Z.eqb_neq; lia).
      exists Finished. cbn [fst snd inPhase redis set_redis].
      split; [eauto|]. split; [discriminate|]. split; [reflexivity|].
      rewrite lookup_insert_eq. cbn [r_value r_expireAt]. auto with lia.
    + subst d. exists Expiring. cbn [fst snd inPhase redis set_redis].
      split; [eexists; reflexivity|]. split; [discriminate|].
      split; [discriminate|].
      rewrite lookup_insert_eq. cbn [r_value r_expireAt].
      split; [lia|]. split; [reflexivity | discriminate].
  - rewrite cleanupMemoryCache_eq. cbn [memoryCache set_memoryCache].
    rewrite sweep_lookup. destruct (memoryCache w !! key) as [x|] eqn:Hx.
    + destruct Hc as (Hd1 & Hv & Hexp).
      rewrite bool_decide_eq_false_2 by (unfold Redis.expired; lia).
      rewrite Hv, parseInt_toString. cbn [Js.add].
      exists Finished. cbn [fst snd inPhase memoryCache set_memoryCache].
      split; [eauto|]. split; [discriminate|]. split; [reflexivity|].
      rewrite lookup_insert_eq. cbn [value expiresAt]. auto with lia.
    + subst d. exists Finished. cbn [fst snd inPhase memoryCache set_memoryCache].
      split; [eauto|]. split; [discriminate|]. split; [reflexivity|].
      rewrite lookup_insert_eq. cbn [value expiresAt].
      split; [lia|]. split; [reflexivity | lia].
Qed.

(** The EXPIRE turn finishes the call and leaves the count alone. *)
Lemma step_expiring (t0 ttl : Z) (key : string) (d : Z) (env : Env) (w : World)
    (t : Async.task number) :
  steady true t0 ttl env -> counterHolds true t0 ttl key d w ->
  inPhase key ttl Expiring t ->
  inPhase key ttl Finished (Async.step t env w).1 /\
  counterHolds true t0 ttl key d (Async.step t env w).2.
Proof.
  intros (Hr & Hf & Hn) Hc (c & ->). unfold Async.step, expireStep, counterHolds in *.
  run_m. rewrite Hf. unfold RedisServer.EXPIRE, RedisServer.lookup.
  destruct (redis w !! key) as [e|] eqn:He.
  - destruct Hc as (Hd1 & Hv & Hexp).
    destruct (RedisServer.live (env_now env) e);
      cbn [fst snd inPhase redis set_redis]; (split; [eauto|]).
    + rewrite lookup_insert_eq. cbn [r_value r_expireAt].
      split; [assumption|]. split; [assumption|]. intros t [= <-]. lia.
    + rewrite He. auto.
  - cbn [fst snd inPhase redis set_redis]. split; [eauto|]. now rewrite He.
Qed.

(** Whatever the schedule, the store holds the number of calls that have
    performed their increment. *)
Lemma schedule_counts (b : bool) (t0 ttl : Z) (key : string)
    (turns : list (nat * Env)) :
  forall (ps : list Phase) (pool : list (Async.task number)) (w : World),
    Forall (fun turn => steady b t0 ttl turn.2) turns ->
    Forall2 (inPhase key ttl) ps pool ->
    (b = false -> Forall (fun p => p <> Expiring) ps) ->
    counterHolds b t0 ttl key (startedCount ps) w ->
    Z.of_nat (length ps) <= MAX_SAFE_INTEGER ->
    exists ps',
      Forall2 (inPhase key ttl) ps' (Async.schedule turns pool w).1 /\
      counterHolds b t0 ttl key (startedCount ps') (Async.schedule turns pool w).2.
Proof.
  induction turns as [|[i env] turns IH]; intros ps pool w Hturns Hall Hmem Hc Hlen.
  - exists ps. now split.
  - apply Forall_cons in Hturns as (Henv & Hturns). cbn [snd] in Henv.
    cbn [Async.schedule]. destruct (pool !! i) as [t|] eqn:Ht.
    2:{ now apply (IH ps). }
    destruct (Forall2_lookup_r _ _ _ _ _ Hall Ht) as (p & Hp & Hpt).
    pose proof (startedCount_bounds ps) as Hb.
    destruct p.
    + cbn [inPhase] in Hpt. subst t.
      pose proof (startedCount_insert ps i Fresh) as Hins.
      assert (startedCount ps + 1 <= MAX_SAFE_INTEGER) as Hroom.
      { pose proof (startedCount_bounds (<[i := Finished]> ps)) as Hb'.
        rewrite (Hins Finished Hp), length_insert in Hb'. cbn [started] in Hb'. lia. }
      destruct (step_fresh b t0 ttl key (startedCount ps) env w Henv Hc
                  ltac:(lia) Hroom) as (q & Hq & Hfresh & Hfin & Hc').
      destruct (Async.step (Async.incrementCounterT key ttl) env w) as [t' w'].
      cbn [fst snd] in Hq, Hc'.
      apply (IH (<[i := q]> ps)); try assumption.
      * now apply Forall2_insert.
      * intros Hb0. apply Forall_insert; [now apply Hmem|].
        rewrite (Hfin Hb0). discriminate.
      * rewrite (Hins q Hp). cbn [started].
        replace (startedCount ps - 0 + started q) with (startedCount ps + 1)
          by (destruct q; cbn [started]; congruence || lia).
        exact Hc'.
      * now rewrite length_insert.
    + destruct b.
      2:{ exfalso. apply (Forall_lookup_1 _ _ _ _ (Hmem eq_refl) Hp). reflexivity. }
      destruct (step_expiring t0 ttl key (startedCount ps) env w t Henv Hc Hpt)
        as (Hq & Hc').
      destruct (Async.step t env w) as [t' w']. cbn [fst snd] in Hq, Hc'.
      apply (IH (<[i := Finished]> ps)); try assumption.
      * now apply Forall2_insert.
      * discriminate.
      * rewrite (startedCount_insert ps i Expiring Finished Hp). cbn [started].
        now replace (startedCount ps - 1 + 1) with (startedCount ps) by lia.
      * now rewrite length_insert.
    + destruct Hpt as (r & ->). cbn [Async.step].
      apply (IH (<[i := Finished]> ps)); try assumption.
      * apply Forall2_insert; [assumption|]. cbn. eauto.
      * intros Hb0. apply Forall_insert; [now apply Hmem | discriminate].
      * rewrite (startedCount_insert ps i Finished Finished Hp). cbn [started].
        now replace (startedCount ps - 1 + 1) with (startedCount ps) by lia.
      * now rewrite length_insert.
Qed.

(** A read inside the window finds the count the store holds. *)
Lemma counterHolds_peek (b : bool) (t0 ttl : Z) (key : string) (d : Z)
    (env : Env) (w : World) :
  steady b t0 ttl env -> counterHolds b t0 ttl key d w ->
  peek env w key = if d =? 0 then None else Some (toString (Int d)).
Proof.
  intros (Hr & _ & Hn) Hc. unfold counterHolds, peek in *. rewrite Hr.
  destruct b.
  - unfold RedisServer.GET, RedisServer.lookup, RedisServer.live.
    destruct (redis w !! key) as [e|]; [|now subst d].
    destruct Hc as (Hd1 & Hv & Hexp).
    replace (d =? 0) with false by (symmetry; apply Z.eqb_neq; lia).
    destruct (r_expireAt e) as [t|].
    + specialize (Hexp t eq_refl).
      replace (env_now env <=? t) with true by (symmetry; apply Z.leb_le; lia).
      cbn. now rewrite Hv.
    + cbn. now rewrite Hv.
  - destruct (memoryCache w !! key) as [x|]; [|now subst d].
    destruct Hc as (Hd1 & Hv & Hexp).
    replace (d =? 0) with false by (symmetry; apply Z.eqb_neq; lia).
    rewrite bool_decide_eq_false_2 by (unfold Redis.expired; lia).
    now rewrite Hv.
Qed.

(** A schedule neither adds nor removes calls. *)
Lemma schedule_length {A} (turns : list (nat * Env)) (pool : list (Async.task A))
    (w : World) :
  length (Async.schedule turns pool w).1 = length pool.
Proof.
  revert pool w. induction turns as [|[i env] turns IH]; intros pool w;
    [reflexivity|].
  cbn [Async.schedule]. destruct (pool !! i) as [t|]; [|apply IH].
  destruct (Async.step t env w) as [t' w']. now rewrite IH, length_insert.
Qed.

(** C3 (as amended): the windowed rate counters (per-socket, per-room and
    per-HTTP-IP) are updated through [incrementCounter] and through nothing
    else, and N calls of that primitive on a fresh key, interleaved in any
    order at their [await]s, leave exactly N in the store once they have all
    finished, on the Redis path as on the in-process path (the calls run on
    one backend with no rejected command, inside the counter's time to live,
    and N is a safe integer). The per-IP connection gauge does not go through
    the primitive: [trackIpConnection] reads it with [getValue] and writes
    count + 1 back with [setValue], which also renews its one-hour TTL. *)
Theorem counters_atomic_increment (key : string) (ttl : Z) (b : bool) (t0 : Z)
    (n : nat) (turns : list (nat * Env)) (w : World) :
  redis w !! key = None -> memoryCache w !! key = None ->
  Z.of_nat n <= MAX_SAFE_INTEGER ->
  Forall (fun turn => steady b t0 ttl turn.2) turns ->
  let run := Async.schedule turns (replicate n (Async.incrementCounterT key ttl)) w in
  Forall (fun t => Async.isDone t = true) run.1 ->
  (forall env, steady b t0 ttl env ->
     peek env run.2 key =
       if Z.of_nat n =? 0 then None else Some (toString (Int (Z.of_nat n)))) /\
  (forall env w0,
     Async.runAlone (Async.incrementCounterT key ttl) env w0 =
       Redis.incrementCounter key ttl env w0) /\
  (forall cfg env w0 socketId roomId requestsPerMinute keyPrefix clientIp,
     (RateLimit.checkConnectionRateLimit cfg socketId env w0).2 =
       (Redis.incrementCounter
          (RateLimit.connKey socketId (env_now env / 60000)) 60 env w0).2 /\
     (RateLimit.checkRoomRateLimit cfg roomId env w0).2 =
       (Redis.incrementCounter
          (RateLimit.roomKey roomId (env_now env / 60000)) 60 env w0).2 /\
     (RateLimit.createHttpRateLimiter requestsPerMinute keyPrefix clientIp env w0).2 =
       (Redis.incrementCounter
          (RateLimit.httpKey (default "ratelimit:http" keyPrefix) clientIp
             (env_now env / 60000)) 60 env w0).2) /\
  (forall cfg clientIp env w0,
     healthy env ->
     RateLimit.trackIpConnection cfg clientIp env w0 =
       let gauge := RateLimit.connectionsKey clientIp in
       let c := RateLimit.countOf (peek env w0 gauge) in
       if Js.geb c (rateLimitConnectionsPerIp cfg)
       then (Return false, swept env w0)
       else (Return true,
             set_ipConnectionCounts (insert clientIp (Js.add c 1))
               (stored env gauge (toString (Js.add c 1)) 3600 (swept env w0)))).
Proof.
  intros Hredis Hmem Hn Hturns run Hdone. split; [|split; [|split]].
  - intros env Henv.
    assert (counterHolds b t0 ttl key (startedCount (replicate n Fresh)) w) as Hc.
    { rewrite startedCount_replicate_Fresh. unfold counterHolds.
      rewrite Hredis, Hmem. now destruct b. }
    destruct (schedule_counts b t0 ttl key turns (replicate n Fresh)
                (replicate n (Async.incrementCounterT key ttl)) w Hturns)
      as (ps' & Hall & Hc'); try assumption.
    + apply Forall2_replicate. reflexivity.
    + intros _. apply Forall_replicate. discriminate.
    + now rewrite length_replicate.
    + fold run in Hall, Hc'.
      rewrite (startedCount_all_done key ttl ps' run.1 Hall Hdone) in Hc'.
      assert (length run.1 = n) as Hlen
        by (subst run; now rewrite schedule_length, length_replicate).
      rewrite Hlen in Hc'.
      now apply (counterHolds_peek b t0 ttl key _ env run.2 Henv).
  - intros env w0. apply incrementCounterT_alone.
  - intros cfg env w0 socketId roomId requestsPerMinute keyPrefix clientIp.
    destruct (windowed_checks_increment cfg env w0) as (H1 & H2 & H3).
    split; [apply H1|]. split; [apply H2 | apply H3].
  - intros cfg clientIp env w0 Hh. now apply trackIpConnection_ok.
Qed.

(** The theorem on three calls against a ready Redis: the call that creates
    the key takes two turns (INCR, then EXPIRE), interleaved with the other
    two; the store ends with 3. *)
Lemma counters_atomic_increment_witness :
  let key := "ratelimit:conn:socket-1:0" in
  let run := Async.schedule
               [(0%nat, redisAt 1000); (1%nat, redisAt 1001);
                (2%nat, redisAt 1002); (0%nat, redisAt 1003)]
               (replicate 3 (Async.incrementCounterT key 60)) emptyWorld in
  peek (redisAt 2000) run.2 key = Some "3".
Proof.
  intros key run.
  apply (proj1 (counters_atomic_increment key 60 true 1000 3
                  [(0%nat, redisAt 1000); (1%nat, redisAt 1001);
                   (2%nat, redisAt 1002); (0%nat, redisAt 1003)] emptyWorld
                  eq_refl eq_refl ltac:(vm_compute; discriminate)
                  ltac:(repeat constructor; cbn; lia)
                  ltac:(vm_compute; repeat constructor))
           (redisAt 2000)).
  repeat split; cbn; lia.
Defined.

(** C3 (as stated) fails for the per-IP connection gauge: two concurrent
    [trackIpConnection] calls on a fresh gauge, interleaved at their
    [await]s, are both accepted and leave 1 in the store, not 2, on the
    in-process path as on the Redis path. *)
Lemma gauge_lost_update :
  let gauge := RateLimit.connectionsKey "10.0.0.1" in
  let turns env := [(0%nat, env); (1%nat, env); (0%nat, env); (1%nat, env);
                    (0%nat, env); (1%nat, env)] in
  let calls := replicate 2 (Async.trackIpConnectionT defaultConfig "10.0.0.1") in
  let inProcess := Async.schedule (turns (inProcessAt 1000)) calls emptyWorld in
  let onRedis := Async.schedule (turns (redisAt 1000)) calls emptyWorld in
  (inProcess.1 = [Async.Done (Return true); Async.Done (Return true)] /\
   peek (inProcessAt 1000) inProcess.2 gauge = Some "1") /\
  (onRedis.1 = [Async.Done (Return true); Async.Done (Return true)] /\
   peek (redisAt 1000) onRedis.2 gauge = Some "1").
Proof. repeat split; vm_compute; reflexivity. Qed.


(* ===================================================================== *)
(** * Further properties of the code *)
(* ===================================================================== *)

(* ===================================================================== *)
(** ** The store primitives (src/utils/redis.ts) *)
(* ===================================================================== *)

(** An entry is no longer read once its time to live is over. *)
Lemma peek_stored_expired (env env' : Env) (key v : string) (t : Z) (w : World) :
  env_ready env' = env_ready env ->
  0 < env_now env + t * 1000 ->
  env_now env + t * 1000 < env_now env' ->
  peek env' (stored env key v t w) key = None.
Proof.
  intros Hr Hpos Hnow. unfold peek, stored. rewrite Hr. destruct (env_ready env).
  - cbn [redis set_redis]. unfold RedisServer.GET, RedisServer.SETEX,
      RedisServer.lookup, RedisServer.live.
    rewrite lookup_insert_eq. cbn [r_expireAt r_value].
    now replace (_ <=? _) with false by (symmetry; apply Z.leb_gt; lia).
  - cbn [memoryCache set_memoryCache]. rewrite lookup_insert_eq.
    rewrite bool_decide_eq_true_2; [reflexivity|].
    unfold Redis.expired. cbn [expiresAt]. lia.
Qed.

(** The world after [key] was deleted. *)
Definition removed (env : Env) (key : string) (w : World) : World :=
  if env_ready env then set_redis (RedisServer.DEL key) w
  else set_memoryCache (delete key) w.

Lemma deleteKey_ok (key : string) (env : Env) (w : World) :
  healthy env ->
  Redis.deleteKey key env w = (Return tt, removed env key w).
Proof.
  intros Hh. unfold Redis.deleteKey, removed, healthy in *. run_m.
  destruct (env_ready env); [|reflexivity].
  rewrite Hh by reflexivity. now destruct w.
Qed.

Lemma peek_removed_same (env env' : Env) (key : string) (w : World) :
  env_ready env' = env_ready env ->
  peek env' (removed env key w) key = None.
Proof.
  intros Hr. unfold peek, removed. rewrite Hr. destruct (env_ready env).
  - cbn [redis set_redis]. unfold RedisServer.GET, RedisServer.DEL,
      RedisServer.lookup. now rewrite lookup_delete_eq.
  - cbn [memoryCache set_memoryCache]. now rewrite lookup_delete_eq.
Qed.

Lemma peek_removed_other (env env' : Env) (key key' : string) (w : World) :
  key <> key' ->
  peek env' (removed env key w) key' = peek env' w key'.
Proof.
  intros Hne. unfold peek, removed.
  destruct (env_ready env), (env_ready env');
    cbn [redis memoryCache set_redis set_memoryCache]; try reflexivity.
  - unfold RedisServer.GET, RedisServer.DEL, RedisServer.lookup.
    now rewrite lookup_delete_ne.
  - now rewrite lookup_delete_ne.
Qed.

(** X1: a text stored with a time to live of [t] seconds is what [getValue]
    returns, on the backend that stored it, at every instant up to and
    including [t * 1000] ms after the write, and [getValue] returns null at
    every later instant; the write changes what is read under no other key. *)
Theorem setValue_then_getValue (key v : string) (t : Z) (env env' : Env)
    (w : World) :
  healthy env -> healthy env' -> env_ready env' = env_ready env ->
  0 < t -> 0 <= env_now env ->
  let w' := (Redis.setValue key v (Some t) env w).2 in
  (Redis.setValue key v (Some t) env w).1 = Return tt /\
  (Redis.getValue key env' w').1 =
    Return (if env_now env' <=? env_now env + t * 1000 then Some v else None) /\
  (forall key', key' <> key ->
     (Redis.getValue key' env' w').1 = (Redis.getValue key' env' w).1).
Proof.
  intros Hh Hh' Hr Ht Hnow. cbv zeta.
  rewrite setValue_ok by assumption. cbn [fst snd].
  split; [reflexivity|]. split.
  - rewrite getValue_ok by assumption. cbn [fst]. f_equal.
    destruct (env_now env' <=? env_now env + t * 1000) eqn:Hle.
    + apply Z.leb_le in Hle. now apply peek_stored_same.
    + apply Z.leb_gt in Hle. apply peek_stored_expired; [assumption|nia|lia].
  - intros key' Hne. rewrite !getValue_ok by assumption. cbn [fst].
    f_equal. apply peek_stored_other. congruence.
Qed.

Lemma setValue_then_getValue_witness :
  let w' := (Redis.setValue "k" "v" (Some 60) (inProcessAt 1000) emptyWorld).2 in
  (Redis.getValue "k" (inProcessAt 61000) w').1 = Return (Some "v") /\
  (Redis.getValue "k" (inProcessAt 61001) w').1 = Return None.
Proof.
  pose proof (setValue_then_getValue "k" "v" 60 (inProcessAt 1000)
                (inProcessAt 61000) emptyWorld (healthy_inProcessAt 1000)
                (healthy_inProcessAt 61000) eq_refl ltac:(lia)
                ltac:(cbn; lia)) as H1.
  pose proof (setValue_then_getValue "k" "v" 60 (inProcessAt 1000)
                (inProcessAt 61001) emptyWorld (healthy_inProcessAt 1000)
                (healthy_inProcessAt 61001) eq_refl ltac:(lia)
                ltac:(cbn; lia)) as H2.
  split; [exact (proj1 (proj2 H1)) | exact (proj1 (proj2 H2))].
Defined.

(** X2: a text stored without a time to live, or with a time to live of 0
    (which [setValue] takes as none), never expires: [getValue] returns it on
    the backend that stored it at every instant, earlier or later. *)
Theorem setValue_without_ttl (key v : string) (ttl : option Z) (env env' : Env)
    (w : World) :
  healthy env -> healthy env' -> env_ready env' = env_ready env ->
  ttl = None \/ ttl = Some 0 ->
  (Redis.setValue key v ttl env w).1 = Return tt /\
  (Redis.getValue key env' (Redis.setValue key v ttl env w).2).1 =
    Return (Some v).
Proof.
  intros Hh Hh' Hr Httl.
  assert (Redis.ttlGiven ttl = None) as Hg by (destruct Httl; now subst).
  assert (Redis.setValue key v ttl env w =
          (Return tt,
           if env_ready env then set_redis (RedisServer.SET key v) w
           else set_memoryCache (insert key {| value := v; expiresAt := 0 |}) w))
    as Hset.
  { unfold Redis.setValue, healthy in *. run_m. rewrite Hg.
    destruct (env_ready env); [|reflexivity].
    rewrite Hh by reflexivity. now destruct w. }
  rewrite Hset. cbn [fst snd]. split; [reflexivity|].
  rewrite getValue_ok by assumption. cbn [fst]. f_equal.
  unfold peek. rewrite Hr. destruct (env_ready env).
  - cbn [redis set_redis]. unfold RedisServer.GET, RedisServer.SET,
      RedisServer.lookup. now rewrite lookup_insert_eq.
  - cbn [memoryCache set_memoryCache]. rewrite lookup_insert_eq.
    rewrite bool_decide_eq_false_2; [reflexivity|].
    unfold Redis.expired. cbn [expiresAt]. lia.
Qed.

Lemma setValue_without_ttl_witness :
  (Redis.getValue "k" (redisAt 900000000000)
     (Redis.setValue "k" "v" (Some 0) (redisAt 1000) emptyWorld).2).1 =
    Return (Some "v").
Proof.
  exact (proj2 (setValue_without_ttl "k" "v" (Some 0) (redisAt 1000)
                  (redisAt 900000000000) emptyWorld (healthy_redisAt 1000)
                  (healthy_redisAt 900000000000) eq_refl (or_intror eq_refl))).
Defined.

(** X3: [keyExists] answers true exactly when [getValue] on the same store at
    the same instant returns a text (an empty text included, which the room
    readers take for a missing key), and the two calls leave the same store
    behind. *)
Theorem keyExists_agrees_getValue (key : string) (env : Env) (w : World) :
  healthy env ->
  exists b : bool,
    (Redis.keyExists key env w).1 = Return b /\
    (b = true <-> exists v, (Redis.getValue key env w).1 = Return (Some v)) /\
    (Redis.keyExists key env w).2 = (Redis.getValue key env w).2.
Proof.
  intros Hh. rewrite keyExists_ok, getValue_ok by assumption. cbn [fst snd].
  exists (bool_decide (is_Some (peek env w key))).
  split; [reflexivity|]. split; [|reflexivity].
  rewrite bool_decide_eq_true. split.
  - intros [v Hv]. exists v. now rewrite Hv.
  - intros [v Hv]. exists v. congruence.
Qed.

Lemma keyExists_agrees_getValue_witness :
  exists b : bool,
    (Redis.keyExists "k" (inProcessAt 5) emptyWorld).1 = Return b /\
    (b = true <->
     exists v, (Redis.getValue "k" (inProcessAt 5) emptyWorld).1 = Return (Some v)) /\
    (Redis.keyExists "k" (inProcessAt 5) emptyWorld).2 =
      (Redis.getValue "k" (inProcessAt 5) emptyWorld).2.
Proof.
  exact (keyExists_agrees_getValue "k" (inProcessAt 5) emptyWorld
           (healthy_inProcessAt 5)).
Defined.

(** X4: after [deleteKey] the key is gone on the backend that deleted it:
    [getValue] returns null and [keyExists] false at every instant, and every
    other key reads as before. *)
Theorem deleteKey_then_read (key : string) (env env' : Env) (w : World) :
  healthy env -> healthy env' -> env_ready env' = env_ready env ->
  let w' := (Redis.deleteKey key env w).2 in
  (Redis.deleteKey key env w).1 = Return tt /\
  (Redis.getValue key env' w').1 = Return None /\
  (Redis.keyExists key env' w').1 = Return false /\
  (forall key', key' <> key ->
     (Redis.getValue key' env' w').1 = (Redis.getValue key' env' w).1).
Proof.
  intros Hh Hh' Hr. cbv zeta. rewrite deleteKey_ok by assumption.
  cbn [fst snd]. split; [reflexivity|].
  rewrite keyExists_ok, getValue_ok by assumption. cbn [fst].
  rewrite peek_removed_same by assumption.
  split; [reflexivity|]. split; [reflexivity|].
  intros key' Hne. rewrite !getValue_ok by assumption. cbn [fst].
  f_equal. apply peek_removed_other. congruence.
Qed.

Lemma deleteKey_then_read_witness :
  let w := (Redis.setValue "k" "v" None (redisAt 10) emptyWorld).2 in
  (Redis.getValue "k" (redisAt 20) (Redis.deleteKey "k" (redisAt 15) w).2).1 =
    Return None.
Proof.
  intros w.
  exact (proj1 (proj2 (deleteKey_then_read "k" (redisAt 15) (redisAt 20) w
                         (healthy_redisAt 15) (healthy_redisAt 20) eq_refl))).
Defined.

(* ===================================================================== *)
(** ** Windowed counters, call after call *)
(* ===================================================================== *)

(** Backend [b] holds the count [d] under [key], expiring at the instant [e]. *)
Definition counterAt (b : bool) (key : string) (d e : Z) (w : World) : Prop :=
  if b
  then redis w !! key =
         Some {| r_value := toString (Int d); r_expireAt := Some e |}
  else memoryCache w !! key =
         Some {| value := toString (Int d); expiresAt := e |}.

(** [incrementCounter] writes under its own key only. *)
Lemma incrementCounter_peek_other (key key' : string) (ttl : Z)
    (env env' : Env) (w : World) :
  key' <> key -> env_now env <= env_now env' ->
  peek env' (Redis.incrementCounter key ttl env w).2 key' = peek env' w key'.
Proof.
  intros Hne Hnow. unfold Redis.incrementCounter. run_m.
  destruct (env_ready env) eqn:Hr.
  - destruct (env_fault env) eqn:Hf; [reflexivity|].
    unfold RedisServer.INCR.
    assert (forall e db, peek env' (set_redis (fun _ => <[key := e]> db) w) key' =
                         peek env' (set_redis (fun _ => db) w) key') as Hins.
    { intros e db. unfold peek. destruct (env_ready env'); [|reflexivity].
      cbn [redis set_redis]. unfold RedisServer.GET, RedisServer.lookup.
      now rewrite lookup_insert_ne by congruence. }
    assert (forall e, peek env'
                (set_redis (fun _ => RedisServer.EXPIRE (env_now env) key ttl
                                       (<[key := e]> (redis w)))
                   (set_redis (fun _ => <[key := e]> (redis w)) w)) key' =
              peek env' w key') as Hexp.
    { intros e. unfold RedisServer.EXPIRE.
      destruct (RedisServer.lookup _ _ _).
      - unfold peek. destruct (env_ready env'); [|reflexivity].
        cbn [redis set_redis]. unfold RedisServer.GET, RedisServer.lookup.
        now rewrite !lookup_insert_ne by congruence.
      - unfold peek. destruct (env_ready env'); [|reflexivity].
        cbn [redis set_redis]. unfold RedisServer.GET, RedisServer.lookup.
        now rewrite lookup_insert_ne by congruence. }
    destruct (RedisServer.lookup (env_now env) (redis w) key) as [e|].
    + destruct (RedisServer.integer (r_value e)) as [z|]; [|reflexivity].
      destruct (z + 1 <=? 2 ^ 63 - 1); [|reflexivity].
      destruct (z + 1 =? 1); rewrite ?Hf; cbn [snd redis set_redis].
      * apply Hexp.
      * rewrite Hins. now rewrite set_redis_same.
    + cbn [Z.eqb Pos.eqb]. rewrite Hf. cbn [snd redis set_redis]. apply Hexp.
  - rewrite cleanupMemoryCache_eq. cbn [memoryCache set_memoryCache].
    assert (forall d, peek env'
              (set_memoryCache (insert key d)
                 (set_memoryCache (sweep (env_now env)) w)) key' =
              peek env' w key') as Hins.
    { intros d. rewrite <- (peek_swept env env' key' w Hnow).
      unfold peek, swept. rewrite Hr. destruct (env_ready env'); [reflexivity|].
      cbn [memoryCache set_memoryCache]. now rewrite lookup_insert_ne by congruence. }
    destruct (sweep (env_now env) (memoryCache w) !! key); cbn [snd]; apply Hins.
Qed.

(** The first call on a key that is not there returns 1 and gives the key
    its time to live. *)
Lemma incrementCounter_fresh (b : bool) (key : string) (ttl : Z) (env : Env)
    (w : World) :
  onBackend b env -> peek env w key = None ->
  (Redis.incrementCounter key ttl env w).1 = Return (Int 1) /\
  counterAt b key 1 (env_now env + ttl * 1000)
    (Redis.incrementCounter key ttl env w).2.
Proof.
  intros [Hr Hf] Hp. unfold Redis.incrementCounter, peek, counterAt in *.
  run_m. rewrite Hr in *. destruct b.
  - rewrite Hf. unfold RedisServer.INCR, RedisServer.GET in *.
    destruct (RedisServer.lookup (env_now env) (redis w) key) as [e|];
      [discriminate|].
    cbn [Z.eqb Pos.eqb]. rewrite Hf. cbn [redis set_redis].
    unfold RedisServer.EXPIRE, RedisServer.lookup.
    rewrite lookup_insert_eq. cbn [RedisServer.live r_expireAt r_value fst snd
      redis set_redis].
    split; [reflexivity|]. now rewrite lookup_insert_eq.
  - rewrite cleanupMemoryCache_eq. cbn [memoryCache set_memoryCache].
    rewrite sweep_lookup.
    assert (match memoryCache w !! key with
            | Some data =>
                if bool_decide (Redis.expired (env_now env) data)
                then None else Some data
            | None => None
            end = None) as ->.
    { destruct (memoryCache w !! key) as [d|]; [|reflexivity].
      destruct (bool_decide (Redis.expired (env_now env) d));
        [reflexivity | discriminate]. }
    cbn [fst snd memoryCache set_memoryCache]. split; [reflexivity|].
    now rewrite lookup_insert_eq.
Qed.

(** A call on a counter that is there and has not expired returns the next
    count and leaves the expiry instant where it was. *)
Lemma incrementCounter_live (b : bool) (key : string) (ttl d e : Z) (env : Env)
    (w : World) :
  onBackend b env -> counterAt b key d e w -> env_now env <= e ->
  1 <= d -> d + 1 <= MAX_SAFE_INTEGER ->
  (Redis.incrementCounter key ttl env w).1 = Return (Int (d + 1)) /\
  counterAt b key (d + 1) e (Redis.incrementCounter key ttl env w).2.
Proof.
  intros [Hr Hf] Hc Hnow Hd Hmax. unfold MAX_SAFE_INTEGER in Hmax.
  unfold Redis.incrementCounter, counterAt in *.
  run_m. rewrite Hr in *. destruct b.
  - rewrite Hf. unfold RedisServer.INCR, RedisServer.lookup. rewrite Hc.
    cbn [RedisServer.live r_expireAt r_value].
    replace (env_now env <=? e) with true by (symmetry; apply Z.leb_le; lia).
    cbn [r_value r_expireAt]. rewrite integer_toString by lia.
    replace (d + 1 <=? 2 ^ 63 - 1) with true by (symmetry; apply Z.leb_le; lia).
    replace (d + 1 =? 1) with false by (symmetry; apply Z.eqb_neq; lia).
    cbn [fst snd redis set_redis]. split; [reflexivity|].
    now rewrite lookup_insert_eq.
  - rewrite cleanupMemoryCache_eq. cbn [memoryCache set_memoryCache].
    rewrite sweep_lookup, Hc.
    rewrite bool_decide_eq_false_2
      by (unfold Redis.expired; cbn [expiresAt]; lia).
    cbn [value expiresAt]. rewrite parseInt_toString.
    cbn [Js.add fst snd memoryCache set_memoryCache]. split; [reflexivity|].
    now rewrite lookup_insert_eq.
Qed.

(** A counter whose time to live is over reads as absent. *)
Lemma counterAt_expired (b : bool) (key : string) (d e : Z) (env : Env)
    (w : World) :
  env_ready env = b -> counterAt b key d e w -> 0 < e -> e < env_now env ->
  peek env w key = None.
Proof.
  intros Hr Hc Hpos Hnow. unfold peek, counterAt in *. rewrite Hr. destruct b.
  - unfold RedisServer.GET, RedisServer.lookup. rewrite Hc.
    cbn [RedisServer.live r_expireAt].
    now replace (env_now env <=? e) with false by (symmetry; apply Z.leb_gt; lia).
  - rewrite Hc. rewrite bool_decide_eq_true_2; [reflexivity|].
    unfold Redis.expired. cbn [expiresAt]. lia.
Qed.

(** Calls of [incrementCounter] on one key, one after the other, each at its
    own instant. *)
Fixpoint incrementRun (key : string) (ttl : Z) (envs : list Env) (w : World)
    : list (outcome number) * World :=
  match envs with
  | [] => ([], w)
  | env :: envs' =>
      let r := Redis.incrementCounter key ttl env w in
      let rs := incrementRun key ttl envs' r.2 in
      (r.1 :: rs.1, rs.2)
  end.

(** The counts [d + 1, ..., d + n]. *)
Definition countsFrom (d : Z) (n : nat) : list (outcome number) :=
  map (fun i => Return (Int (d + Z.of_nat i))) (seq 1 n).

Lemma countsFrom_S (d : Z) (n : nat) :
  countsFrom d (S n) = Return (Int (d + 1)) :: countsFrom (d + 1) n.
Proof.
  unfold countsFrom. cbn [seq map]. f_equal.
  rewrite <- seq_shift, map_map. apply map_ext. intros i. do 2 f_equal. lia.
Qed.

Lemma incrementRun_live (b : bool) (key : string) (ttl e : Z) (envs : list Env) :
  forall (d : Z) (w : World),
    counterAt b key d e w -> 1 <= d ->
    d + Z.of_nat (length envs) <= MAX_SAFE_INTEGER ->
    Forall (fun env => onBackend b env /\ env_now env <= e) envs ->
    (incrementRun key ttl envs w).1 = countsFrom d (length envs) /\
    counterAt b key (d + Z.of_nat (length envs)) e (incrementRun key ttl envs w).2.
Proof.
  induction envs as [|env envs IH]; intros d w Hc Hd Hmax Hall.
  - cbn. rewrite Z.add_0_r. now split.
  - inversion Hall as [|? ? [Hb Hnow] Hall']; subst.
    cbn [length] in Hmax. rewrite Nat2Z.inj_succ in Hmax.
    destruct (incrementCounter_live b key ttl d e env w Hb Hc Hnow Hd
                ltac:(lia)) as [Hres Hc'].
    destruct (IH (d + 1) _ Hc' ltac:(lia) ltac:(lia) Hall') as [Hrs Hc''].
    cbn [incrementRun length fst snd]. rewrite countsFrom_S, Hres, Hrs.
    split; [reflexivity|].
    now replace (d + Z.of_nat (S (length envs)))
      with (d + 1 + Z.of_nat (length envs)) by lia.
Qed.

(** X5: [incrementCounter] counts in a fixed window. The call that creates
    the key returns 1 and starts the time to live; the calls made until that
    time to live is over return 2, 3, ... in turn and do not extend it,
    however late in the window they come; the first call after it is over
    returns 1 again. This holds on Redis and on the in-process path. *)
Theorem incrementCounter_fixed_window (b : bool) (key : string) (ttl : Z)
    (env0 : Env) (envs : list Env) (env1 : Env) (w : World) :
  0 < ttl -> 0 <= env_now env0 ->
  onBackend b env0 -> peek env0 w key = None ->
  Forall (fun env => onBackend b env /\
                     env_now env <= env_now env0 + ttl * 1000) envs ->
  1 + Z.of_nat (length envs) <= MAX_SAFE_INTEGER ->
  onBackend b env1 -> env_now env0 + ttl * 1000 < env_now env1 ->
  let run := incrementRun key ttl (env0 :: envs) w in
  run.1 = countsFrom 0 (S (length envs)) /\
  (Redis.incrementCounter key ttl env1 run.2).1 = Return (Int 1).
Proof.
  intros Httl Hnow0 Hb0 Hfresh Hall Hmax Hb1 Hlate. cbv zeta.
  destruct (incrementCounter_fresh b key ttl env0 w Hb0 Hfresh) as [Hres Hc].
  destruct (incrementRun_live b key ttl (env_now env0 + ttl * 1000) envs 1 _
              Hc ltac:(lia) Hmax Hall) as [Hrs Hc'].
  cbn [incrementRun fst snd]. rewrite countsFrom_S, Hres, Hrs.
  split; [reflexivity|].
  apply (incrementCounter_fresh b key ttl env1 _ Hb1).
  apply (counterAt_expired b key _ _ env1 _ (proj1 Hb1) Hc'); nia.
Qed.

(** Three calls in a 60-second window opened at 1 000 ms, the last of them
    59 seconds in, then a call one millisecond after the window closed. *)
Lemma incrementCounter_fixed_window_witness :
  let run := incrementRun "k" 60
               [inProcessAt 1000; inProcessAt 2000; inProcessAt 60000]
               emptyWorld in
  run.1 = [Return (Int 1); Return (Int 2); Return (Int 3)] /\
  (Redis.incrementCounter "k" 60 (inProcessAt 61001) run.2).1 = Return (Int 1).
Proof.
  apply (incrementCounter_fixed_window false "k" 60 (inProcessAt 1000)
           [inProcessAt 2000; inProcessAt 60000] (inProcessAt 61001) emptyWorld).
  - lia.
  - cbn; lia.
  - split; reflexivity.
  - reflexivity.
  - repeat constructor; cbn; lia.
  - vm_compute; discriminate.
  - split; reflexivity.
  - cbn; lia.
Defined.

(* ===================================================================== *)
(** ** The limiters, minute by minute (src/middleware/rate-limit.ts) *)
(* ===================================================================== *)

(** Calls of one function, one after the other, each at its own instant. *)
Fixpoint callEach {A} (call : M A) (envs : list Env) (w : World)
    : list (outcome A) * World :=
  match envs with
  | [] => ([], w)
  | env :: envs' =>
      let r := call env w in
      let rs := callEach call envs' r.2 in
      (r.1 :: rs.1, rs.2)
  end.

(** A call made in the minute [m] (counted from the epoch) on backend [b]. *)
Definition inMinute (b : bool) (m : Z) (env : Env) : Prop :=
  onBackend b env /\ 0 <= env_now env /\ env_now env / 60000 = m.

Lemma inMinute_bounds (b : bool) (m : Z) (env : Env) :
  inMinute b m env -> 60000 * m <= env_now env < 60000 * m + 60000.
Proof.
  intros (_ & _ & Hm).
  pose proof (Z.div_mod (env_now env) 60000 ltac:(lia)) as Hdm.
  pose proof (Z.mod_pos_bound (env_now env) 60000 ltac:(lia)) as Hb.
  lia.
Qed.

(** [resetIn] lies between 1 and 60 seconds. *)
Lemma secondsToReset_bounds (now : Z) :
  0 <= now -> 1 <= 60 - Z.rem (now / 1000) 60 <= 60.
Proof.
  intros Hnow.
  assert (0 <= now / 1000) as Hq by (apply Z.div_pos; lia).
  pose proof (Z.rem_bound_pos (now / 1000) 60 Hq ltac:(lia)). lia.
Qed.

Section Windowed.
Context {A : Type} (call : M A) (answer : Env -> number -> A)
  (key : string) (m : Z).

(** [call] increments the counter [key] once when made in minute [m], and
    answers from the count alone. *)
Hypothesis call_counts :
  forall env w c,
    env_now env / 60000 = m ->
    (Redis.incrementCounter key 60 env w).1 = Return c ->
    call env w = (Return (answer env c), (Redis.incrementCounter key 60 env w).2).

Lemma callEach_live (b : bool) (e : Z) (envs : list Env) :
  forall (d : Z) (w : World),
    counterAt b key d e w -> 1 <= d ->
    d + Z.of_nat (length envs) <= MAX_SAFE_INTEGER ->
    Forall (fun env => inMinute b m env /\ env_now env <= e) envs ->
    forall (i : nat) (env : Env),
      envs !! i = Some env ->
      (callEach call envs w).1 !! i =
        Some (Return (answer env (Int (d + Z.of_nat i + 1)))).
Proof.
  induction envs as [|env0 envs IH]; intros d w Hc Hd Hmax Hall i env Hi.
  - discriminate.
  - inversion Hall as [|? ? [Hin Hnow] Hall']; subst.
    cbn [length] in Hmax. rewrite Nat2Z.inj_succ in Hmax.
    destruct (incrementCounter_live b key 60 d e env0 w (proj1 Hin) Hc Hnow Hd
                ltac:(lia)) as [Hres Hc'].
    cbn [callEach fst snd].
    rewrite (call_counts env0 w _ (proj2 (proj2 Hin)) Hres). cbn [fst snd].
    destruct i as [|i].
    + injection Hi as <-. cbn. now rewrite Z.add_0_r.
    + cbn in Hi. cbn [lookup list_lookup].
      change ((callEach call envs (Redis.incrementCounter key 60 env0 w).2).1
                !! i = Some (Return (answer env (Int (d + Z.of_nat (S i) + 1))))).
      rewrite (IH (d + 1) _ Hc' ltac:(lia) ltac:(lia) Hall' i env Hi).
      do 4 f_equal. lia.
Qed.

(** In one minute, on a counter that starts absent, the call number [i + 1]
    answers from the count [i + 1]. *)
Lemma callEach_minute (b : bool) (env0 : Env) (envs : list Env) (w : World) :
  Forall (inMinute b m) (env0 :: envs) ->
  peek env0 w key = None ->
  1 + Z.of_nat (length envs) <= MAX_SAFE_INTEGER ->
  forall (i : nat) (env : Env),
    (env0 :: envs) !! i = Some env ->
    (callEach call (env0 :: envs) w).1 !! i =
      Some (Return (answer env (Int (Z.of_nat i + 1)))).
Proof.
  intros Hall Hfresh Hmax i env Hi.
  inversion Hall as [|? ? Hin0 Hall']; subst.
  destruct (incrementCounter_fresh b key 60 env0 w (proj1 Hin0) Hfresh)
    as [Hres Hc].
  cbn [callEach fst snd].
  rewrite (call_counts env0 w _ (proj2 (proj2 Hin0)) Hres). cbn [fst snd].
  destruct i as [|i].
  - injection Hi as <-. reflexivity.
  - cbn in Hi. cbn [lookup list_lookup].
    change ((callEach call envs (Redis.incrementCounter key 60 env0 w).2).1
              !! i = Some (Return (answer env (Int (Z.of_nat (S i) + 1))))).
    rewrite (callEach_live b (env_now env0 + 60 * 1000) envs 1 _ Hc ltac:(lia)
               Hmax) with (i := i) (env := env); [do 4 f_equal; lia | | exact Hi].
    pose proof (inMinute_bounds b m env0 Hin0) as Hb0.
    apply Forall_forall. intros x Hx.
    pose proof (proj1 (Forall_forall _ _) Hall' x Hx) as Hinx.
    pose proof (inMinute_bounds b m x Hinx). split; [assumption | lia].
Qed.

End Windowed.

(** The verdict [checkConnectionRateLimit] and [checkRoomRateLimit] build
    from the count [n], the limit and the instant of the call. *)
Definition verdict (limit : Z) (env : Env) (n : number)
    : RateLimit.RateLimitResult :=
  {| RateLimit.allowed := Js.leb n limit;
     RateLimit.remaining := Js.remaining limit n;
     RateLimit.resetIn := 60 - Z.rem (env_now env / 1000) 60 |}.

Lemma checkConnectionRateLimit_counts (cfg : Config) (socketId : string) (m : Z)
    (env : Env) (w : World) (c : number) :
  env_now env / 60000 = m ->
  (Redis.incrementCounter (RateLimit.connKey socketId m) 60 env w).1 = Return c ->
  RateLimit.checkConnectionRateLimit cfg socketId env w =
    (Return (verdict (rateLimitMessagesPerMinute cfg) env c),
     (Redis.incrementCounter (RateLimit.connKey socketId m) 60 env w).2).
Proof.
  intros Hm Hc. unfold RateLimit.checkConnectionRateLimit,
    RateLimit.getCurrentMinute, RateLimit.secondsToReset. run_m. rewrite Hm.
  destruct (Redis.incrementCounter _ _ env w) as [[c'|e] w'];
    cbn [fst snd] in *; [|discriminate]. now injection Hc as ->.
Qed.

Lemma checkRoomRateLimit_counts (cfg : Config) (roomId : string) (m : Z)
    (env : Env) (w : World) (c : number) :
  env_now env / 60000 = m ->
  (Redis.incrementCounter (RateLimit.roomKey roomId m) 60 env w).1 = Return c ->
  RateLimit.checkRoomRateLimit cfg roomId env w =
    (Return (verdict (rateLimitRoomMessagesPerMinute cfg) env c),
     (Redis.incrementCounter (RateLimit.roomKey roomId m) 60 env w).2).
Proof.
  intros Hm Hc. unfold RateLimit.checkRoomRateLimit,
    RateLimit.getCurrentMinute, RateLimit.secondsToReset. run_m. rewrite Hm.
  destruct (Redis.incrementCounter _ _ env w) as [[c'|e] w'];
    cbn [fst snd] in *; [|discriminate]. now injection Hc as ->.
Qed.

(** X6: within one minute (counted from the epoch), on a counter that starts
    absent, the call number n of [checkConnectionRateLimit] for a socket is
    allowed exactly when n is at most [rateLimitMessagesPerMinute], reports
    [remaining = max(0, limit - n)] and a [resetIn] between 1 and 60 seconds;
    [checkRoomRateLimit] does the same for a room against
    [rateLimitRoomMessagesPerMinute]. Calls over the limit are still counted. *)
Theorem message_limits_per_minute (cfg : Config) (b : bool) (m : Z)
    (socketId roomId : string) (env0 : Env) (envs : list Env) (w : World) :
  Forall (inMinute b m) (env0 :: envs) ->
  1 + Z.of_nat (length envs) <= MAX_SAFE_INTEGER ->
  forall (i : nat) (env : Env),
    (env0 :: envs) !! i = Some env ->
    let n := Z.of_nat i + 1 in
    let reset := 60 - Z.rem (env_now env / 1000) 60 in
    1 <= reset <= 60 /\
    (peek env0 w (RateLimit.connKey socketId m) = None ->
     (callEach (RateLimit.checkConnectionRateLimit cfg socketId)
        (env0 :: envs) w).1 !! i =
       Some (Return
         {| RateLimit.allowed := n <=? rateLimitMessagesPerMinute cfg;
            RateLimit.remaining :=
              Int (Z.max 0 (rateLimitMessagesPerMinute cfg - n));
            RateLimit.resetIn := reset |})) /\
    (peek env0 w (RateLimit.roomKey roomId m) = None ->
     (callEach (RateLimit.checkRoomRateLimit cfg roomId)
        (env0 :: envs) w).1 !! i =
       Some (Return
         {| RateLimit.allowed := n <=? rateLimitRoomMessagesPerMinute cfg;
            RateLimit.remaining :=
              Int (Z.max 0 (rateLimitRoomMessagesPerMinute cfg - n));
            RateLimit.resetIn := reset |})).
Proof.
  intros Hall Hmax i env Hi. cbv zeta. split; [|split].
  - apply secondsToReset_bounds.
    assert (inMinute b m env) as (_ & Hnow & _); [|assumption].
    exact (Forall_lookup_1 _ _ _ _ Hall Hi).
  - intros Hfresh.
    apply (callEach_minute (RateLimit.checkConnectionRateLimit cfg socketId)
             (verdict (rateLimitMessagesPerMinute cfg))
             (RateLimit.connKey socketId m) m
             (checkConnectionRateLimit_counts cfg socketId m)
             b env0 envs w Hall Hfresh Hmax i env Hi).
  - intros Hfresh.
    apply (callEach_minute (RateLimit.checkRoomRateLimit cfg roomId)
             (verdict (rateLimitRoomMessagesPerMinute cfg))
             (RateLimit.roomKey roomId m) m
             (checkRoomRateLimit_counts cfg roomId m)
             b env0 envs w Hall Hfresh Hmax i env Hi).
Qed.

(** With a limit of 2, the third message of a socket in the minute 0 is
    refused. *)
Lemma message_limits_per_minute_witness :
  let cfg := {| jwtSecret := "s"; rateLimitMessagesPerMinute := 2;
                rateLimitConnectionsPerIp := 100;
                rateLimitRoomMessagesPerMinute := 1000;
                rateLimitHttpRequestsPerMinute := 60 |} in
  (callEach (RateLimit.checkConnectionRateLimit cfg "socket-1")
     [redisAt 1000; redisAt 1500; redisAt 59000] emptyWorld).1 !! 2%nat =
    Some (Return {| RateLimit.allowed := false;
                    RateLimit.remaining := Int 0;
                    RateLimit.resetIn := 1 |}).
Proof.
  intros cfg.
  apply (proj1 (proj2 (message_limits_per_minute cfg true 0 "socket-1" "room-1"
                  (redisAt 1000) [redisAt 1500; redisAt 59000] emptyWorld
                  ltac:(repeat constructor; cbn; lia)
                  ltac:(vm_compute; discriminate)
                  2%nat (redisAt 59000) eq_refl))).
  reflexivity.
Defined.

(** What the HTTP limiter does with a request once the count is [n]. *)
Definition httpAnswer (limit : Z) (env : Env) (n : number)
    : RateLimit.HttpOutcome :=
  let reset := 60 - Z.rem (env_now env / 1000) 60 in
  {| RateLimit.headers :=
       [("X-RateLimit-Limit", toString (Int limit));
        ("X-RateLimit-Remaining", toString (Js.remaining limit n));
        ("X-RateLimit-Reset", toString (Int reset))];
     RateLimit.decision :=
       if Js.gtb n limit
       then RateLimit.Respond 429 "Too Many Requests" reset
       else RateLimit.Next |}.

Lemma createHttpRateLimiter_counts (requestsPerMinute : option Z)
    (keyPrefix : option string) (clientIp : string) (m : Z)
    (env : Env) (w : World) (c : number) :
  let key := RateLimit.httpKey (default "ratelimit:http" keyPrefix) clientIp m in
  env_now env / 60000 = m ->
  (Redis.incrementCounter key 60 env w).1 = Return c ->
  RateLimit.createHttpRateLimiter requestsPerMinute keyPrefix clientIp env w =
    (Return (httpAnswer (default 60 requestsPerMinute) env c),
     (Redis.incrementCounter key 60 env w).2).
Proof.
  intros key Hm Hc. subst key. unfold RateLimit.createHttpRateLimiter,
    RateLimit.getCurrentMinute, RateLimit.secondsToReset, httpAnswer.
  run_m. rewrite Hm.
  destruct (Redis.incrementCounter _ _ env w) as [[c'|e] w'];
    cbn [fst snd] in *; [|discriminate]. injection Hc as ->.
  destruct (Js.gtb c (default 60 requestsPerMinute)); reflexivity.
Qed.

(** X7: within one minute, on a counter that starts absent, the HTTP limiter
    lets the first [requestsPerMinute] requests of a client IP through and
    answers every later one with 429 "Too Many Requests" and the seconds left
    in the minute as [retryAfter]; the request number n carries the headers
    X-RateLimit-Limit, X-RateLimit-Remaining = max(0, limit - n) and
    X-RateLimit-Reset. The limit is 60 when the options give none. *)
Theorem http_limit_per_minute (requestsPerMinute : option Z)
    (keyPrefix : option string) (clientIp : string) (b : bool) (m : Z)
    (env0 : Env) (envs : list Env) (w : World) :
  let limit := default 60 requestsPerMinute in
  Forall (inMinute b m) (env0 :: envs) ->
  1 + Z.of_nat (length envs) <= MAX_SAFE_INTEGER ->
  peek env0 w
    (RateLimit.httpKey (default "ratelimit:http" keyPrefix) clientIp m) = None ->
  forall (i : nat) (env : Env),
    (env0 :: envs) !! i = Some env ->
    let n := Z.of_nat i + 1 in
    let reset := 60 - Z.rem (env_now env / 1000) 60 in
    (callEach (RateLimit.createHttpRateLimiter requestsPerMinute keyPrefix clientIp)
       (env0 :: envs) w).1 !! i =
      Some (Return
        {| RateLimit.headers :=
             [("X-RateLimit-Limit", toString (Int limit));
              ("X-RateLimit-Remaining", toString (Int (Z.max 0 (limit - n))));
              ("X-RateLimit-Reset", toString (Int reset))];
           RateLimit.decision :=
             if limit <? n
             then RateLimit.Respond 429 "Too Many Requests" reset
             else RateLimit.Next |}).
Proof.
  intros limit Hall Hmax Hfresh i env Hi. cbv zeta.
  apply (callEach_minute
           (RateLimit.createHttpRateLimiter requestsPerMinute keyPrefix clientIp)
           (httpAnswer limit)
           (RateLimit.httpKey (default "ratelimit:http" keyPrefix) clientIp m) m
           (createHttpRateLimiter_counts requestsPerMinute keyPrefix clientIp m)
           b env0 envs w Hall Hfresh Hmax i env Hi).
Qed.

(** With a limit of 1 the second request of the minute is answered 429. *)
Lemma http_limit_per_minute_witness :
  (callEach (RateLimit.createHttpRateLimiter (Some 1) None "10.0.0.1")
     [inProcessAt 60000; inProcessAt 90000] emptyWorld).1 !! 1%nat =
    Some (Return
      {| RateLimit.headers :=
           [("X-RateLimit-Limit", "1"); ("X-RateLimit-Remaining", "0");
            ("X-RateLimit-Reset", "30")];
         RateLimit.decision := RateLimit.Respond 429 "Too Many Requests" 30 |}).
Proof.
  exact (http_limit_per_minute (Some 1) None "10.0.0.1" false 1
           (inProcessAt 60000) [inProcessAt 90000] emptyWorld
           ltac:(repeat constructor; cbn; lia)
           ltac:(vm_compute; discriminate) eq_refl
           1%nat (inProcessAt 90000) eq_refl).
Defined.

Lemma toString_inj (a b : Z) : toString (Int a) = toString (Int b) -> a = b.
Proof.
  intros Heq. apply (f_equal parseInt) in Heq.
  rewrite !parseInt_toString in Heq. congruence.
Qed.

(** The counters of two minutes have different keys. *)
Lemma connKey_minute_inj (socketId : string) (m m' : Z) :
  RateLimit.connKey socketId m = RateLimit.connKey socketId m' -> m = m'.
Proof.
  unfold RateLimit.connKey. intros Heq.
  do 3 apply String.app_inj in Heq. now apply toString_inj.
Qed.

Lemma minute_bounds (m : Z) (env : Env) :
  env_now env / 60000 = m -> 60000 * m <= env_now env < 60000 * m + 60000.
Proof.
  intros Hm.
  pose proof (Z.div_mod (env_now env) 60000 ltac:(lia)) as Hdm.
  pose proof (Z.mod_pos_bound (env_now env) 60000 ltac:(lia)) as Hb.
  lia.
Qed.

(** The checks of one minute leave every other key as a later read finds it. *)
Lemma checkConnectionRateLimit_peek_other (cfg : Config) (socketId : string)
    (m : Z) (key' : string) (env' : Env) (envs : list Env) :
  key' <> RateLimit.connKey socketId m ->
  Forall (fun env => env_now env / 60000 = m /\ env_now env <= env_now env') envs ->
  forall w,
    peek env' (callEach (RateLimit.checkConnectionRateLimit cfg socketId) envs w).2
      key' = peek env' w key'.
Proof.
  intros Hne Hall. induction Hall as [|env envs [Hm Hnow] _ IH]; intros w.
  - reflexivity.
  - cbn [callEach snd]. rewrite IH.
    rewrite (proj1 (windowed_checks_increment cfg env w) socketId), Hm.
    now apply incrementCounter_peek_other.
Qed.

(** X8: the per-socket counter starts again with every minute of the clock:
    whatever number of messages a socket sent in an earlier minute (over the
    limit or not, on any backend), its message number n of a later minute is
    allowed exactly when n is at most [rateLimitMessagesPerMinute]. A socket
    may so send the limit at the end of one minute and the limit again at the
    start of the next. *)
Theorem message_limit_restarts_each_minute (cfg : Config) (b : bool) (m m' : Z)
    (socketId : string) (earlier : list Env) (env0 : Env) (envs : list Env)
    (w : World) :
  m < m' ->
  Forall (fun env => env_now env / 60000 = m) earlier ->
  Forall (inMinute b m') (env0 :: envs) ->
  peek env0 w (RateLimit.connKey socketId m') = None ->
  1 + Z.of_nat (length envs) <= MAX_SAFE_INTEGER ->
  let check := RateLimit.checkConnectionRateLimit cfg socketId in
  forall (i : nat) (env : Env),
    (env0 :: envs) !! i = Some env ->
    (callEach check (env0 :: envs) (callEach check earlier w).2).1 !! i =
      Some (Return
        {| RateLimit.allowed := Z.of_nat i + 1 <=? rateLimitMessagesPerMinute cfg;
           RateLimit.remaining :=
             Int (Z.max 0 (rateLimitMessagesPerMinute cfg - (Z.of_nat i + 1)));
           RateLimit.resetIn := 60 - Z.rem (env_now env / 1000) 60 |}).
Proof.
  intros Hlt Hearlier Hall Hfresh Hmax check i env Hi. subst check.
  assert (peek env0
            (callEach (RateLimit.checkConnectionRateLimit cfg socketId) earlier w).2
            (RateLimit.connKey socketId m') = None) as Hfresh'.
  { rewrite (checkConnectionRateLimit_peek_other cfg socketId m); [assumption| |].
    - intros Heq. apply connKey_minute_inj in Heq. lia.
    - inversion Hall as [|? ? Hin0 _]; subst.
      pose proof (inMinute_bounds b m' env0 Hin0) as Hb0.
      eapply Forall_impl; [exact Hearlier|]. intros x Hx. cbv beta in Hx.
      pose proof (minute_bounds m x Hx). split; [assumption | nia]. }
  apply (callEach_minute (RateLimit.checkConnectionRateLimit cfg socketId)
           (verdict (rateLimitMessagesPerMinute cfg))
           (RateLimit.connKey socketId m') m'
           (checkConnectionRateLimit_counts cfg socketId m')
           b env0 envs _ Hall Hfresh' Hmax i env Hi).
Qed.

(** With a limit of 1: a second message in minute 0 is refused, and the first
    message of minute 1, 2 ms later, is allowed. *)
Lemma message_limit_restarts_each_minute_witness :
  let cfg := {| jwtSecret := "s"; rateLimitMessagesPerMinute := 1;
                rateLimitConnectionsPerIp := 100;
                rateLimitRoomMessagesPerMinute := 1000;
                rateLimitHttpRequestsPerMinute := 60 |} in
  let check := RateLimit.checkConnectionRateLimit cfg "socket-1" in
  (callEach check [inProcessAt 60001]
     (callEach check [inProcessAt 59998; inProcessAt 59999] emptyWorld).2).1
    !! 0%nat =
    Some (Return {| RateLimit.allowed := true;
                    RateLimit.remaining := Int 0;
                    RateLimit.resetIn := 60 |}).
Proof.
  intros cfg check.
  exact (message_limit_restarts_each_minute cfg false 0 1 "socket-1"
           [inProcessAt 59998; inProcessAt 59999] (inProcessAt 60001) []
           emptyWorld ltac:(lia) ltac:(repeat constructor)
           ltac:(repeat constructor; cbn; lia) eq_refl
           ltac:(vm_compute; discriminate) 0%nat (inProcessAt 60001) eq_refl).
Defined.

Lemma connKey_roomKey_distinct (socketId roomId : string) (m m' : Z) :
  RateLimit.roomKey roomId m' <> RateLimit.connKey socketId m.
Proof. discriminate. Qed.

(** X9: [checkMessageRateLimit] asks the socket's limiter first. When that one
    refuses, the message is refused with the socket's reason and the room's
    counter is not touched: a socket over its limit does not use up the
    room's allowance. When it allows, the room's limiter decides, the
    socket's counter having been incremented either way. *)
Theorem checkMessageRateLimit_order (cfg : Config) (socketId roomId : string)
    (env : Env) (w : World) (connResult : RateLimit.RateLimitResult) :
  let conn := RateLimit.checkConnectionRateLimit cfg socketId env w in
  conn.1 = Return connResult ->
  (RateLimit.allowed connResult = false ->
   RateLimit.checkMessageRateLimit cfg socketId roomId env w =
     (Return (false,
              Some ("Connection rate limit exceeded. Try again in "
                    +:+ toString (Int (RateLimit.resetIn connResult)) +:+ "s")),
      conn.2) /\
   forall (env' : Env) (m : Z),
     env_now env <= env_now env' ->
     peek env' conn.2 (RateLimit.roomKey roomId m) =
       peek env' w (RateLimit.roomKey roomId m)) /\
  (RateLimit.allowed connResult = true ->
   forall roomResult,
     (RateLimit.checkRoomRateLimit cfg roomId env conn.2).1 = Return roomResult ->
     (RateLimit.checkMessageRateLimit cfg socketId roomId env w).1 =
       Return (if RateLimit.allowed roomResult then (true, None)
               else (false,
                     Some ("Room rate limit exceeded. Try again in "
                           +:+ toString (Int (RateLimit.resetIn roomResult))
                           +:+ "s")))).
Proof.
  intros conn Hconn. subst conn. split.
  - intros Hno. split.
    + unfold RateLimit.checkMessageRateLimit, bind.
      destruct (RateLimit.checkConnectionRateLimit cfg socketId env w)
        as [[cr|e] w1]; cbn [fst snd] in *; [|discriminate].
      injection Hconn as ->. now rewrite Hno.
    + intros env' m Hnow.
      rewrite (proj1 (windowed_checks_increment cfg env w) socketId).
      apply incrementCounter_peek_other; [apply connKey_roomKey_distinct|exact Hnow].
  - intros Hyes roomResult Hroom.
    unfold RateLimit.checkMessageRateLimit, bind.
    destruct (RateLimit.checkConnectionRateLimit cfg socketId env w)
      as [[cr|e] w1]; cbn [fst snd] in *; [|discriminate].
    injection Hconn as ->. rewrite Hyes. cbn [negb].
    destruct (RateLimit.checkRoomRateLimit cfg roomId env w1) as [[rr|e] w2];
      cbn [fst snd] in *; [|discriminate].
    injection Hroom as ->. now destruct (RateLimit.allowed roomResult).
Qed.

(** A socket over a limit of 0: refused, the room's counter still absent. *)
Lemma checkMessageRateLimit_order_witness :
  let cfg := {| jwtSecret := "s"; rateLimitMessagesPerMinute := 0;
                rateLimitConnectionsPerIp := 100;
                rateLimitRoomMessagesPerMinute := 1000;
                rateLimitHttpRequestsPerMinute := 60 |} in
  RateLimit.checkMessageRateLimit cfg "socket-1" "room-1" (redisAt 1000) emptyWorld =
    (Return (false, Some "Connection rate limit exceeded. Try again in 59s"),
     (RateLimit.checkConnectionRateLimit cfg "socket-1" (redisAt 1000) emptyWorld).2).
Proof.
  intros cfg.
  exact (proj1 (proj1 (checkMessageRateLimit_order cfg "socket-1" "room-1"
                         (redisAt 1000) emptyWorld
                         {| RateLimit.allowed := false;
                            RateLimit.remaining := Int 0;
                            RateLimit.resetIn := 59 |} eq_refl) eq_refl)).
Defined.

(** [incrementCounter] returns a count unless a Redis command is rejected. *)
Lemma incrementCounter_outcome (key : string) (ttl : Z) (env : Env) (w : World) :
  (exists c, (Redis.incrementCounter key ttl env w).1 = Return c) \/
  (env_ready env = true /\
   (Redis.incrementCounter key ttl env w).1 = Throw Redis.commandRejected).
Proof.
  unfold Redis.incrementCounter. run_m. destruct (env_ready env).
  - destruct (env_fault env) eqn:Hf; [right; now split|].
    destruct (RedisServer.INCR (env_now env) key (redis w)) as [[c db]|];
      [|right; now split].
    left. exists (Int c). destruct (c =? 1); rewrite ?Hf; reflexivity.
  - left. rewrite cleanupMemoryCache_eq. cbn [memoryCache set_memoryCache].
    destruct (sweep (env_now env) (memoryCache w) !! key); eexists; reflexivity.
Qed.

Lemma checkMessageRateLimit_outcome (cfg : Config) (socketId roomId : string)
    (env : Env) (w : World) :
  (exists r, (RateLimit.checkMessageRateLimit cfg socketId roomId env w).1 = Return r) \/
  (env_ready env = true /\
   (RateLimit.checkMessageRateLimit cfg socketId roomId env w).1 =
     Throw Redis.commandRejected).
Proof.
  unfold RateLimit.checkMessageRateLimit, RateLimit.checkConnectionRateLimit,
    RateLimit.checkRoomRateLimit, RateLimit.getCurrentMinute,
    RateLimit.secondsToReset. run_m.
  destruct (incrementCounter_outcome
              (RateLimit.connKey socketId (env_now env / 60000)) 60 env w)
    as [[c Hc]|[Hr Hc]];
    destruct (Redis.incrementCounter (RateLimit.connKey _ _) 60 env w)
      as [[c1|e1] w1]; cbn [fst snd] in *; try discriminate.
  - cbn [RateLimit.allowed RateLimit.resetIn].
    destruct (Js.leb c1 (rateLimitMessagesPerMinute cfg)); cbn [negb];
      [|left; eexists; reflexivity].
    destruct (incrementCounter_outcome
                (RateLimit.roomKey roomId (env_now env / 60000)) 60 env w1)
      as [[c' Hc']|[Hr Hc']];
      destruct (Redis.incrementCounter (RateLimit.roomKey _ _) 60 env w1)
        as [[c2|e2] w2]; cbn [fst snd] in *; try discriminate.
    + left. cbn [RateLimit.allowed RateLimit.resetIn].
      destruct (Js.leb c2 (rateLimitRoomMessagesPerMinute cfg)); cbn [negb];
        eexists; reflexivity.
    + right. split; [assumption | congruence].
  - right. split; [assumption | congruence].
Qed.

(** X10: [beforeHandleMessage] never refuses a message because of a limit:
    it returns normally whatever the limiters answer, and the only way it
    throws is a Redis command that is rejected (on the in-process path it
    never throws). For a document name that yields no room id it does
    nothing at all. *)
Theorem beforeHandleMessage_advisory (cfg : Config) (documentName socketId : string)
    (env : Env) (w : World) :
  ((Index.beforeHandleMessage cfg documentName socketId env w).1 = Return tt \/
   (env_ready env = true /\
    (Index.beforeHandleMessage cfg documentName socketId env w).1 =
      Throw Redis.commandRejected)) /\
  (Auth.extractRoomIdFromDocumentName documentName = None ->
   Index.beforeHandleMessage cfg documentName socketId env w = (Return tt, w)).
Proof.
  unfold Index.beforeHandleMessage. split.
  - destruct (Auth.extractRoomIdFromDocumentName documentName) as [roomId|];
      [|now left].
    destruct (truthy roomId); [|now left]. unfold bind.
    destruct (checkMessageRateLimit_outcome cfg socketId roomId env w)
      as [[r Hr]|[Hready Hr]];
      destruct (RateLimit.checkMessageRateLimit cfg socketId roomId env w)
        as [[r1|e1] w1]; cbn [fst snd] in *; try discriminate.
    + now left.
    + right. split; [assumption | congruence].
  - now intros ->.
Qed.

(* ===================================================================== *)
(** ** The connection hooks and the IP gauge (index.ts) *)
(* ===================================================================== *)

Lemma gaugeHolds_ext (b : bool) (t0 z : Z) (clientIp : string) (w w' : World) :
  redis w' = redis w -> memoryCache w' = memoryCache w ->
  gaugeHolds b t0 clientIp z w -> gaugeHolds b t0 clientIp z w'.
Proof. unfold gaugeHolds. now intros -> ->. Qed.

Section HookFacts.
Context `{Redis.Json Redis.RoomMetadata}.

(** The membership check writes to the membership cache only; of the store
    it changes nothing but what a sweep removes. *)
Lemma validateRoomMembership_store (userId documentName socketId : string)
    (env : Env) (w : World) :
  healthy env ->
  let w' := (RoomIsolation.validateRoomMembership userId documentName socketId
               env w).2 in
  (redis w' = redis w /\ memoryCache w' = memoryCache w) \/
  (redis w' = redis (swept env w) /\ memoryCache w' = memoryCache (swept env w)).
Proof.
  intros Hh. cbv zeta. unfold RoomIsolation.validateRoomMembership,
    RoomIsolation.validateRoomAccess, bind.
  destruct (Auth.extractRoomIdFromDocumentName documentName) as [roomId|];
    [|now left].
  destruct (truthy roomId); cbn [negb]; [|now left].
  unfold RoomIsolation.getCachedRoomMembers, bind, RoomIsolation.cacheGet, dateNow.
  assert (let r := RoomIsolation.readThrough roomId env w in
          redis r.2 = redis (swept env w) /\
          memoryCache r.2 = memoryCache (swept env w)) as Hread.
  { rewrite readThrough_ok by assumption.
    destruct (metadataAt env w roomId); cbn; now split. }
  cbv zeta in Hread.
  destruct (roomMetadataCache w !! roomId) as [cached|].
  - destruct (env_now env <? cm_expiresAt cached).
    + left. unfold ret.
      destruct (negb (includes (cm_members cached) userId)); now split.
    + right. destruct (RoomIsolation.readThrough roomId env w) as [[[l|]|e] w1];
        cbn [fst snd] in *; try assumption.
      unfold ret. destruct (negb (includes l userId)); assumption.
  - right. destruct (RoomIsolation.readThrough roomId env w) as [[[l|]|e] w1];
      cbn [fst snd] in *; try assumption.
    unfold ret. destruct (negb (includes l userId)); assumption.
Qed.

Lemma validateRoomMembership_gauge (b : bool) (t0 z : Z) (clientIp : string)
    (userId documentName socketId : string) (env : Env) (w : World) :
  inWindow b t0 env -> gaugeHolds b t0 clientIp z w ->
  gaugeHolds b t0 clientIp z
    (RoomIsolation.validateRoomMembership userId documentName socketId env w).2.
Proof.
  intros Hw Hg.
  destruct (validateRoomMembership_store userId documentName socketId env w
              (inWindow_healthy b t0 env Hw)) as [[Hr Hm]|[Hr Hm]].
  - exact (gaugeHolds_ext b t0 z clientIp w _ Hr Hm Hg).
  - exact (gaugeHolds_ext b t0 z clientIp (swept env w) _ Hr Hm
             (gaugeHolds_swept b t0 z clientIp env w Hw Hg)).
Qed.

(** What [onConnect] leaves in the gauge, inside the window. *)
Lemma onConnect_gauge (cfg : Config) (b : bool) (t0 z : Z)
    (documentName socketId clientIp : string) (user : option Auth.Identity)
    (env : Env) (w : World) :
  inWindow b t0 env -> gaugeHolds b t0 clientIp z w ->
  let r := Index.onConnect cfg documentName socketId user clientIp env w in
  if rateLimitConnectionsPerIp cfg <=? z
  then r.1 = Throw "Too many connections from this IP" /\
       gaugeHolds b t0 clientIp z r.2
  else gaugeHolds b t0 clientIp (z + 1) r.2.
Proof.
  intros Hw Hg. cbv zeta. unfold Index.onConnect, bind.
  destruct (track_in_window cfg b t0 z clientIp env w Hw Hg) as [Hres Hg'].
  destruct (RateLimit.trackIpConnection cfg clientIp env w) as [[a|e] w1];
    cbn [fst snd] in *; [|discriminate]. injection Hres as ->.
  destruct (rateLimitConnectionsPerIp cfg <=? z); cbn [negb].
  - now split.
  - destruct user as [user|]; [|exact Hg'].
    now apply validateRoomMembership_gauge.
Qed.

(** X11: [onConnect] counts the connection before it checks the membership.
    When the IP is below its cap, the gauge of the IP is one higher after
    [onConnect] than before, whether [onConnect] returned or threw: a
    connection that the membership check refused has been counted, and
    nothing in [onConnect] takes it back. The setting is one hour on one
    backend that rejects no command: from an instant t0 on, the gauge holds
    the old count with at least an hour to live, the connect happens between
    t0 and t0 + 1 h, and [getIpConnectionCount], called in that same hour
    after the connect, returns the old count plus 1. *)
Theorem onConnect_counts_before_membership (cfg : Config) (b : bool) (t0 z : Z)
    (documentName socketId clientIp : string) (user : option Auth.Identity)
    (env env' : Env) (w : World) :
  inWindow b t0 env -> inWindow b t0 env' ->
  gaugeHolds b t0 clientIp z w ->
  z < rateLimitConnectionsPerIp cfg ->
  let r := Index.onConnect cfg documentName socketId user clientIp env w in
  (RateLimit.getIpConnectionCount clientIp env' r.2).1 = Return (Int (z + 1)).
Proof.
  intros Hw Hw' Hg Hcap r. subst r.
  pose proof (onConnect_gauge cfg b t0 z documentName socketId clientIp
                user env w Hw Hg) as Hgauge. cbv zeta in Hgauge.
  replace (rateLimitConnectionsPerIp cfg <=? z) with false in Hgauge
    by (symmetry; apply Z.leb_gt; lia).
  now apply (count_in_window b t0 (z + 1) clientIp env').
Qed.

(** X12: a connection that [onConnect] accepted and [onDisconnect] then
    released leaves the gauge of its IP where it was, as long as both calls
    and the later read fall within the gauge's hour on one backend. The IP
    must not be the empty text, for which [onDisconnect] releases "unknown"
    instead. *)
Theorem connect_then_disconnect (cfg : Config) (b : bool) (t0 z : Z)
    (documentName socketId clientIp : string) (user : option Auth.Identity)
    (env1 env2 env3 : Env) (w : World) :
  inWindow b t0 env1 -> inWindow b t0 env2 -> inWindow b t0 env3 ->
  gaugeHolds b t0 clientIp z w -> 0 <= z -> clientIp <> "" ->
  let connected :=
    Index.onConnect cfg documentName socketId user clientIp env1 w in
  let released := Index.onDisconnect (Some clientIp) env2 connected.2 in
  connected.1 = Return tt ->
  released.1 = Return tt /\
  (RateLimit.getIpConnectionCount clientIp env3 released.2).1 = Return (Int z).
Proof.
  intros Hw1 Hw2 Hw3 Hg Hz Hip connected released Hok.
  subst connected released.
  pose proof (onConnect_gauge cfg b t0 z documentName socketId clientIp
                user env1 w Hw1 Hg) as Hgauge. cbv zeta in Hgauge.
  destruct (rateLimitConnectionsPerIp cfg <=? z).
  { destruct Hgauge as [Hthrow _]. congruence. }
  unfold Index.onDisconnect. cbn [truthy_opt from_option id].
  rewrite (proj2 (truthy_true _) Hip).
  destruct (release_in_window b t0 (z + 1) clientIp env2 _ Hw2 Hgauge)
    as [Hres Hg'].
  split; [exact Hres|].
  replace (0 <? z + 1) with true in Hg' by (symmetry; apply Z.ltb_lt; lia).
  replace (z + 1 - 1) with z in Hg' by lia.
  now apply (count_in_window b t0 z clientIp env3).
Qed.

(** X13: [onDisconnect] releases a slot whether or not [onConnect] had taken
    one. After [onConnect] refused a connection because the IP is at its cap
    (the count stays at the cap), an [onDisconnect] for that connection takes
    the count to cap - 1, and the next connection of the IP is admitted by the
    gauge. *)
Theorem disconnect_after_cap_refusal (cfg : Config) (b : bool) (t0 z : Z)
    (documentName socketId clientIp : string) (user : option Auth.Identity)
    (env1 env2 env3 : Env) (w : World) :
  inWindow b t0 env1 -> inWindow b t0 env2 -> inWindow b t0 env3 ->
  gaugeHolds b t0 clientIp z w -> 0 < z -> clientIp <> "" ->
  rateLimitConnectionsPerIp cfg <= z ->
  let refused :=
    Index.onConnect cfg documentName socketId user clientIp env1 w in
  let released := Index.onDisconnect (Some clientIp) env2 refused.2 in
  refused.1 = Throw "Too many connections from this IP" /\
  (RateLimit.getIpConnectionCount clientIp env2 refused.2).1 = Return (Int z) /\
  (RateLimit.getIpConnectionCount clientIp env3 released.2).1 =
    Return (Int (z - 1)) /\
  (rateLimitConnectionsPerIp cfg = z ->
   (RateLimit.trackIpConnection cfg clientIp env3 released.2).1 = Return true).
Proof.
  intros Hw1 Hw2 Hw3 Hg Hz Hip Hcap refused released.
  subst refused released.
  pose proof (onConnect_gauge cfg b t0 z documentName socketId clientIp
                user env1 w Hw1 Hg) as Hgauge. cbv zeta in Hgauge.
  replace (rateLimitConnectionsPerIp cfg <=? z) with true in Hgauge
    by (symmetry; apply Z.leb_le; lia).
  destruct Hgauge as [Hthrow Hg1]. split; [exact Hthrow|].
  split; [now apply (count_in_window b t0 z clientIp env2)|].
  unfold Index.onDisconnect. cbn [truthy_opt from_option id].
  rewrite (proj2 (truthy_true _) Hip).
  destruct (release_in_window b t0 z clientIp env2 _ Hw2 Hg1) as [_ Hg2].
  replace (0 <? z) with true in Hg2 by (symmetry; apply Z.ltb_lt; lia).
  split; [now apply (count_in_window b t0 (z - 1) clientIp env3)|].
  intros Heq.
  destruct (track_in_window cfg b t0 (z - 1) clientIp env3 _ Hw3 Hg2)
    as [Hres _].
  rewrite Hres.
  now replace (rateLimitConnectionsPerIp cfg <=? z - 1) with false
    by (symmetry; apply Z.leb_gt; lia).
Qed.

End HookFacts.

(** A user who is no member of a room that does not exist is refused, and the
    gauge of the IP reads 1 afterwards. *)
Lemma onConnect_counts_before_membership_witness :
  let r := Index.onConnect defaultConfig "room:r1:main" "socket-1"
             (Some {| Auth.id_userId := "u9"; Auth.id_role := "guest" |})
             "10.0.0.1" (inProcessAt 1000) emptyWorld in
  r.1 = Throw "Room not found or expired" /\
  (RateLimit.getIpConnectionCount "10.0.0.1" (inProcessAt 2000) r.2).1 =
    Return (Int 1).
Proof.
  intros r. split; [reflexivity|].
  apply (onConnect_counts_before_membership defaultConfig false 1000 0
           "room:r1:main" "socket-1" "10.0.0.1"
           (Some {| Auth.id_userId := "u9"; Auth.id_role := "guest" |})
           (inProcessAt 1000) (inProcessAt 2000) emptyWorld).
  - repeat split; cbn; lia.
  - repeat split; cbn; lia.
  - reflexivity.
  - cbn; lia.
Defined.

Lemma connect_then_disconnect_witness :
  let connected := Index.onConnect defaultConfig "room:r1:main" "socket-1" None
                     "10.0.0.1" (redisAt 1000) emptyWorld in
  let released := Index.onDisconnect (Some "10.0.0.1") (redisAt 2000)
                    connected.2 in
  released.1 = Return tt /\
  (RateLimit.getIpConnectionCount "10.0.0.1" (redisAt 3000) released.2).1 =
    Return (Int 0).
Proof.
  apply (connect_then_disconnect defaultConfig true 1000 0
           "room:r1:main" "socket-1" "10.0.0.1" None
           (redisAt 1000) (redisAt 2000) (redisAt 3000) emptyWorld).
  - repeat split; cbn; lia.
  - repeat split; cbn; lia.
  - repeat split; cbn; lia.
  - reflexivity.
  - lia.
  - discriminate.
  - reflexivity.
Defined.

(** With a cap of 1 and one connection open: a second one is refused, its
    disconnect takes the count to 0, and a third one is accepted. *)
Lemma disconnect_after_cap_refusal_witness :
  let cfg := capConfig 1 in
  let w := (RateLimit.trackIpConnection cfg "10.0.0.1" (inProcessAt 1000)
              emptyWorld).2 in
  let refused := Index.onConnect cfg "room:r1:main" "socket-2" None "10.0.0.1"
                   (inProcessAt 2000) w in
  let released := Index.onDisconnect (Some "10.0.0.1") (inProcessAt 3000)
                    refused.2 in
  refused.1 = Throw "Too many connections from this IP" /\
  (RateLimit.getIpConnectionCount "10.0.0.1" (inProcessAt 3000) refused.2).1 =
    Return (Int 1) /\
  (RateLimit.getIpConnectionCount "10.0.0.1" (inProcessAt 4000) released.2).1 =
    Return (Int 0) /\
  (RateLimit.trackIpConnection cfg "10.0.0.1" (inProcessAt 4000) released.2).1 =
    Return true.
Proof.
  intros cfg w.
  destruct (disconnect_after_cap_refusal cfg false 1000 1
              "room:r1:main" "socket-2" "10.0.0.1" None
              (inProcessAt 2000) (inProcessAt 3000) (inProcessAt 4000) w)
    as (H1 & H2 & H3 & H4).
  - repeat split; cbn; lia.
  - repeat split; cbn; lia.
  - repeat split; cbn; lia.
  - vm_compute. split; [reflexivity | intros Hc; discriminate Hc].
  - lia.
  - discriminate.
  - cbn; lia.
  - exact (conj H1 (conj H2 (conj H3 (H4 eq_refl)))).
Defined.

(* ===================================================================== *)
(** ** Tokens and documents (src/middleware/auth.ts) *)
(* ===================================================================== *)

Section TokenFacts.
Context `{Auth.Jwt}.

(** What [onAuthenticate] answers to a token from [generateToken] that has
    not expired, by the room id the document name yields. *)
Lemma onAuthenticate_issued (cfg : Config) (now t : Z)
    (userId roomId : string) (role : Auth.Role) (documentName : string) :
  userId <> "" -> roomId <> "" -> jwtSecret cfg <> "" -> 0 <= now ->
  t <= now + 7 * 24 * 60 * 60 * 1000 ->
  Auth.onAuthenticate cfg t
    (tokenOf (Auth.generateToken cfg now userId roomId role)) documentName =
    match Auth.extractRoomIdFromDocumentName documentName with
    | None => Throw "Invalid document name format"
    | Some r =>
        if String.eqb r roomId
        then Return {| Auth.id_userId := userId;
                       Auth.id_role := Auth.role_name role |}
        else Throw "Room ID mismatch"
    end.
Proof.
  intros Hu Hr Hs Hnow Ht.
  destruct (generateToken_returns cfg now userId roomId role Hs)
    as (token & Hissued & Htoken).
  rewrite Hissued. cbn [tokenOf fst].
  unfold Auth.onAuthenticate, Auth.authenticateForDocument.
  cbn [truthy_opt from_option id].
  rewrite (proj2 (truthy_true _) Htoken). cbn [negb].
  rewrite (verifyToken_generateToken cfg now t userId roomId role token _
             Hu Hr Hnow Hissued).
  replace (t <=? now + 7 * 24 * 60 * 60 * 1000) with true
    by (symmetry; apply Z.leb_le; lia).
  cbv zeta. cbn [Auth.success negb Auth.ar_roomId].
  destruct (Auth.extractRoomIdFromDocumentName documentName) as [r|] eqn:He;
    [|reflexivity].
  apply extractRoomId_iff in He as (Hne & _ & _).
  rewrite (proj2 (truthy_true _) Hne). cbn [negb].
  destruct (String.eqb_spec r roomId) as [->|Hneq].
  - rewrite bool_decide_eq_true_2 by reflexivity. reflexivity.
  - rewrite bool_decide_eq_false_2 by congruence. reflexivity.
Qed.

End TokenFacts.

(** X14: a token from [generateToken] (issued for a non-empty userId and
    roomId, with a non-empty signing secret, without which there is no
    token) opens the documents of its own room and no others. Until it
    expires, [onAuthenticate] returns the token's userId
    and role exactly for the document names "room:<roomId>:<anything>", and
    that only when roomId contains no colon (a token for a room id with a
    colon authenticates no document at all); for a document of another room
    it throws "Room ID mismatch", and for a name that yields no room id
    "Invalid document name format". *)
Theorem issued_token_opens_its_room_only `{Auth.Jwt} (cfg : Config) (now t : Z)
    (userId roomId : string) (role : Auth.Role) (documentName : string) :
  userId <> "" -> roomId <> "" -> jwtSecret cfg <> "" -> 0 <= now ->
  t <= now + 7 * 24 * 60 * 60 * 1000 ->
  let token := tokenOf (Auth.generateToken cfg now userId roomId role) in
  let answer := Auth.onAuthenticate cfg t token documentName in
  (answer = Return {| Auth.id_userId := userId;
                      Auth.id_role := Auth.role_name role |} <->
   colonFree roomId /\
   exists suffix, documentName = "room:" +:+ roomId +:+ ":" +:+ suffix) /\
  (forall r, Auth.extractRoomIdFromDocumentName documentName = Some r ->
             r <> roomId -> answer = Throw "Room ID mismatch") /\
  (Auth.extractRoomIdFromDocumentName documentName = None ->
   answer = Throw "Invalid document name format").
Proof.
  intros Hu Hr Hs Hnow Ht token answer. subst token answer.
  rewrite onAuthenticate_issued by assumption.
  split; [|split].
  - destruct (Auth.extractRoomIdFromDocumentName documentName) as [r|] eqn:He.
    + destruct (String.eqb_spec r roomId) as [->|Hneq].
      * apply extractRoomId_iff in He as (_ & Hcf & Hsuf). tauto.
      * split; [discriminate|]. intros (Hcf & Hsuf).
        assert (Auth.extractRoomIdFromDocumentName documentName = Some roomId)
          as He' by (apply extractRoomId_iff; tauto).
        congruence.
    + split; [discriminate|]. intros (Hcf & Hsuf).
      assert (Auth.extractRoomIdFromDocumentName documentName = Some roomId)
        as He' by (apply extractRoomId_iff; tauto).
      congruence.
  - intros r -> Hneq.
    now destruct (String.eqb_spec r roomId) as [->|_].
  - now intros ->.
Qed.

Lemma issued_token_opens_its_room_only_witness :
  let token := tokenOf (Auth.generateToken defaultConfig 1000 "u1" "r1" Auth.guest) in
  Auth.onAuthenticate defaultConfig 2000 token "room:r2:main" =
    Throw "Room ID mismatch".
Proof.
  intros token.
  apply (proj1 (proj2 (issued_token_opens_its_room_only defaultConfig 1000 2000
                         "u1" "r1" Auth.guest "room:r2:main"
                         ltac:(discriminate) ltac:(discriminate)
                         ltac:(discriminate) ltac:(lia) ltac:(lia))) "r2").
  - reflexivity.
  - discriminate.
Defined.

(** X15: [onAuthenticate] hands an identity to the transport only for a
    non-empty token that [jwt.verify] accepts under the configured secret,
    whose payload has a non-empty userId, roomId and role (any non-empty
    text: the role is not required to be host or guest) and an [exp] that is
    missing or not before the clock, and only for a document named
    "room:<the payload's roomId>:<anything>"; the identity is the payload's
    userId and role. *)
Theorem onAuthenticate_sound `{Auth.Jwt} (cfg : Config) (now : Z)
    (token : option string) (documentName : string) (identity : Auth.Identity) :
  Auth.onAuthenticate cfg now token documentName = Return identity ->
  exists (tokenText : string) (p : Auth.JwtPayload) (suffix : string),
    token = Some tokenText /\ tokenText <> "" /\
    Auth.jwt_verify tokenText (jwtSecret cfg) now = Auth.Decoded p /\
    identity = {| Auth.id_userId := Auth.jp_userId p;
                  Auth.id_role := Auth.jp_role p |} /\
    Auth.jp_userId p <> "" /\ Auth.jp_roomId p <> "" /\ Auth.jp_role p <> "" /\
    (Auth.jp_exp p = 0 \/ now <= Auth.jp_exp p) /\
    colonFree (Auth.jp_roomId p) /\
    documentName = "room:" +:+ Auth.jp_roomId p +:+ ":" +:+ suffix.
Proof.
  unfold Auth.onAuthenticate, Auth.authenticateForDocument.
  destruct token as [tokenText|]; cbn [truthy_opt from_option id];
    [|discriminate].
  destruct (truthy tokenText) eqn:Htok; cbn [negb]; [|discriminate].
  apply truthy_true in Htok. cbv zeta.
  destruct (verifyToken_cases cfg now tokenText)
    as [(p & Hdec & -> & Hu & Hr & Hro & Hexp) | (Hfail & _)].
  - cbn [granted Auth.success negb Auth.ar_roomId].
    destruct (Auth.extractRoomIdFromDocumentName documentName) as [r|] eqn:He;
      [|discriminate].
    pose proof (proj1 (extractRoomId_iff _ _) He) as (Hne & Hcf & suffix & Hd).
    rewrite (proj2 (truthy_true _) Hne). cbn [negb].
    destruct (bool_decide (Some (Auth.jp_roomId p) = Some r)) eqn:Hroom;
      cbn [negb]; [|discriminate].
    apply bool_decide_eq_true in Hroom. injection Hroom as <-.
    cbn [Auth.success negb Auth.ar_userId Auth.ar_role from_option id].
    intros [= <-]. exists tokenText, p, suffix.
    repeat (split; [assumption || reflexivity|]).
    split; [|split; assumption]. lia.
  - rewrite Hfail. cbn [negb]. rewrite Hfail. discriminate.
Qed.

Lemma onAuthenticate_sound_witness :
  exists (tokenText : string) (p : Auth.JwtPayload) (suffix : string),
    tokenOf (Auth.generateToken defaultConfig 1000 "u1" "r1" Auth.host) =
      Some tokenText /\ tokenText <> "" /\
    Auth.jwt_verify tokenText (jwtSecret defaultConfig) 2000 = Auth.Decoded p /\
    {| Auth.id_userId := "u1"; Auth.id_role := "host" |} =
      {| Auth.id_userId := Auth.jp_userId p; Auth.id_role := Auth.jp_role p |} /\
    Auth.jp_userId p <> "" /\ Auth.jp_roomId p <> "" /\ Auth.jp_role p <> "" /\
    (Auth.jp_exp p = 0 \/ 2000 <= Auth.jp_exp p) /\
    colonFree (Auth.jp_roomId p) /\
    "room:r1:main" = "room:" +:+ Auth.jp_roomId p +:+ ":" +:+ suffix.
Proof.
  apply (onAuthenticate_sound defaultConfig 2000
           (tokenOf (Auth.generateToken defaultConfig 1000 "u1" "r1" Auth.host))
           "room:r1:main" {| Auth.id_userId := "u1"; Auth.id_role := "host" |}).
  vm_compute. reflexivity.
Defined.

(* ===================================================================== *)
(** ** The room registry (src/utils/redis.ts, src/api/room.ts) *)
(* ===================================================================== *)

Section RegistryFacts.
Context `{Redis.Json Redis.RoomMetadata} `{Redis.Json Redis.RoomCodeMapping}.

(** The metadata [addRoomMember] leaves under the room's key. *)
Definition withMember (m : Redis.RoomMetadata) (userId : string)
    : Redis.RoomMetadata :=
  if includes (Redis.rm_members m) userId then m else Redis.pushMember m userId.

Lemma addRoomMember_metadata (roomId userId : string) (env : Env) (w : World)
    (m : Redis.RoomMetadata) :
  healthy env -> metadataAt env w roomId = Some m -> Redis.rm_roomId m = roomId ->
  (Redis.addRoomMember roomId userId env w).1 = Return true /\
  metadataAt env (Redis.addRoomMember roomId userId env w).2 roomId =
    Some (withMember m userId).
Proof.
  intros Hh Hm Hid. rewrite addRoomMember_ok by assumption. rewrite Hm.
  unfold withMember.
  destruct (includes (Redis.rm_members m) userId); cbn [fst snd].
  - split; [reflexivity|]. now rewrite metadataAt_swept by lia.
  - split; [reflexivity|]. rewrite <- Hid.
    apply (metadataAt_stored env env (Redis.pushMember m userId));
      [reflexivity|]. pose proof ROOM_TTL_pos. lia.
Qed.

End RegistryFacts.

(** X16: [addRoomMember] run with no other call between its read and its
    write (the call cut at its [await]s and given all its turns at one
    instant), on a room that is there, answers true and leaves metadata that
    differ from the old ones only in the members: the user is among them,
    everyone who was a member still is, in the same order, the new user (if
    new) comes last, and a member list without duplicates stays without
    duplicates. Adding the same user again, in the same way, changes nothing.
    On a room that is not there it answers false and creates nothing. (Two
    calls interleaved between read and write can lose a member: the write
    puts back the members that were read.) *)
Theorem addRoomMember_grows_once `{Redis.Json Redis.RoomMetadata}
    (roomId userId : string) (env : Env) (w : World) :
  healthy env ->
  (forall m, metadataAt env w roomId = Some m -> Redis.rm_roomId m = roomId) ->
  let r := Async.runAlone (Async.addRoomMemberT roomId userId) env w in
  match metadataAt env w roomId with
  | None => r.1 = Return false /\ metadataAt env r.2 roomId = None
  | Some m =>
      r.1 = Return true /\
      exists m',
        metadataAt env r.2 roomId = Some m' /\
        Redis.rm_roomId m' = Redis.rm_roomId m /\
        Redis.rm_hostUserId m' = Redis.rm_hostUserId m /\
        Redis.rm_createdAt m' = Redis.rm_createdAt m /\
        In userId (Redis.rm_members m') /\
        (Redis.rm_members m' = Redis.rm_members m \/
         Redis.rm_members m' = (Redis.rm_members m ++ [userId])%list) /\
        (NoDup (Redis.rm_members m) -> NoDup (Redis.rm_members m')) /\
        metadataAt env
          (Async.runAlone (Async.addRoomMemberT roomId userId) env r.2).2
          roomId = Some m'
  end.
Proof.
  intros Hh Hcons r. subst r. rewrite !addRoomMemberT_alone.
  destruct (metadataAt env w roomId) as [m|] eqn:Hm.
  - specialize (Hcons m eq_refl).
    destruct (addRoomMember_metadata roomId userId env w m Hh Hm Hcons)
      as [Hres Hm'].
    split; [exact Hres|]. exists (withMember m userId).
    assert (In userId (Redis.rm_members (withMember m userId))) as Hin.
    { unfold withMember.
      destruct (includes (Redis.rm_members m) userId) eqn:Hi.
      - now apply includes_In.
      - cbn. apply in_or_app. right. now left. }
    split; [exact Hm'|].
    unfold withMember in *.
    destruct (includes (Redis.rm_members m) userId) eqn:Hi.
    + repeat (split; [reflexivity || assumption|]).
      split; [now left|]. split; [auto|].
      destruct (addRoomMember_metadata roomId userId env _ m Hh Hm' Hcons)
        as [_ Hagain].
      rewrite Hagain. unfold withMember. now rewrite Hi.
    + repeat (split; [reflexivity || assumption|]).
      split; [now right|]. split.
      * intros Hnd. cbn. apply NoDup_app. split; [assumption|].
        split; [|apply NoDup_singleton].
        intros x Hx Hx'. apply list_elem_of_In in Hx.
        apply list_elem_of_singleton in Hx'. subst x.
        apply includes_In in Hx. congruence.
      * destruct (addRoomMember_metadata roomId userId env _
                    (Redis.pushMember m userId) Hh Hm' Hcons) as [_ Hagain].
        rewrite Hagain. unfold withMember.
        now rewrite (proj2 (includes_In _ _) Hin).
  - rewrite addRoomMember_ok by assumption. rewrite Hm. cbn [fst snd].
    split; [reflexivity|]. now rewrite metadataAt_swept by lia.
Qed.

(** A second user added to a room registered by its host. *)
Lemma addRoomMember_grows_once_witness :
  let w := (RoomApi.register "r1" "ABC123" "u1" (inProcessAt 1000) emptyWorld).2 in
  let r := Async.runAlone (Async.addRoomMemberT "r1" "u2") (inProcessAt 2000) w in
  r.1 = Return true /\
  exists m', metadataAt (inProcessAt 2000) r.2 "r1" = Some m' /\
             In "u2" (Redis.rm_members m').
Proof.
  intros w r.
  assert (metadataAt (inProcessAt 2000) w "r1" =
          Some {| Redis.rm_roomId := "r1"; Redis.rm_hostUserId := "u1";
                  Redis.rm_members := ["u1"]; Redis.rm_createdAt := 1000 |})
    as Hm by (vm_compute; reflexivity).
  pose proof (addRoomMember_grows_once "r1" "u2" (inProcessAt 2000) w
                (healthy_inProcessAt 2000)) as Hthm.
  cbv zeta in Hthm. rewrite Hm in Hthm.
  destruct (Hthm ltac:(intros m [= <-]; reflexivity))
    as (Hres & m' & Hm' & _ & _ & _ & Hin & _).
  split; [exact Hres|]. exists m'. split; [exact Hm' | exact Hin].
Defined.

(* ===================================================================== *)
(** ** Deleting a room (deleteRoomData, src/utils/redis.ts) *)
(* ===================================================================== *)

Lemma app_inv_tail (a b s : string) : a +:+ s = b +:+ s -> a = b.
Proof.
  revert b. induction a as [|c a IH]; intros [|c' b] Heq;
    rewrite ?app_cons, ?app_nil_l in Heq.
  - reflexivity.
  - apply (f_equal String.length) in Heq. cbn [String.length] in Heq.
    rewrite app_length in Heq. lia.
  - apply (f_equal String.length) in Heq. cbn [String.length] in Heq.
    rewrite app_length in Heq. lia.
  - injection Heq as -> Heq. f_equal. now apply IH.
Qed.

Lemma roomMetadataKey_inj (a b : string) :
  Redis.roomMetadataKey a = Redis.roomMetadataKey b -> a = b.
Proof.
  unfold Redis.roomMetadataKey. intros Heq.
  apply String.app_inj in Heq. now apply app_inv_tail in Heq.
Qed.

Lemma roomCodeKey_prefix (code : string) :
  String.prefix Redis.ROOM_CODE_PREFIX (Redis.roomCodeKey code) = true.
Proof. destruct code; reflexivity. Qed.

Lemma roomMetadataKey_prefix (roomId : string) :
  String.prefix Redis.ROOM_CODE_PREFIX (Redis.roomMetadataKey roomId) = false.
Proof. reflexivity. Qed.

Section DeleteFacts.
Context `{Redis.Json Redis.RoomMetadata} `{Redis.Json Redis.RoomCodeMapping}.

(** The world after the metadata of [roomId] and the codes that map to it
    were deleted. *)
Definition purged (env : Env) (roomId : string) (w : World) : World :=
  if env_ready env
  then set_redis
         (fun db => Redis.scanDelete (env_now env) roomId
                      (RedisServer.DEL (Redis.roomMetadataKey roomId) db)) w
  else set_memoryCache
         (fun mc =>
            filter (fun kv : string * CacheEntry =>
                      ~ (String.prefix Redis.ROOM_CODE_PREFIX kv.1 = true /\
                         Redis.mapsToRoom roomId (value kv.2) = true))
              (delete (Redis.roomMetadataKey roomId) mc)) w.

Lemma deleteRoomData_ok (roomId : string) (env : Env) (w : World) :
  healthy env ->
  Redis.deleteRoomData roomId env w =
    (Return tt,
     match metadataAt env w roomId with
     | None => swept env w
     | Some _ => purged env roomId (swept env w)
     end).
Proof.
  intros Hh. unfold Redis.deleteRoomData. unfold bind at 1.
  rewrite getRoomMetadata_ok by assumption.
  destruct (metadataAt env w roomId) as [m|]; [|reflexivity].
  unfold purged, swept, healthy, Redis.memoryDeleteCodes in *. run_m.
  destruct (env_ready env).
  - rewrite Hh by reflexivity. now destruct w.
  - reflexivity.
Qed.

Lemma peek_purged_metadata (env env' : Env) (roomId : string) (w : World) :
  env_ready env' = env_ready env ->
  peek env' (purged env roomId w) (Redis.roomMetadataKey roomId) = None.
Proof.
  intros Hr. unfold peek, purged. rewrite Hr. destruct (env_ready env).
  - cbn [redis set_redis]. unfold RedisServer.GET, RedisServer.lookup,
      Redis.scanDelete, RedisServer.DEL.
    replace (filter _ _ !! _) with (@None RedisEntry); [reflexivity|].
    symmetry. apply map_lookup_filter_None. left. apply lookup_delete_eq.
  - cbn [memoryCache set_memoryCache].
    replace (filter _ _ !! _) with (@None CacheEntry); [reflexivity|].
    symmetry. apply map_lookup_filter_None. left. apply lookup_delete_eq.
Qed.

(** A key survives the deletion when it is no code key or its text is no
    mapping to the room. *)
Lemma peek_purged_kept (env env' : Env) (roomId key v : string) (w : World) :
  env_ready env' = env_ready env ->
  key <> Redis.roomMetadataKey roomId ->
  peek env' w key = Some v ->
  String.prefix Redis.ROOM_CODE_PREFIX key = false \/
    Redis.mapsToRoom roomId v = false ->
  peek env' (purged env roomId w) key = Some v.
Proof.
  intros Hr Hne Hp Hkeep. unfold peek, purged in *. rewrite Hr in *.
  destruct (env_ready env).
  - cbn [redis set_redis]. unfold RedisServer.GET, RedisServer.lookup,
      Redis.scanDelete, RedisServer.DEL in *.
    destruct (redis w !! key) as [e|] eqn:He; [|discriminate].
    destruct (RedisServer.live (env_now env') e) eqn:Hlive; [|discriminate].
    cbn in Hp. injection Hp as Hv.
    replace (filter _ _ !! key) with (Some e); [now rewrite Hlive, <- Hv|].
    symmetry. apply map_lookup_filter_Some. split.
    + now rewrite lookup_delete_ne by congruence.
    + cbn [fst snd]. rewrite Hv. intros (Hpre & _ & _ & Hmaps).
      destruct Hkeep; congruence.
  - cbn [memoryCache set_memoryCache].
    destruct (memoryCache w !! key) as [d|] eqn:Hd; [|discriminate].
    destruct (bool_decide (Redis.expired (env_now env') d)) eqn:Hexp;
      [discriminate|]. injection Hp as Hv.
    replace (filter _ _ !! key) with (Some d); [now rewrite Hexp, <- Hv|].
    symmetry. apply map_lookup_filter_Some. split.
    + now rewrite lookup_delete_ne by congruence.
    + cbn [fst snd]. rewrite Hv. intros (Hpre & Hmaps).
      destruct Hkeep; congruence.
Qed.

(** A code key that is there at the deletion and maps to the room is gone. *)
Lemma peek_purged_gone (env env' : Env) (roomId key v : string) (w : World) :
  env_ready env' = env_ready env ->
  peek env w key = Some v ->
  String.prefix Redis.ROOM_CODE_PREFIX key = true ->
  truthy v = true -> Redis.mapsToRoom roomId v = true ->
  peek env' (purged env roomId w) key = None.
Proof.
  intros Hr Hp Hpre Htr Hmaps. unfold peek, purged in *. rewrite Hr in *.
  destruct (env_ready env).
  - cbn [redis set_redis]. unfold RedisServer.GET, RedisServer.lookup,
      Redis.scanDelete, RedisServer.DEL in *.
    destruct (redis w !! key) as [e|] eqn:He; [|discriminate].
    destruct (RedisServer.live (env_now env) e) eqn:Hlive; [|discriminate].
    cbn in Hp. injection Hp as Hv.
    replace (filter _ _ !! key) with (@None RedisEntry); [reflexivity|].
    symmetry. apply map_lookup_filter_None. right. intros x Hx Hkeep.
    apply lookup_delete_Some in Hx as [_ Hx]. rewrite He in Hx.
    injection Hx as <-. apply Hkeep. cbn [fst snd]. rewrite Hv. tauto.
  - cbn [memoryCache set_memoryCache].
    destruct (memoryCache w !! key) as [d|] eqn:Hd; [|discriminate].
    destruct (bool_decide (Redis.expired (env_now env) d)); [discriminate|].
    injection Hp as Hv.
    replace (filter _ _ !! key) with (@None CacheEntry); [reflexivity|].
    symmetry. apply map_lookup_filter_None. right. intros x Hx Hkeep.
    apply lookup_delete_Some in Hx as [_ Hx]. rewrite Hd in Hx.
    injection Hx as <-. apply Hkeep. cbn [fst snd]. rewrite Hv. tauto.
Qed.

End DeleteFacts.

(** X17: [deleteRoomData] on a room that is there removes its metadata and
    every room code that maps to it, on the backend it runs on: afterwards
    the room's metadata read as missing, a code that mapped to the room
    resolves to nothing, a code that maps to another room resolves as
    before, and the metadata of every other room read as before. On a room
    that is not there it deletes nothing. *)
Theorem deleteRoomData_effect `{Redis.Json Redis.RoomMetadata}
    `{Redis.Json Redis.RoomCodeMapping}
    (roomId : string) (env env' : Env) (w : World) :
  healthy env -> env_ready env' = env_ready env ->
  env_now env <= env_now env' ->
  let r := Redis.deleteRoomData roomId env w in
  r.1 = Return tt /\
  match metadataAt env w roomId with
  | None => r.2 = swept env w
  | Some _ =>
      metadataAt env' r.2 roomId = None /\
      (forall code mapping,
         mappingAt env w code = Some mapping ->
         Redis.rc_roomId mapping = roomId ->
         mappingAt env' r.2 code = None) /\
      (forall code mapping,
         mappingAt env' w code = Some mapping ->
         Redis.rc_roomId mapping <> roomId ->
         mappingAt env' r.2 code = Some mapping) /\
      (forall other m,
         other <> roomId ->
         metadataAt env' w other = Some m ->
         metadataAt env' r.2 other = Some m)
  end.
Proof.
  intros Hh Hr Hnow r. subst r. rewrite deleteRoomData_ok by assumption.
  cbn [fst snd]. split; [reflexivity|].
  destruct (metadataAt env w roomId) as [m0|]; [|reflexivity].
  split; [|split; [|split]].
  - unfold metadataAt. now rewrite peek_purged_metadata.
  - intros code mapping Hmap Hid. unfold mappingAt in *.
    destruct (peek env w (Redis.roomCodeKey code)) as [v|] eqn:Hp;
      [|discriminate].
    destruct (truthy v) eqn:Htr; [|discriminate].
    rewrite (peek_purged_gone env env' roomId (Redis.roomCodeKey code) v);
      [reflexivity | assumption | | apply roomCodeKey_prefix | assumption |].
    + now rewrite peek_swept by lia.
    + unfold Redis.mapsToRoom. rewrite Hmap, Hid. apply String.eqb_refl.
  - intros code mapping Hmap Hid. unfold mappingAt in *.
    destruct (peek env' w (Redis.roomCodeKey code)) as [v|] eqn:Hp;
      [|discriminate].
    destruct (truthy v) eqn:Htr; [|discriminate].
    rewrite (peek_purged_kept env env' roomId (Redis.roomCodeKey code) v);
      [now rewrite Htr | assumption | apply roomKeys_distinct | |].
    + now rewrite peek_swept by lia.
    + right. unfold Redis.mapsToRoom. rewrite Hmap.
      now apply String.eqb_neq.
  - intros other m Hne Hm. unfold metadataAt in *.
    destruct (peek env' w (Redis.roomMetadataKey other)) as [v|] eqn:Hp;
      [|discriminate].
    rewrite (peek_purged_kept env env' roomId (Redis.roomMetadataKey other) v);
      [exact Hm | assumption | | |].
    + intros Heq. apply roomMetadataKey_inj in Heq. congruence.
    + now rewrite peek_swept by lia.
    + left. apply roomMetadataKey_prefix.
Qed.

(** Two rooms registered under two codes; the first one deleted. *)
Lemma deleteRoomData_effect_witness :
  let w1 := (RoomApi.register "r1" "AAA111" "u1" (redisAt 1000) emptyWorld).2 in
  let w2 := (RoomApi.register "r2" "BBB222" "u2" (redisAt 2000) w1).2 in
  let r := Redis.deleteRoomData "r1" (redisAt 3000) w2 in
  r.1 = Return tt /\
  metadataAt (redisAt 4000) r.2 "r1" = None /\
  mappingAt (redisAt 4000) r.2 "AAA111" = None /\
  mappingAt (redisAt 4000) r.2 "BBB222" =
    Some {| Redis.rc_roomId := "r2"; Redis.rc_hostUserId := "u2" |}.
Proof.
  intros w1 w2 r.
  assert (metadataAt (redisAt 3000) w2 "r1" =
          Some {| Redis.rm_roomId := "r1"; Redis.rm_hostUserId := "u1";
                  Redis.rm_members := ["u1"]; Redis.rm_createdAt := 1000 |})
    as Hm by (vm_compute; reflexivity).
  pose proof (deleteRoomData_effect "r1" (redisAt 3000) (redisAt 4000) w2
                (healthy_redisAt 3000) eq_refl ltac:(cbn; lia)) as Hthm.
  cbv zeta in Hthm. rewrite Hm in Hthm.
  destruct Hthm as (Hres & Hmeta & Hgone & Hkept & _).
  split; [exact Hres|]. split; [exact Hmeta|]. split.
  - apply (Hgone "AAA111" {| Redis.rc_roomId := "r1"; Redis.rc_hostUserId := "u1" |});
      [vm_compute; reflexivity | reflexivity].
  - apply (Hkept "BBB222" {| Redis.rc_roomId := "r2"; Redis.rc_hostUserId := "u2" |});
      [vm_compute; reflexivity | discriminate].
Defined.

(* ===================================================================== *)
(** ** Resolving a code and reading a room (src/api/room.ts) *)
(* ===================================================================== *)

Section RouteFacts.
Context `{Redis.Json Redis.RoomMetadata} `{Redis.Json Redis.RoomCodeMapping}.

(** The WebSocket address GET /join answers with. *)
Definition wsUrlOf (nodeEnv : string) (wsPort : Z) : string :=
  if String.eqb nodeEnv "production"
  then "wss://your-domain.com/ws"
  else "ws://localhost:" +:+ toString (Int wsPort).

Lemma join_ok (nodeEnv : string) (wsPort : Z) (code : string) (env : Env)
    (w : World) :
  healthy env -> code <> "" ->
  RoomApi.join nodeEnv wsPort code env w =
    (Return
       match mappingAt env w code with
       | None => {| RoomApi.join_status := 404;
                    RoomApi.join_body :=
                      RoomApi.JoinError "Room not found or expired" |}
       | Some mapping =>
           {| RoomApi.join_status := 200;
              RoomApi.join_body :=
                RoomApi.JoinBody_ok (Redis.rc_roomId mapping)
                  (wsUrlOf nodeEnv wsPort) |}
       end,
     swept env w).
Proof.
  intros Hh Hc. unfold RoomApi.join, tryCatch, bind.
  rewrite (proj2 (truthy_true _) Hc). cbn [negb].
  rewrite getRoomCodeMapping_ok by assumption.
  destruct (mappingAt env w code); reflexivity.
Qed.

Lemma getRoom_ok (roomId : string) (env : Env) (w : World) :
  healthy env ->
  RoomApi.getRoom roomId env w =
    (Return
       match metadataAt env w roomId with
       | None => {| RoomApi.room_status := 404;
                    RoomApi.room_body :=
                      RoomApi.RoomError "Room not found or expired" |}
       | Some m =>
           {| RoomApi.room_status := 200;
              RoomApi.room_body :=
                RoomApi.RoomInfo (Redis.rm_roomId m) (Redis.rm_hostUserId m)
                  (Z.of_nat (length (Redis.rm_members m))) (Redis.rm_createdAt m) |}
       end,
     swept env w).
Proof.
  intros Hh. unfold RoomApi.getRoom, tryCatch, bind.
  rewrite getRoomMetadata_ok by assumption.
  destruct (metadataAt env w roomId); reflexivity.
Qed.

(** The world a successful registration leaves. *)
Definition registered (env : Env) (roomId code hostUserId : string) (w : World)
    : World :=
  stored env (Redis.roomMetadataKey roomId)
    (Redis.JSON_stringify
       {| Redis.rm_roomId := roomId; Redis.rm_hostUserId := hostUserId;
          Redis.rm_members := [hostUserId]; Redis.rm_createdAt := env_now env |})
    Redis.ROOM_TTL
    (stored env (Redis.roomCodeKey code)
       (Redis.JSON_stringify
          {| Redis.rc_roomId := roomId; Redis.rc_hostUserId := hostUserId |})
       Redis.ROOM_TTL (swept env w)).

Lemma register_world (roomId code hostUserId : string) (env : Env)
    (w : World) :
  healthy env -> roomId <> "" -> code <> "" -> hostUserId <> "" ->
  peek env w (Redis.roomCodeKey code) = None ->
  RoomApi.register roomId code hostUserId env w =
    (Return {| RoomApi.status := 200;
               RoomApi.body := RoomApi.RegisterBody roomId code |},
     registered env roomId code hostUserId w).
Proof.
  intros Hh Hr Hc Hu Hfree. apply truthy_true in Hr, Hc, Hu.
  unfold RoomApi.register, tryCatch, bind, Redis.roomCodeExists.
  rewrite Hr, Hc, Hu. cbn [negb orb].
  rewrite keyExists_ok by assumption. rewrite Hfree.
  rewrite bool_decide_eq_false_2 by (intros [x Hx]; discriminate).
  rewrite saveRoomCode_ok by assumption. unfold dateNow.
  rewrite saveRoomMetadata_ok by assumption. reflexivity.
Qed.

(** The world a successful add-member of a new user leaves. *)
Lemma addMember_new_world (roomId userId : string) (env : Env)
    (w : World) (m : Redis.RoomMetadata) :
  healthy env -> roomId <> "" -> userId <> "" ->
  metadataAt env w roomId = Some m -> Redis.rm_roomId m = roomId ->
  includes (Redis.rm_members m) userId = false ->
  RoomApi.addMember roomId userId env w =
    (Return {| RoomApi.status := 200; RoomApi.body := RoomApi.SuccessBody |},
     set_roomMetadataCache (delete roomId)
       (stored env (Redis.roomMetadataKey roomId)
          (Redis.JSON_stringify (Redis.pushMember m userId)) Redis.ROOM_TTL
          (swept env (swept env w)))).
Proof.
  intros Hh Hr Hu Hm Hid Hnew. apply truthy_true in Hr, Hu.
  unfold RoomApi.addMember, tryCatch. rewrite Hr, Hu. cbn [negb orb].
  unfold bind at 1. rewrite getRoomMetadata_ok by assumption. rewrite Hm.
  unfold bind. rewrite addRoomMember_ok by assumption.
  rewrite metadataAt_swept, Hm, Hnew, Hid by lia. reflexivity.
Qed.

End RouteFacts.

(** X18: a room code lives 7 days from the registration and is never
    renewed, while every add-member of a new user renews the room's own 7
    days. After register (on a free code) and a later add-member, GET /join
    resolves the code to the room id until 7 days after the registration;
    from then on it answers 404 "Room not found or expired", although
    GET /:roomId still answers 200 with the host, the creation instant and
    memberCount 2 until 7 days after the add-member. *)
Theorem code_expires_before_renewed_room `{Redis.Json Redis.RoomMetadata}
    `{Redis.Json Redis.RoomCodeMapping}
    (roomId code hostUserId userId nodeEnv : string) (wsPort : Z)
    (env0 env1 env2 : Env) (w : World) :
  healthy env0 -> healthy env1 -> healthy env2 ->
  env_ready env1 = env_ready env0 -> env_ready env2 = env_ready env0 ->
  roomId <> "" -> code <> "" -> hostUserId <> "" -> userId <> "" ->
  userId <> hostUserId ->
  peek env0 w (Redis.roomCodeKey code) = None ->
  0 <= env_now env0 ->
  env_now env0 <= env_now env1 <= env_now env0 + Redis.ROOM_TTL * 1000 ->
  env_now env1 <= env_now env2 <= env_now env1 + Redis.ROOM_TTL * 1000 ->
  let w1 := (RoomApi.register roomId code hostUserId env0 w).2 in
  let added := RoomApi.addMember roomId userId env1 w1 in
  added.1 = Return {| RoomApi.status := 200;
                      RoomApi.body := RoomApi.SuccessBody |} /\
  (RoomApi.getRoom roomId env2 added.2).1 =
    Return {| RoomApi.room_status := 200;
              RoomApi.room_body :=
                RoomApi.RoomInfo roomId hostUserId 2 (env_now env0) |} /\
  (RoomApi.join nodeEnv wsPort code env2 added.2).1 =
    Return (if env_now env2 <=? env_now env0 + Redis.ROOM_TTL * 1000
            then {| RoomApi.join_status := 200;
                    RoomApi.join_body :=
                      RoomApi.JoinBody_ok roomId (wsUrlOf nodeEnv wsPort) |}
            else {| RoomApi.join_status := 404;
                    RoomApi.join_body :=
                      RoomApi.JoinError "Room not found or expired" |}).
Proof.
  intros Hh0 Hh1 Hh2 Hr1 Hr2 Hroom Hcode Hhost Huser Hneq Hfree Hnow0 Hnow1 Hnow2.
  cbv zeta. rewrite register_world by assumption. cbn [snd].
  set (m0 := {| Redis.rm_roomId := roomId; Redis.rm_hostUserId := hostUserId;
                Redis.rm_members := [hostUserId];
                Redis.rm_createdAt := env_now env0 |}).
  assert (metadataAt env1 (registered env0 roomId code hostUserId w) roomId =
          Some m0) as Hm0.
  { apply (metadataAt_stored env0 env1 m0); [assumption | lia]. }
  assert (includes (Redis.rm_members m0) userId = false) as Hnew.
  { cbn. rewrite orb_false_r. now apply String.eqb_neq. }
  rewrite (addMember_new_world roomId userId env1 _ m0) by
    (assumption || reflexivity).
  cbn [fst snd]. split; [reflexivity|]. split.
  - rewrite getRoom_ok by assumption. cbn [fst]. f_equal.
    replace (metadataAt env2 _ roomId) with (Some (Redis.pushMember m0 userId));
      [reflexivity|].
    symmetry. unfold metadataAt. rewrite peek_set_roomMetadataCache.
    rewrite peek_stored_same by (congruence || lia). apply parse_stored.
  - rewrite join_ok by assumption. cbn [fst]. f_equal.
    unfold mappingAt. rewrite peek_set_roomMetadataCache.
    rewrite peek_stored_other
      by (intros Heq; symmetry in Heq; revert Heq; apply roomKeys_distinct).
    rewrite !peek_swept by lia. unfold registered.
    rewrite peek_stored_other
      by (intros Heq; symmetry in Heq; revert Heq; apply roomKeys_distinct).
    pose proof ROOM_TTL_pos as Httl.
    destruct (env_now env2 <=? env_now env0 + Redis.ROOM_TTL * 1000) eqn:Hle.
    + apply Z.leb_le in Hle. rewrite peek_stored_same by assumption.
      now rewrite parse_stored.
    + apply Z.leb_gt in Hle.
      rewrite peek_stored_expired by (assumption || lia). reflexivity.
Qed.

(** Registered at day 0, a guest added at day 6: at day 8 the code is gone
    and the room is still there. *)
Lemma code_expires_before_renewed_room_witness :
  let day := 24 * 60 * 60 * 1000 in
  let w1 := (RoomApi.register "r1" "ABC123" "u1" (inProcessAt 0) emptyWorld).2 in
  let added := RoomApi.addMember "r1" "u2" (inProcessAt (6 * day)) w1 in
  (RoomApi.getRoom "r1" (inProcessAt (8 * day)) added.2).1 =
    Return {| RoomApi.room_status := 200;
              RoomApi.room_body := RoomApi.RoomInfo "r1" "u1" 2 0 |} /\
  (RoomApi.join "development" 1234 "ABC123" (inProcessAt (8 * day)) added.2).1 =
    Return {| RoomApi.join_status := 404;
              RoomApi.join_body :=
                RoomApi.JoinError "Room not found or expired" |}.
Proof.
  intros day w1 added.
  exact (proj2 (code_expires_before_renewed_room "r1" "ABC123" "u1" "u2"
                  "development" 1234 (inProcessAt 0) (inProcessAt (6 * day))
                  (inProcessAt (8 * day)) emptyWorld
                  (healthy_inProcessAt _) (healthy_inProcessAt _)
                  (healthy_inProcessAt _) eq_refl eq_refl
                  ltac:(discriminate) ltac:(discriminate) ltac:(discriminate)
                  ltac:(discriminate) ltac:(discriminate) eq_refl
                  ltac:(cbn; lia) ltac:(vm_compute; split; discriminate)
                  ltac:(vm_compute; split; discriminate))).
Defined.

(* ===================================================================== *)
(** ** The membership cache over time (src/middleware/room-isolation.ts) *)
(* ===================================================================== *)

Section CacheOverTime.
Context `{Redis.Json Redis.RoomMetadata}.

(** What a read-through returns does not depend on the membership cache. *)
Lemma readThrough_cache_irrelevant (roomId : string) (env : Env) (w : World)
    (f : gmap string CachedMembers -> gmap string CachedMembers) :
  (RoomIsolation.readThrough roomId env (set_roomMetadataCache f w)).1 =
    (RoomIsolation.readThrough roomId env w).1.
Proof.
  destruct (healthy_dec env) as [Hh|Hh].
  - rewrite !readThrough_ok by assumption.
    replace (metadataAt env (set_roomMetadataCache f w) roomId)
      with (metadataAt env w roomId) by reflexivity.
    now destruct (metadataAt env w roomId).
  - unfold RoomIsolation.readThrough, bind.
    now rewrite !getRoomMetadata_faulty by assumption.
Qed.

End CacheOverTime.

(** X19: the periodic [cleanupCache] cannot be observed through the
    membership reads: it leaves the store alone, keeps every entry that has
    not expired, and [getCachedRoomMembers] returns at the same or any later
    instant what it would have returned without the cleanup. *)
Theorem cleanupCache_unobservable `{Redis.Json Redis.RoomMetadata}
    (roomId : string) (env env' : Env) (w : World) :
  env_now env <= env_now env' ->
  let w' := (RoomIsolation.cleanupCache env w).2 in
  (RoomIsolation.getCachedRoomMembers roomId env' w').1 =
    (RoomIsolation.getCachedRoomMembers roomId env' w).1 /\
  (forall cached,
     roomMetadataCache w !! roomId = Some cached ->
     env_now env <= cm_expiresAt cached ->
     roomMetadataCache w' !! roomId = Some cached) /\
  redis w' = redis w /\ memoryCache w' = memoryCache w.
Proof.
  intros Hnow. cbv zeta. unfold RoomIsolation.cleanupCache. cbn [snd].
  split; [|split; [|split; reflexivity]].
  - unfold RoomIsolation.getCachedRoomMembers, bind, RoomIsolation.cacheGet,
      dateNow. cbn [roomMetadataCache set_roomMetadataCache].
    destruct (roomMetadataCache w !! roomId) as [cached|] eqn:Hc.
    + destruct (decide (cm_expiresAt cached < env_now env)) as [Hold|Hlive].
      * replace (filter _ _ !! roomId) with (@None CachedMembers)
          by (symmetry; apply map_lookup_filter_None; right;
              intros x Hx; rewrite Hc in Hx; injection Hx as <-; cbn; tauto).
        replace (env_now env' <? cm_expiresAt cached) with false
          by (symmetry; apply Z.ltb_ge; lia).
        apply readThrough_cache_irrelevant.
      * replace (filter _ _ !! roomId) with (Some cached)
          by (symmetry; apply map_lookup_filter_Some; split; [exact Hc|exact Hlive]).
        destruct (env_now env' <? cm_expiresAt cached); [reflexivity|].
        apply readThrough_cache_irrelevant.
    + replace (filter _ _ !! roomId) with (@None CachedMembers)
        by (symmetry; apply map_lookup_filter_None; now left).
      apply readThrough_cache_irrelevant.
  - intros cached Hc Hlive. cbn [roomMetadataCache set_roomMetadataCache].
    apply map_lookup_filter_Some. split; [exact Hc|]. cbn. lia.
Qed.

Lemma cleanupCache_unobservable_witness :
  let w := (RoomIsolation.getCachedRoomMembers "r1" (inProcessAt 1000)
              (RoomApi.register "r1" "ABC123" "u1" (inProcessAt 0) emptyWorld).2).2 in
  (RoomIsolation.getCachedRoomMembers "r1" (inProcessAt 400000)
     (RoomIsolation.cleanupCache (inProcessAt 300000) w).2).1 =
    (RoomIsolation.getCachedRoomMembers "r1" (inProcessAt 400000) w).1.
Proof.
  intros w.
  exact (proj1 (cleanupCache_unobservable "r1" (inProcessAt 300000)
                  (inProcessAt 400000) w ltac:(cbn; lia))).
Defined.

(** X20: the membership cache is not told when a room is deleted.
    [deleteRoomData] leaves [roomMetadataCache] as it is, so a user cached as
    a member keeps passing [validateRoomAccess] and [validateRoomMembership]
    for the room's documents until the cache entry expires (at most 60
    seconds after the read that cached it), although the room's metadata
    are gone from the store. *)
Theorem cached_members_outlive_room `{Redis.Json Redis.RoomMetadata}
    `{Redis.Json Redis.RoomCodeMapping}
    (roomId userId documentName socketId : string) (cached : CachedMembers)
    (env1 env2 : Env) (w : World) :
  healthy env1 -> env_ready env2 = env_ready env1 ->
  env_now env1 <= env_now env2 ->
  Auth.extractRoomIdFromDocumentName documentName = Some roomId ->
  roomMetadataCache w !! roomId = Some cached ->
  In userId (cm_members cached) ->
  env_now env2 < cm_expiresAt cached ->
  let w1 := (Redis.deleteRoomData roomId env1 w).2 in
  metadataAt env2 w1 roomId = None /\
  (RoomIsolation.validateRoomAccess userId documentName env2 w1).1 =
    Return {| RoomIsolation.ri_success := true;
              RoomIsolation.ri_roomId := Some roomId;
              RoomIsolation.ri_error := None |} /\
  (RoomIsolation.validateRoomMembership userId documentName socketId env2 w1).1 =
    Return tt.
Proof.
  intros Hh Hr Hnow Hdoc Hc Hin Hlive. cbv zeta.
  rewrite deleteRoomData_ok by assumption. cbn [snd].
  set (w1 := match metadataAt env1 w roomId with
             | Some _ => purged env1 roomId (swept env1 w)
             | None => swept env1 w
             end).
  assert (roomMetadataCache w1 !! roomId = Some cached) as Hc1.
  { subst w1. destruct (metadataAt env1 w roomId); unfold purged, swept;
      destruct (env_ready env1); exact Hc. }
  assert (RoomIsolation.validateRoomAccess userId documentName env2 w1 =
          (Return {| RoomIsolation.ri_success := true;
                     RoomIsolation.ri_roomId := Some roomId;
                     RoomIsolation.ri_error := None |}, w1)) as Hacc.
  { unfold RoomIsolation.validateRoomAccess. rewrite Hdoc.
    apply extractRoomId_iff in Hdoc as (Hne & _).
    rewrite (proj2 (truthy_true _) Hne). cbn [negb]. unfold bind.
    rewrite (getCachedRoomMembers_hit roomId env2 w1 cached Hc1 Hlive).
    now rewrite (proj2 (includes_In _ _) Hin). }
  split; [|split].
  - subst w1. destruct (metadataAt env1 w roomId) as [m|] eqn:Hm.
    + unfold metadataAt. now rewrite peek_purged_metadata.
    + rewrite metadataAt_swept by assumption. unfold metadataAt in *.
      destruct (peek_later env1 env2 w (Redis.roomMetadataKey roomId) Hr Hnow)
        as [-> | ->]; [reflexivity | exact Hm].
  - now rewrite Hacc.
  - unfold RoomIsolation.validateRoomMembership, bind. now rewrite Hacc.
Qed.

(** A host connects (which caches the members), the room is deleted two
    seconds later, and three seconds after that the host still passes. *)
Lemma cached_members_outlive_room_witness :
  let w0 := (RoomApi.register "r1" "ABC123" "u1" (redisAt 1000) emptyWorld).2 in
  let w := (RoomIsolation.validateRoomAccess "u1" "room:r1:main"
              (redisAt 2000) w0).2 in
  let w1 := (Redis.deleteRoomData "r1" (redisAt 4000) w).2 in
  metadataAt (redisAt 7000) w1 "r1" = None /\
  (RoomIsolation.validateRoomMembership "u1" "room:r1:main" "socket-1"
     (redisAt 7000) w1).1 = Return tt.
Proof.
  intros w0 w w1.
  destruct (cached_members_outlive_room "r1" "u1" "room:r1:main" "socket-1"
              {| cm_members := ["u1"]; cm_expiresAt := 62000 |}
              (redisAt 4000) (redisAt 7000) w (healthy_redisAt 4000) eq_refl
              ltac:(cbn; lia) eq_refl ltac:(vm_compute; reflexivity)
              ltac:(now left) ltac:(cbn; lia)) as (Hgone & _ & Hpass).
  split; [exact Hgone | exact Hpass].
Defined.

(* ===================================================================== *)
(** ** The IP gauge over time *)
(* ===================================================================== *)

(** X21: the gauge of an IP lives one hour from its last write. When no
    connection of the IP is accepted or released for more than an hour after
    an accepted connect, the count reads 0 again, whatever number of
    connections are still open: a release then changes nothing, and a new
    connect is accepted (for a cap above 0) and counted as the first. *)
Theorem gauge_forgets_after_an_hour (cfg : Config) (clientIp : string)
    (env env' : Env) (w : World) :
  healthy env -> healthy env' -> env_ready env' = env_ready env ->
  0 <= env_now env ->
  env_now env + 3600 * 1000 < env_now env' ->
  let connected := RateLimit.trackIpConnection cfg clientIp env w in
  connected.1 = Return true ->
  (RateLimit.getIpConnectionCount clientIp env' connected.2).1 = Return (Int 0) /\
  (RateLimit.getIpConnectionCount clientIp env'
     (RateLimit.releaseIpConnection clientIp env' connected.2).2).1 =
    Return (Int 0) /\
  (0 < rateLimitConnectionsPerIp cfg ->
   let again := RateLimit.trackIpConnection cfg clientIp env' connected.2 in
   again.1 = Return true /\
   (RateLimit.getIpConnectionCount clientIp env' again.2).1 = Return (Int 1)).
Proof.
  intros Hh Hh' Hr Hnow Hlate connected. subst connected.
  rewrite trackIpConnection_ok by assumption. cbv zeta.
  destruct (Js.geb _ _); cbn [fst snd]; [discriminate|]. intros _.
  set (c1 := Js.add (RateLimit.countOf
                       (peek env w (RateLimit.connectionsKey clientIp))) 1).
  set (w1 := set_ipConnectionCounts (insert clientIp c1)
               (stored env (RateLimit.connectionsKey clientIp) (toString c1)
                  3600 (swept env w))).
  assert (peek env' w1 (RateLimit.connectionsKey clientIp) = None) as Hgone.
  { subst w1.
    change (peek env' (stored env (RateLimit.connectionsKey clientIp)
                         (toString c1) 3600 (swept env w))
              (RateLimit.connectionsKey clientIp) = None).
    apply peek_stored_expired; [assumption | lia | lia]. }
  split; [|split].
  - rewrite getIpConnectionCount_ok by assumption. cbn [fst]. now rewrite Hgone.
  - rewrite releaseIpConnection_ok by assumption. cbv zeta. rewrite Hgone.
    cbn [truthy_opt andb snd].
    rewrite getIpConnectionCount_ok by assumption. cbn [fst].
    rewrite peek_swept by lia. now rewrite Hgone.
  - intros Hcap. cbv zeta. rewrite trackIpConnection_ok by assumption.
    cbv zeta. rewrite Hgone. cbn [RateLimit.countOf truthy_opt Js.geb Js.add].
    replace (rateLimitConnectionsPerIp cfg <=? 0) with false
      by (symmetry; apply Z.leb_gt; lia).
    cbn [fst snd]. split; [reflexivity|].
    rewrite getIpConnectionCount_ok by assumption. cbn [fst].
    change (Return (RateLimit.countOf
                      (peek env' (stored env' (RateLimit.connectionsKey clientIp)
                                    (toString (Int (0 + 1))) 3600 (swept env' w1))
                         (RateLimit.connectionsKey clientIp))) =
            Return (Int 1)).
    rewrite peek_stored_same by (reflexivity || lia). reflexivity.
Qed.

(** One connection opened at second 1; one hour and one second later the
    count reads 0. *)
Lemma gauge_forgets_after_an_hour_witness :
  let connected := RateLimit.trackIpConnection defaultConfig "10.0.0.1"
                     (redisAt 1000) emptyWorld in
  (RateLimit.getIpConnectionCount "10.0.0.1" (redisAt 3602000) connected.2).1 =
    Return (Int 0).
Proof.
  intros connected.
  exact (proj1 (gauge_forgets_after_an_hour defaultConfig "10.0.0.1"
                  (redisAt 1000) (redisAt 3602000) emptyWorld
                  (healthy_redisAt _) (healthy_redisAt _) eq_refl
                  ltac:(cbn; lia) ltac:(cbn; lia) eq_refl)).
Defined.

(* ===================================================================== *)
(** ** From registration to an open connection *)
(* ===================================================================== *)

Section Journey.
Context `{Redis.Json Redis.RoomMetadata} `{Redis.Json Redis.RoomCodeMapping}
  `{Auth.Jwt}.

Lemma getToken_guest_world (cfg : Config) (userId roomId : string) (env : Env)
    (w : World) (m : Redis.RoomMetadata) :
  healthy env -> userId <> "" -> roomId <> "" ->
  metadataAt env w roomId = Some m -> In userId (Redis.rm_members m) ->
  RoomApi.getToken cfg userId roomId "guest" env w =
    (Return (signedAnswer
               (Auth.generateToken cfg (env_now env) userId roomId Auth.guest)),
     swept env w).
Proof.
  intros Hh Hu Hr Hm Hin. apply includes_In in Hin.
  rewrite (getToken_ok cfg userId roomId Auth.guest env w Hh Hu Hr).
  now rewrite Hm, Hin.
Qed.

(** The room a registration and one add-member leave, as a later read on
    the same backend finds it. *)
Lemma metadataAt_after_addMember (roomId code hostUserId userId : string)
    (env0 env1 env' : Env) (w : World) :
  let m1 := {| Redis.rm_roomId := roomId; Redis.rm_hostUserId := hostUserId;
               Redis.rm_members := [hostUserId; userId];
               Redis.rm_createdAt := env_now env0 |} in
  let w2 := set_roomMetadataCache (delete roomId)
              (stored env1 (Redis.roomMetadataKey roomId)
                 (Redis.JSON_stringify m1) Redis.ROOM_TTL
                 (swept env1 (swept env1
                    (registered env0 roomId code hostUserId w)))) in
  env_ready env' = env_ready env1 ->
  env_now env' <= env_now env1 + Redis.ROOM_TTL * 1000 ->
  metadataAt env' w2 roomId = Some m1.
Proof.
  intros m1 w2 Hr Hnow. subst w2. unfold metadataAt.
  rewrite peek_set_roomMetadataCache.
  rewrite peek_stored_same by assumption. apply parse_stored.
Qed.

Lemma peek_set_ipConnectionCounts (env : Env) (w : World) (key : string)
    (f : gmap string number -> gmap string number) :
  peek env (set_ipConnectionCounts f w) key = peek env w key.
Proof. reflexivity. Qed.

Lemma connectionsKey_not_room (clientIp roomId : string) :
  RateLimit.connectionsKey clientIp <> Redis.roomMetadataKey roomId.
Proof. discriminate. Qed.

Lemma connectionsKey_not_code (clientIp code : string) :
  RateLimit.connectionsKey clientIp <> Redis.roomCodeKey code.
Proof. discriminate. Qed.

End Journey.

(** X22: the path from a registration to an open connection works. After
    register (on a free code) and add-member of a guest, get-token with role
    guest answers 200 with a token; [onAuthenticate] on that token and a
    document "room:<roomId>:<anything>" returns the guest's identity; and
    [onConnect] with that identity returns normally, as long as the room id
    has no colon, the IP is below its cap, each step follows the one before
    on the same backend, and the connection comes within 7 days of the
    add-member and of the token. The signing secret is not empty. *)
Theorem registered_guest_connects `{Redis.Json Redis.RoomMetadata}
    `{Redis.Json Redis.RoomCodeMapping} `{Auth.Jwt}
    (cfg : Config)
    (roomId code hostUserId userId suffix socketId clientIp : string)
    (env0 env1 env2 env3 : Env) (w : World) :
  healthy env0 -> healthy env1 -> healthy env2 -> healthy env3 ->
  env_ready env1 = env_ready env0 -> env_ready env2 = env_ready env0 ->
  env_ready env3 = env_ready env0 ->
  roomId <> "" -> colonFree roomId -> code <> "" -> hostUserId <> "" ->
  userId <> "" -> userId <> hostUserId -> jwtSecret cfg <> "" ->
  peek env0 w (Redis.roomCodeKey code) = None ->
  0 <= env_now env0 ->
  env_now env0 <= env_now env1 <= env_now env0 + Redis.ROOM_TTL * 1000 ->
  env_now env1 <= env_now env2 ->
  env_now env2 <= env_now env3 <= env_now env2 + Redis.ROOM_TTL * 1000 ->
  env_now env3 <= env_now env1 + Redis.ROOM_TTL * 1000 ->
  Js.geb (RateLimit.countOf (peek env3 w (RateLimit.connectionsKey clientIp)))
    (rateLimitConnectionsPerIp cfg) = false ->
  let documentName := "room:" +:+ roomId +:+ ":" +:+ suffix in
  let w1 := (RoomApi.register roomId code hostUserId env0 w).2 in
  let w2 := (RoomApi.addMember roomId userId env1 w1).2 in
  let answered := RoomApi.getToken cfg userId roomId "guest" env2 w2 in
  let identity := {| Auth.id_userId := userId; Auth.id_role := "guest" |} in
  exists token,
    Auth.generateToken cfg (env_now env2) userId roomId Auth.guest =
      Return (token, env_now env2 + 7 * 24 * 60 * 60 * 1000) /\
    answered.1 =
      Return (tokenAnswer (token, env_now env2 + 7 * 24 * 60 * 60 * 1000)) /\
    Auth.onAuthenticate cfg (env_now env3) (Some token) documentName =
      Return identity /\
    (Index.onConnect cfg documentName socketId (Some identity) clientIp env3
       answered.2).1 = Return tt.
Proof.
  intros Hh0 Hh1 Hh2 Hh3 Hr1 Hr2 Hr3 Hroom Hcf Hcode Hhost Huser Hneq Hsecret
    Hfree Hnow0 Hnow1 Hnow2 Hnow3 Hroom3 Hgauge.
  cbv zeta. rewrite register_world by assumption. cbn [snd].
  set (m0 := {| Redis.rm_roomId := roomId; Redis.rm_hostUserId := hostUserId;
                Redis.rm_members := [hostUserId];
                Redis.rm_createdAt := env_now env0 |}).
  assert (metadataAt env1 (registered env0 roomId code hostUserId w) roomId =
          Some m0) as Hm0
    by (apply (metadataAt_stored env0 env1 m0); [assumption | lia]).
  assert (includes (Redis.rm_members m0) userId = false) as Hnew
    by (cbn; rewrite orb_false_r; now apply String.eqb_neq).
  rewrite (addMember_new_world roomId userId env1 _ m0)
    by (assumption || reflexivity).
  cbn [snd].
  set (m1 := {| Redis.rm_roomId := roomId; Redis.rm_hostUserId := hostUserId;
                Redis.rm_members := [hostUserId; userId];
                Redis.rm_createdAt := env_now env0 |}).
  change (Redis.JSON_stringify (Redis.pushMember m0 userId))
    with (Redis.JSON_stringify m1).
  set (w2 := set_roomMetadataCache (delete roomId) _).
  assert (forall env', env_ready env' = env_ready env1 ->
            env_now env' <= env_now env1 + Redis.ROOM_TTL * 1000 ->
            metadataAt env' w2 roomId = Some m1) as Hm1.
  { intros env' Hr' Hn'.
    exact (metadataAt_after_addMember roomId code hostUserId userId env0 env1
             env' w Hr' Hn'). }
  assert (Auth.extractRoomIdFromDocumentName
            ("room:" +:+ roomId +:+ ":" +:+ suffix) = Some roomId) as Hdoc
    by (apply extractRoomId_iff; eauto).
  rewrite (getToken_guest_world cfg userId roomId env2 w2 m1)
    by (assumption || (apply Hm1; [congruence | lia]) || (right; now left)).
  cbn [fst snd].
  destruct (generateToken_returns cfg (env_now env2) userId roomId Auth.guest
              Hsecret) as (token & Hissued & _).
  exists token. rewrite Hissued. cbn [signedAnswer].
  split; [reflexivity|]. split; [reflexivity|]. split.
  - pose proof (onAuthenticate_issued cfg (env_now env2) (env_now env3) userId
                  roomId Auth.guest ("room:" +:+ roomId +:+ ":" +:+ suffix)
                  Huser Hroom Hsecret ltac:(lia)
                  ltac:(unfold Redis.ROOM_TTL in *; lia)) as Hauth.
    rewrite Hissued in Hauth. cbn [tokenOf fst] in Hauth.
    rewrite Hauth, Hdoc, String.eqb_refl. reflexivity.
  - unfold Index.onConnect, bind.
    rewrite trackIpConnection_ok by assumption. cbv zeta.
    assert (peek env3 (swept env2 w2) (RateLimit.connectionsKey clientIp) =
            peek env3 w (RateLimit.connectionsKey clientIp)) as Hsame.
    { rewrite peek_swept by lia. subst w2.
      rewrite peek_set_roomMetadataCache.
      rewrite peek_stored_other
        by (intros Heq; symmetry in Heq; revert Heq; apply connectionsKey_not_room).
      rewrite !peek_swept by lia. unfold registered.
      rewrite peek_stored_other
        by (intros Heq; symmetry in Heq; revert Heq; apply connectionsKey_not_room).
      rewrite peek_stored_other
        by (intros Heq; symmetry in Heq; revert Heq; apply connectionsKey_not_code).
      now rewrite peek_swept by lia. }
    rewrite Hsame, Hgauge. cbn [negb].
    apply validateRoomMembership_iff. exists roomId, [hostUserId; userId].
    split; [exact Hdoc|]. split; [|right; now left].
    rewrite getCachedRoomMembers_miss.
    + rewrite readThrough_ok by assumption.
      replace (metadataAt env3 _ roomId) with (Some m1); [reflexivity|].
      symmetry. unfold metadataAt. rewrite peek_set_ipConnectionCounts.
      rewrite peek_stored_other by apply connectionsKey_not_room.
      rewrite !peek_swept by lia.
      apply (Hm1 env3); [congruence | lia].
    + intros cached Hc. exfalso. revert Hc.
      cbn [roomMetadataCache set_ipConnectionCounts].
      rewrite stored_roomMetadataCache, !swept_roomMetadataCache. subst w2.
      cbn [roomMetadataCache set_roomMetadataCache].
      now rewrite lookup_delete_eq.
Qed.

(** Host u1 registers r1, guest u2 is added, asks for a token and connects. *)
Lemma registered_guest_connects_witness :
  let w1 := (RoomApi.register "r1" "ABC123" "u1" (inProcessAt 1000) emptyWorld).2 in
  let w2 := (RoomApi.addMember "r1" "u2" (inProcessAt 2000) w1).2 in
  let answered := RoomApi.getToken defaultConfig "u2" "r1" "guest"
                    (inProcessAt 3000) w2 in
  let identity := {| Auth.id_userId := "u2"; Auth.id_role := "guest" |} in
  exists token,
    Auth.generateToken defaultConfig 3000 "u2" "r1" Auth.guest =
      Return (token, 3000 + 7 * 24 * 60 * 60 * 1000) /\
    answered.1 =
      Return (tokenAnswer (token, 3000 + 7 * 24 * 60 * 60 * 1000)) /\
    Auth.onAuthenticate defaultConfig 4000 (Some token) "room:r1:main" =
      Return identity /\
    (Index.onConnect defaultConfig "room:r1:main" "socket-1" (Some identity)
       "10.0.0.1" (inProcessAt 4000) answered.2).1 = Return tt.
Proof.
  apply (registered_guest_connects defaultConfig "r1" "ABC123" "u1" "u2" "main"
           "socket-1" "10.0.0.1" (inProcessAt 1000) (inProcessAt 2000)
           (inProcessAt 3000) (inProcessAt 4000) emptyWorld);
    try apply healthy_inProcessAt; try reflexivity; try discriminate;
    try (cbn; lia); try (vm_compute; split; discriminate).
  cbn. repeat split; discriminate.
Defined.

(* ===================================================================== *)
(** ** When Redis rejects commands *)
(* ===================================================================== *)

Lemma unhealthy_env (env : Env) :
  env_ready env = true -> env_fault env = true -> ~ healthy env.
Proof. intros Hr Hf Hh. specialize (Hh Hr). congruence. Qed.

Lemma keyExists_faulty (key : string) (env : Env) (w : World) :
  env_ready env = true -> env_fault env = true ->
  Redis.keyExists key env w = (Throw Redis.commandRejected, w).
Proof.
  intros Hr Hf. unfold Redis.keyExists. run_m. now rewrite Hr, Hf.
Qed.

(** The Redis client is ready and rejects the command sent in this piece. *)
Definition rejecting (env : Env) : Prop :=
  env_ready env = true /\ env_fault env = true.

Lemma rejecting_unhealthy (env : Env) : rejecting env -> ~ healthy env.
Proof. intros (Hr & Hf). now apply unhealthy_env. Qed.

Lemma swept_onRedis (env : Env) (w : World) :
  env_ready env = true -> swept env w = w.
Proof. intros Hr. unfold swept. now rewrite Hr. Qed.

(** X23: how the room API fails when Redis rejects a command, command by
    command; the handlers are cut at their [await]s and each piece runs in
    its own environment. The answer is always 500 "Internal server error".
    get-token, GET /join and GET /:roomId send one command and leave the
    store as it was. add-member sends up to three (the handler's read, the
    read and the write of [addRoomMember]): whichever is rejected, nothing
    has been written. register sends three (EXISTS on the code, SETEX of the
    code mapping, SETEX of the metadata): rejected at the first or the
    second, nothing has been written; rejected at the third, the code
    mapping is written and stays, so that the code resolves to the room
    while the room's metadata are what they were before (none, for a new
    room). *)
Theorem room_api_store_failure `{Redis.Json Redis.RoomMetadata}
    `{Redis.Json Redis.RoomCodeMapping} `{Auth.Jwt}
    (cfg : Config) (roomId code userId nodeEnv : string) (wsPort : Z)
    (role : Auth.Role) (e1 e2 bad : Env) (rest : list Env) (w : World) :
  onBackend true e1 -> onBackend true e2 -> rejecting bad ->
  roomId <> "" -> code <> "" -> userId <> "" ->
  let fails := fun (t : Async.task RoomApi.Response) (before : list Env)
                   (w' : World) =>
    Async.runEach t (before ++ bad :: rest) w =
      (Async.Done (Return internalError), w') in
  let mapping := {| Redis.rc_roomId := roomId; Redis.rc_hostUserId := userId |} in
  let half := stored e2 (Redis.roomCodeKey code) (Redis.JSON_stringify mapping)
                Redis.ROOM_TTL w in
  (RoomApi.getToken cfg userId roomId (Auth.role_name role) bad w =
     (Return internalError, w) /\
   RoomApi.join nodeEnv wsPort code bad w =
     (Return {| RoomApi.join_status := 500;
                RoomApi.join_body := RoomApi.JoinError "Internal server error" |},
      w) /\
   RoomApi.getRoom roomId bad w =
     (Return {| RoomApi.room_status := 500;
                RoomApi.room_body := RoomApi.RoomError "Internal server error" |},
      w)) /\
  (fails (Async.addMemberT roomId userId) [] w /\
   (is_Some (metadataAt e1 w roomId) ->
    fails (Async.addMemberT roomId userId) [e1] w /\
    forall m, metadataAt e2 w roomId = Some m ->
              includes (Redis.rm_members m) userId = false ->
              fails (Async.addMemberT roomId userId) [e1; e2] w)) /\
  (fails (Async.registerT roomId code userId) [] w /\
   (peek e1 w (Redis.roomCodeKey code) = None ->
    fails (Async.registerT roomId code userId) [e1] w /\
    fails (Async.registerT roomId code userId) [e1; e2] half /\
    mappingAt e2 half code = Some mapping /\
    metadataAt e2 half roomId = metadataAt e2 w roomId)).
Proof.
  intros (Hr1 & Hf1) (Hr2 & Hf2) (Hr & Hf) Hroom Hcode Huser fails mapping half.
  pose proof (unhealthy_env bad Hr Hf) as Hbad.
  assert (healthy e1) as Hh1 by (intros _; exact Hf1).
  assert (healthy e2) as Hh2 by (intros _; exact Hf2).
  apply truthy_true in Hroom, Hcode, Huser.
  assert (truthy (Auth.role_name role) = true) as Hrole by now destruct role.
  split; [|split].
  - split; [|split].
    + unfold RoomApi.getToken, tryCatch. rewrite Hroom, Huser, Hrole.
      cbn [negb orb]. rewrite roleOf_role_name. unfold bind at 1.
      now rewrite getRoomMetadata_faulty.
    + unfold RoomApi.join, tryCatch. rewrite Hcode. cbn [negb].
      unfold bind at 1, Redis.getRoomCodeMapping. unfold bind at 1.
      now rewrite getValue_faulty.
    + unfold RoomApi.getRoom, tryCatch. unfold bind at 1.
      now rewrite getRoomMetadata_faulty.
  - subst fails. cbv beta. unfold Async.addMemberT. rewrite Hroom, Huser.
    cbn [negb orb Async.catchT Async.bindT Async.callT app].
    split.
    + cbn [Async.runEach Async.step]. unfold Async.attempt.
      rewrite getRoomMetadata_faulty by assumption.
      unfold Async.respondT. now rewrite runEach_done.
    + intros [m1 Hm1].
      cbn [Async.runEach Async.step]. unfold Async.attempt.
      rewrite getRoomMetadata_ok by assumption. rewrite Hm1.
      rewrite (swept_onRedis e1) by assumption.
      unfold Async.addRoomMemberT.
      cbn [Async.catchT Async.bindT Async.callT].
      split.
      * cbn [Async.runEach Async.step]. unfold Async.attempt.
        rewrite getRoomMetadata_faulty by assumption.
        unfold Async.respondT. now rewrite runEach_done.
      * intros m Hm Hin.
        cbn [Async.runEach Async.step]. unfold Async.attempt.
        rewrite getRoomMetadata_ok by assumption. rewrite Hm.
        rewrite (swept_onRedis e2) by assumption. rewrite Hin.
        cbn [negb Async.catchT Async.bindT Async.callT Async.runEach Async.step].
        unfold Async.attempt, Redis.saveRoomMetadata.
        rewrite setValue_faulty by assumption.
        unfold Async.respondT. now rewrite runEach_done.
  - subst fails. cbv beta. unfold Async.registerT. rewrite Hroom, Hcode, Huser.
    cbn [negb orb Async.catchT Async.bindT Async.callT app].
    split.
    + cbn [Async.runEach Async.step]. unfold Async.attempt, Redis.roomCodeExists.
      rewrite keyExists_faulty by assumption.
      unfold Async.respondT. now rewrite runEach_done.
    + intros Hfree.
      cbn [Async.runEach Async.step]. unfold Async.attempt, Redis.roomCodeExists.
      rewrite keyExists_ok by assumption. rewrite Hfree.
      rewrite bool_decide_eq_false_2 by (intros [x Hx]; discriminate).
      rewrite (swept_onRedis e1) by assumption.
      cbn [Async.catchT Async.bindT Async.callT].
      split; [|split; [|split]].
      * cbn [Async.runEach Async.step]. unfold Async.attempt, Redis.saveRoomCode.
        rewrite setValue_faulty by assumption.
        unfold Async.respondT. now rewrite runEach_done.
      * cbn [Async.runEach Async.step]. unfold Async.attempt.
        rewrite saveRoomCode_ok by assumption.
        cbn [Async.catchT Async.bindT Async.callT Async.runEach Async.step].
        unfold Async.attempt, bind, dateNow, Redis.saveRoomMetadata.
        rewrite setValue_faulty by assumption.
        unfold Async.respondT. now rewrite runEach_done.
      * subst half. apply mappingAt_stored; [reflexivity|].
        pose proof ROOM_TTL_pos. lia.
      * subst half. unfold metadataAt. rewrite peek_stored_other; [reflexivity|].
        apply roomKeys_distinct.
Qed.

(** Registration of room r1 under code ABC123 whose third command is
    rejected: the answer is 500, and afterwards the code resolves to r1
    though r1 has no metadata. *)
Lemma room_api_store_failure_witness :
  let bad := {| env_now := 1002; env_ready := true; env_fault := true |} in
  let r := Async.runEach (Async.registerT "r1" "ABC123" "u1")
             [redisAt 1000; redisAt 1001; bad] emptyWorld in
  r.1 = Async.Done (Return internalError) /\
  mappingAt (redisAt 1001) r.2 "ABC123" =
    Some {| Redis.rc_roomId := "r1"; Redis.rc_hostUserId := "u1" |} /\
  metadataAt (redisAt 1001) r.2 "r1" = None.
Proof.
  intros bad r.
  destruct (room_api_store_failure defaultConfig "r1" "ABC123" "u1"
              "development" 1234 Auth.guest (redisAt 1000) (redisAt 1001) bad []
              emptyWorld (conj eq_refl eq_refl) (conj eq_refl eq_refl)
              (conj eq_refl eq_refl)
              ltac:(discriminate) ltac:(discriminate) ltac:(discriminate))
    as (_ & _ & _ & Hreg).
  destruct (Hreg eq_refl) as (_ & Hrun & Hmap & Hmeta).
  subst r. cbn [app] in Hrun. rewrite Hrun. cbn [fst snd].
  split; [reflexivity|]. split; [exact Hmap|]. rewrite Hmeta. reflexivity.
Defined.

(** The call [t], run from [w] with no other call in between, gets through
    the pieces [before], then sends a command that Redis rejects: it throws
    and leaves [w']. *)
Definition rejectedAfter {A} (t : Async.task A) (before : list Env) (bad : Env)
    (rest : list Env) (w w' : World) : Prop :=
  Async.runEach t (before ++ bad :: rest) w =
    (Async.Done (Throw Redis.commandRejected), w').

(** X24: how the hooks fail when Redis rejects a command, command by
    command; the hooks are cut at their [await]s and each piece runs in its
    own environment. Every rejection makes the hook throw. [onConnect]:
    rejected at the read or at the write of the gauge, the connection is
    refused and not counted; rejected at the read of the room's metadata
    (a user in the context, no fresh cache entry), the connection is refused
    after it has been counted, and the gauge keeps it. [onDisconnect]:
    rejected at the read or at the write, the slot is not released.
    [incrementCounter], through which the message limiter of
    [beforeHandleMessage] counts: rejected at INCR, nothing is counted;
    rejected at the EXPIRE that follows the first INCR of a key, the key
    holds 1 with no expiry. [beforeHandleMessage] throws when its first
    command is rejected. *)
Theorem hooks_store_failure `{Redis.Json Redis.RoomMetadata}
    (cfg : Config) (documentName socketId clientIp roomId key : string)
    (ttl : Z) (user : option Auth.Identity) (member : Auth.Identity)
    (released : option string) (e1 e2 e3 e4 bad : Env) (rest : list Env)
    (w : World) :
  onBackend true e1 -> onBackend true e2 -> rejecting bad ->
  let gauge := RateLimit.connectionsKey clientIp in
  let count := RateLimit.countOf (peek e1 w gauge) in
  let counted :=
    set_ipConnectionCounts (insert clientIp (Js.add count 1))
      (stored e2 gauge (toString (Js.add count 1)) 3600 w) in
  let releasedIp :=
    if truthy_opt released then default "" released else "unknown" in
  let once :=
    set_redis (insert key {| r_value := "1"; r_expireAt := None |}) w in
  (rejectedAfter (Async.onConnectT cfg documentName socketId user clientIp)
     [] bad rest w w /\
   (Js.geb count (rateLimitConnectionsPerIp cfg) = false ->
    rejectedAfter (Async.onConnectT cfg documentName socketId user clientIp)
      [e1] bad rest w w /\
    (Auth.extractRoomIdFromDocumentName documentName = Some roomId ->
     (forall cached, roomMetadataCache w !! roomId = Some cached ->
                     cm_expiresAt cached <= env_now e4) ->
     rejectedAfter
       (Async.onConnectT cfg documentName socketId (Some member) clientIp)
       [e1; e2; e3; e4] bad rest w counted /\
     peek e2 counted gauge = Some (toString (Js.add count 1))))) /\
  (rejectedAfter (Async.onDisconnectT released) [] bad rest w w /\
   (forall v, peek e1 w (RateLimit.connectionsKey releasedIp) = Some v ->
              truthy v = true -> Js.gtb (parseInt v) 0 = true ->
              rejectedAfter (Async.onDisconnectT released) [e1] bad rest w w)) /\
  (rejectedAfter (Async.incrementCounterT key ttl) [] bad rest w w /\
   (RedisServer.lookup (env_now e1) (redis w) key = None ->
    rejectedAfter (Async.incrementCounterT key ttl) [e1] bad rest w once /\
    forall t, peek (redisAt t) once key = Some "1")) /\
  (Auth.extractRoomIdFromDocumentName documentName = Some roomId ->
   Index.beforeHandleMessage cfg documentName socketId bad w =
     (Throw Redis.commandRejected, w)).
Proof.
  intros (Hr1 & Hf1) (Hr2 & Hf2) (Hr & Hf) gauge count counted releasedIp once.
  pose proof (unhealthy_env bad Hr Hf) as Hbad.
  assert (healthy e1) as Hh1 by (intros _; exact Hf1).
  assert (healthy e2) as Hh2 by (intros _; exact Hf2).
  unfold rejectedAfter. split; [|split; [|split]].
  - unfold Async.onConnectT, Async.trackIpConnectionT.
    cbn [Async.bindT app]. split.
    + cbn [Async.runEach Async.step].
      rewrite getValue_faulty by assumption. now rewrite runEach_done.
    + intros Hroom. cbn [Async.runEach Async.step].
      rewrite getValue_ok by assumption. fold gauge. fold count.
      rewrite Hroom. rewrite (swept_onRedis e1) by assumption.
      cbn [Async.bindT]. split.
      * cbn [Async.runEach Async.step].
        rewrite setValue_faulty by assumption. now rewrite runEach_done.
      * intros Hdoc Hmiss. split.
        2:{ subst counted. rewrite peek_set_ipConnectionCounts.
            apply peek_stored_same; [reflexivity | lia]. }
        cbn [Async.runEach Async.step].
        rewrite setValue_ok by (assumption || lia).
        cbn [Async.bindT Async.runEach Async.step].
        unfold RateLimit.ipCountsSet at 1. fold counted.
        cbn [negb]. unfold Async.validateRoomMembershipT,
          Async.validateRoomAccessT. rewrite Hdoc.
        apply extractRoomId_iff in Hdoc as (Hne & _).
        rewrite (proj2 (truthy_true _) Hne).
        unfold Async.getCachedRoomMembersT.
        cbn [negb Async.bindT Async.callT Async.runEach Async.step].
        unfold bind, RoomIsolation.cacheGet, dateNow, ret. cbn [fst snd].
        assert (roomMetadataCache counted !! roomId =
                roomMetadataCache w !! roomId) as ->.
        { subst counted. unfold stored. rewrite Hr2. reflexivity. }
        destruct (roomMetadataCache w !! roomId) as [cached|] eqn:Hc;
          [specialize (Hmiss cached eq_refl);
           replace (env_now e4 <? cm_expiresAt cached) with false
             by (symmetry; apply Z.ltb_ge; lia)|];
          unfold Async.readThroughT;
          cbn [Async.bindT Async.callT Async.runEach Async.step];
          rewrite getRoomMetadata_faulty by assumption;
          now rewrite runEach_done.
  - unfold Async.onDisconnectT, Async.releaseIpConnectionT. fold releasedIp.
    cbv zeta. cbn [Async.bindT Async.callT app]. split.
    + cbn [Async.runEach Async.step].
      rewrite getValue_faulty by assumption. now rewrite runEach_done.
    + intros v Hv Htruthy Hpos. cbn [Async.runEach Async.step].
      rewrite getValue_ok by assumption. rewrite Hv.
      rewrite (swept_onRedis e1) by assumption.
      cbn [truthy_opt from_option id]. rewrite Htruthy, Hpos.
      cbn [Async.bindT Async.callT Async.runEach Async.step].
      rewrite setValue_faulty by assumption. now rewrite runEach_done.
  - unfold Async.incrementCounterT. cbn [app]. split.
    + cbn [Async.runEach Async.step]. unfold Async.incrementFirst. run_m.
      rewrite Hr, Hf. now rewrite runEach_done.
    + intros Hnew. split.
      * cbn [Async.runEach Async.step]. unfold Async.incrementFirst. run_m.
        rewrite Hr1, Hf1. unfold RedisServer.INCR. rewrite Hnew.
        cbn [Z.eqb Pos.eqb Async.runEach Async.step]. run_m. rewrite Hf.
        now rewrite runEach_done.
      * intros t. subst once. unfold peek. cbn [env_ready redisAt redis set_redis].
        unfold RedisServer.GET, RedisServer.lookup.
        now rewrite lookup_insert_eq.
  - intros Hdoc. unfold Index.beforeHandleMessage. rewrite Hdoc.
    apply extractRoomId_iff in Hdoc as (Hne & _).
    rewrite (proj2 (truthy_true _) Hne).
    unfold bind, RateLimit.checkMessageRateLimit,
      RateLimit.checkConnectionRateLimit, RateLimit.getCurrentMinute, bind,
      dateNow, ret.
    now rewrite incrementCounter_faulty.
Qed.

(** A member of room r1 connects; the gauge is read and written, then the
    read of the room's metadata is rejected: the hook throws, and the gauge
    of the IP holds 1. *)
Lemma hooks_store_failure_witness :
  let bad := {| env_now := 1004; env_ready := true; env_fault := true |} in
  let member := {| Auth.id_userId := "u1"; Auth.id_role := "host" |} in
  let r := Async.runEach
             (Async.onConnectT defaultConfig "room:r1:main" "socket-1"
                (Some member) "10.0.0.1")
             [redisAt 1000; redisAt 1001; redisAt 1002; redisAt 1003; bad]
             emptyWorld in
  r.1 = Async.Done (Throw Redis.commandRejected) /\
  peek (redisAt 1001) r.2 (RateLimit.connectionsKey "10.0.0.1") = Some "1".
Proof.
  intros bad member r.
  destruct (hooks_store_failure defaultConfig "room:r1:main" "socket-1"
              "10.0.0.1" "r1" "k" 60 None member None
              (redisAt 1000) (redisAt 1001) (redisAt 1002) (redisAt 1003) bad []
              emptyWorld (conj eq_refl eq_refl) (conj eq_refl eq_refl)
              (conj eq_refl eq_refl))
    as ((_ & Hconn) & _).
  destruct (Hconn eq_refl) as (_ & Hread).
  destruct (Hread eq_refl ltac:(intros cached Hc; discriminate Hc))
    as (Hrun & Hpeek).
  unfold rejectedAfter in Hrun. cbn [app] in Hrun.
  subst r. rewrite Hrun. cbn [fst snd]. split; [reflexivity | exact Hpeek].
Defined.

(* ===================================================================== *)
(** ** The membership decision (src/middleware/room-isolation.ts) *)
(* ===================================================================== *)

(** The member list [validateRoomAccess] decides from: the cached one while
    the cache entry has not expired, the stored one otherwise. *)
Definition membersSeen `{Redis.Json Redis.RoomMetadata}
    (roomId : string) (env : Env) (w : World) : option (list string) :=
  match roomMetadataCache w !! roomId with
  | Some cached =>
      if env_now env <? cm_expiresAt cached then Some (cm_members cached)
      else Redis.rm_members <$> metadataAt env w roomId
  | None => Redis.rm_members <$> metadataAt env w roomId
  end.

(** X25: with a store that answers, [validateRoomAccess] never throws and
    decides as follows. A document name that yields no room id: failure
    "Invalid document name format" with no room id, nothing read or written.
    Otherwise it decides from the cached member list while the cache entry
    has not expired and from the stored metadata otherwise: no room gives
    "Room not found or expired", a list without the user gives "User is not
    a member of this room", a list with the user gives success; the result
    carries the room id in all three cases. A missing room is not cached. *)
Theorem validateRoomAccess_decision `{Redis.Json Redis.RoomMetadata}
    (userId documentName : string) (env : Env) (w : World) :
  healthy env ->
  let r := RoomIsolation.validateRoomAccess userId documentName env w in
  match Auth.extractRoomIdFromDocumentName documentName with
  | None =>
      r = (Return {| RoomIsolation.ri_success := false;
                     RoomIsolation.ri_roomId := None;
                     RoomIsolation.ri_error :=
                       Some "Invalid document name format" |}, w)
  | Some roomId =>
      r.1 = Return
              match membersSeen roomId env w with
              | None =>
                  {| RoomIsolation.ri_success := false;
                     RoomIsolation.ri_roomId := Some roomId;
                     RoomIsolation.ri_error := Some "Room not found or expired" |}
              | Some members =>
                  if includes members userId
                  then {| RoomIsolation.ri_success := true;
                          RoomIsolation.ri_roomId := Some roomId;
                          RoomIsolation.ri_error := None |}
                  else {| RoomIsolation.ri_success := false;
                          RoomIsolation.ri_roomId := Some roomId;
                          RoomIsolation.ri_error :=
                            Some "User is not a member of this room" |}
              end /\
      (membersSeen roomId env w = None ->
       roomMetadataCache r.2 !! roomId = roomMetadataCache w !! roomId)
  end.
Proof.
  intros Hh r. subst r. unfold RoomIsolation.validateRoomAccess.
  destruct (Auth.extractRoomIdFromDocumentName documentName) as [roomId|] eqn:Hdoc;
    [|reflexivity].
  apply extractRoomId_iff in Hdoc as (Hne & _).
  rewrite (proj2 (truthy_true _) Hne). cbn [negb]. unfold bind, membersSeen.
  assert (forall o : option (list string) * World,
            o = (match metadataAt env w roomId with
                 | Some m => Some (Redis.rm_members m)
                 | None => None
                 end,
                 match metadataAt env w roomId with
                 | Some m =>
                     set_roomMetadataCache
                       (insert roomId {| cm_members := Redis.rm_members m;
                                         cm_expiresAt := env_now env + 60 * 1000 |})
                       (swept env w)
                 | None => swept env w
                 end) ->
            RoomIsolation.readThrough roomId env w = (Return o.1, o.2)) as Hread.
  { intros o ->. rewrite readThrough_ok by assumption.
    now destruct (metadataAt env w roomId). }
  specialize (Hread _ eq_refl). cbn [fst snd] in Hread.
  destruct (roomMetadataCache w !! roomId) as [cached|] eqn:Hc.
  - destruct (env_now env <? cm_expiresAt cached) eqn:Hlive.
    + apply Z.ltb_lt in Hlive.
      rewrite (getCachedRoomMembers_hit roomId env w cached Hc Hlive).
      split; [|discriminate].
      destruct (includes (cm_members cached) userId); reflexivity.
    + apply Z.ltb_ge in Hlive. rewrite getCachedRoomMembers_miss
        by (intros c Hc'; rewrite Hc in Hc'; injection Hc' as <-; lia).
      rewrite Hread.
      destruct (metadataAt env w roomId) as [m|]; cbn [fmap option_fmap option_map].
      * split; [|discriminate].
        destruct (includes (Redis.rm_members m) userId); reflexivity.
      * split; [reflexivity|]. intros _. unfold ret. cbn [snd].
        now rewrite swept_roomMetadataCache.
  - rewrite getCachedRoomMembers_miss
      by (intros c Hc'; rewrite Hc in Hc'; discriminate).
    rewrite Hread.
    destruct (metadataAt env w roomId) as [m|]; cbn [fmap option_fmap option_map].
    + split; [|discriminate].
      destruct (includes (Redis.rm_members m) userId); reflexivity.
    + split; [reflexivity|]. intros _. unfold ret. cbn [snd].
      now rewrite swept_roomMetadataCache.
Qed.

(** A user who is no member of a registered room is refused. *)
Lemma validateRoomAccess_decision_witness :
  let w := (RoomApi.register "r1" "ABC123" "u1" (inProcessAt 1000) emptyWorld).2 in
  (RoomIsolation.validateRoomAccess "u9" "room:r1:main" (inProcessAt 2000) w).1 =
    Return {| RoomIsolation.ri_success := false;
              RoomIsolation.ri_roomId := Some "r1";
              RoomIsolation.ri_error :=
                Some "User is not a member of this room" |}.
Proof.
  intros w.
  exact (proj1 (validateRoomAccess_decision "u9" "room:r1:main"
                  (inProcessAt 2000) w (healthy_inProcessAt 2000))).
Defined.

(* ===================================================================== *)
(** ** Registering a room id twice (src/api/room.ts) *)
(* ===================================================================== *)

Section Reregistration.
Context `{Redis.Json Redis.RoomMetadata} `{Redis.Json Redis.RoomCodeMapping}
  `{Auth.Jwt}.

Lemma roomCodeKey_inj (a b : string) :
  Redis.roomCodeKey a = Redis.roomCodeKey b -> a = b.
Proof. unfold Redis.roomCodeKey. apply String.app_inj. Qed.

End Reregistration.

(** X26: register does not look whether the room id is already registered.
    A second registration of the same room id under another, free code
    answers 200 and replaces the room: GET /:roomId then reports the second
    caller as host with memberCount 1, get-token (with a non-empty signing
    secret) gives that caller a host token and answers the first host 403
    "User is not a member of this room"; the first code still resolves to
    the room id. The two registrations and the reads follow one another on
    one backend, within 7 days of the first. *)
Theorem reregistration_replaces_room `{Redis.Json Redis.RoomMetadata}
    `{Redis.Json Redis.RoomCodeMapping} `{Auth.Jwt}
    (cfg : Config) (roomId code1 code2 host1 host2 nodeEnv : string)
    (wsPort : Z) (env0 env1 env2 : Env) (w : World) :
  healthy env0 -> healthy env1 -> healthy env2 ->
  env_ready env1 = env_ready env0 -> env_ready env2 = env_ready env0 ->
  roomId <> "" -> code1 <> "" -> code2 <> "" -> host1 <> "" -> host2 <> "" ->
  code1 <> code2 -> host1 <> host2 -> jwtSecret cfg <> "" ->
  peek env0 w (Redis.roomCodeKey code1) = None ->
  peek env1 w (Redis.roomCodeKey code2) = None ->
  0 <= env_now env0 <= env_now env1 ->
  env_now env1 <= env_now env2 <= env_now env0 + Redis.ROOM_TTL * 1000 ->
  let w1 := (RoomApi.register roomId code1 host1 env0 w).2 in
  let second := RoomApi.register roomId code2 host2 env1 w1 in
  second.1 = Return {| RoomApi.status := 200;
                       RoomApi.body := RoomApi.RegisterBody roomId code2 |} /\
  (RoomApi.getRoom roomId env2 second.2).1 =
    Return {| RoomApi.room_status := 200;
              RoomApi.room_body :=
                RoomApi.RoomInfo roomId host2 1 (env_now env1) |} /\
  (exists token,
     Auth.generateToken cfg (env_now env2) host2 roomId Auth.host =
       Return (token, env_now env2 + 7 * 24 * 60 * 60 * 1000) /\
     (RoomApi.getToken cfg host2 roomId "host" env2 second.2).1 =
       Return (tokenAnswer (token, env_now env2 + 7 * 24 * 60 * 60 * 1000))) /\
  (RoomApi.getToken cfg host1 roomId "guest" env2 second.2).1 =
    Return notAMember /\
  (RoomApi.join nodeEnv wsPort code1 env2 second.2).1 =
    Return {| RoomApi.join_status := 200;
              RoomApi.join_body :=
                RoomApi.JoinBody_ok roomId (wsUrlOf nodeEnv wsPort) |}.
Proof.
  intros Hh0 Hh1 Hh2 Hr1 Hr2 Hroom Hc1 Hc2 Hu1 Hu2 Hcodes Hhosts Hsecret
    Hfree1 Hfree2 Hnow1 Hnow2.
  cbv zeta. rewrite (register_world roomId code1 host1 env0 w) by assumption.
  cbn [snd]. pose proof ROOM_TTL_pos as Httl.
  assert (peek env1 (registered env0 roomId code1 host1 w)
            (Redis.roomCodeKey code2) = None) as Hfree2'.
  { unfold registered.
    rewrite peek_stored_other
      by (intros Heq; symmetry in Heq; revert Heq; apply roomKeys_distinct).
    rewrite peek_stored_other
      by (intros Heq; apply roomCodeKey_inj in Heq; congruence).
    now rewrite peek_swept by lia. }
  rewrite register_world by assumption. cbn [fst snd].
  split; [reflexivity|].
  set (w1 := registered env0 roomId code1 host1 w).
  set (m2 := {| Redis.rm_roomId := roomId; Redis.rm_hostUserId := host2;
                Redis.rm_members := [host2];
                Redis.rm_createdAt := env_now env1 |}).
  assert (metadataAt env2 (registered env1 roomId code2 host2 w1) roomId =
          Some m2) as Hm2
    by (apply (metadataAt_stored env1 env2 m2); [congruence | lia]).
  split; [|split; [|split]].
  - rewrite getRoom_ok by assumption. cbn [fst]. now rewrite Hm2.
  - destruct (generateToken_returns cfg (env_now env2) host2 roomId Auth.host
                Hsecret) as (token & Hissued & _).
    exists token. split; [exact Hissued|].
    rewrite (getToken_ok cfg host2 roomId Auth.host env2 _) by assumption.
    rewrite Hm2, Hissued.
    cbn [fst Redis.rm_members Redis.rm_hostUserId m2 includes existsb].
    now rewrite !String.eqb_refl.
  - rewrite (getToken_ok cfg host1 roomId Auth.guest env2 _) by assumption.
    rewrite Hm2. cbn [fst Redis.rm_members m2 includes existsb].
    now rewrite (proj2 (String.eqb_neq host1 host2) Hhosts).
  - rewrite join_ok by assumption. cbn [fst].
    replace (mappingAt env2 (registered env1 roomId code2 host2 w1) code1)
      with (Some {| Redis.rc_roomId := roomId; Redis.rc_hostUserId := host1 |});
      [reflexivity|].
    symmetry. unfold mappingAt, registered at 1.
    rewrite peek_stored_other
      by (intros Heq; symmetry in Heq; revert Heq; apply roomKeys_distinct).
    rewrite peek_stored_other
      by (intros Heq; apply roomCodeKey_inj in Heq; congruence).
    rewrite peek_swept by lia. subst w1. unfold registered.
    rewrite peek_stored_other
      by (intros Heq; symmetry in Heq; revert Heq; apply roomKeys_distinct).
    rewrite peek_stored_same by (congruence || lia). apply parse_stored.
Qed.

(** u1 registers r1; u9 registers r1 again under another code and holds a
    host token; u1 is no member any more. *)
Lemma reregistration_replaces_room_witness :
  let w1 := (RoomApi.register "r1" "AAA111" "u1" (redisAt 1000) emptyWorld).2 in
  let second := RoomApi.register "r1" "BBB222" "u9" (redisAt 2000) w1 in
  (exists token,
     Auth.generateToken defaultConfig 3000 "u9" "r1" Auth.host =
       Return (token, 3000 + 7 * 24 * 60 * 60 * 1000) /\
     (RoomApi.getToken defaultConfig "u9" "r1" "host" (redisAt 3000) second.2).1 =
       Return (tokenAnswer (token, 3000 + 7 * 24 * 60 * 60 * 1000))) /\
  (RoomApi.getToken defaultConfig "u1" "r1" "guest" (redisAt 3000) second.2).1 =
    Return notAMember.
Proof.
  intros w1 second.
  destruct (reregistration_replaces_room defaultConfig "r1" "AAA111" "BBB222"
              "u1" "u9" "development" 1234 (redisAt 1000) (redisAt 2000)
              (redisAt 3000) emptyWorld
              (healthy_redisAt _) (healthy_redisAt _) (healthy_redisAt _)
              eq_refl eq_refl ltac:(discriminate) ltac:(discriminate)
              ltac:(discriminate) ltac:(discriminate) ltac:(discriminate)
              ltac:(discriminate) ltac:(discriminate) ltac:(discriminate)
              eq_refl eq_refl
              ltac:(cbn; lia) ltac:(vm_compute; split; discriminate))
    as (_ & _ & Hhost & Hold & _).
  split; [exact Hhost | exact Hold].
Defined.
